(** * OpenGov-EarlyMathematics: problem engine and learning-path engine

    A shallow embedding of
      - [core/models.py]         (enumerations, [LearningPath], [Problem], [Lesson]),
      - [config.py]              (the educational settings),
      - [core/curriculum.py]     (grade table, lesson store, lesson filter),
      - [core/problem_engine.py] ([MathProblemSolver]),
      - [core/learning_path.py]  ([LearningPathGenerator]),
    followed by the properties established about them.

    Conventions.  A Python [str] is a [string]; one [ascii] stands for one
    code point below 256 (every literal of the sources lies in that range).
    A Python [int] is a [Z], a Python [float] is a primitive binary64
    [float].  A [dict] is an association list in insertion order.  Raised
    exceptions are values of [result].  [random] and [datetime.utcnow] are
    read from tapes threaded through the calls. *)

From Stdlib Require Import ZArith List String Ascii Bool Lia Floats DecimalString.
Import ListNotations.

Set Warnings "-inexact-float".

Open Scope list_scope.
Open Scope string_scope.
Open Scope Z_scope.

(* ================================================================== *)
(** * Python primitives used by the sources *)
(* ================================================================== *)

Module Py.

(** The two exception classes the modelled code can raise.  pydantic's
    [ValidationError] and the enumerations' lookup failure are both
    [ValueError]s. *)
Inductive exn : Type := ValueError | IndexError.

Inductive result (A : Type) : Type :=
| Ok (a : A)
| Raise (e : exn).
Arguments Ok {A} a.
Arguments Raise {A} e.

Definition bind {A B} (r : result A) (k : A -> result B) : result B :=
  match r with
  | Ok a => k a
  | Raise e => Raise e
  end.

(** ** Integers and their rendering *)

(** [str(n)] for an [int]. *)
Definition str_int (n : Z) : string := NilZero.string_of_int (Z.to_int n).

(** [len(l)] *)
Definition len {A} (l : list A) : Z := Z.of_nat (List.length l).

(** ** Lists *)

(** [l[i]]: a negative index counts from the end; out of range raises. *)
Definition index {A} (l : list A) (i : Z) : result A :=
  let j := if i <? 0 then len l + i else i in
  if j <? 0 then Raise IndexError
  else match nth_error l (Z.to_nat j) with
       | Some a => Ok a
       | None => Raise IndexError
       end.

(** [l.insert(i, x)]: a negative index counts from the end, and the
    position is clamped to [0 .. len(l)]; never raises. *)
Definition insert {A} (i : Z) (x : A) (l : list A) : list A :=
  let j := if i <? 0 then Z.max 0 (len l + i) else Z.min i (len l) in
  (firstn (Z.to_nat j) l ++ x :: skipn (Z.to_nat j) l)%list.

(** [l[:k]] for a literal [k >= 0]. *)
Definition take {A} (k : nat) (l : list A) : list A := firstn k l.

(** [l.sort(key=...)] with an integer key: a stable sort (insertion from
    the right keeps equal keys in their original order). *)
Fixpoint insert_sorted {A} (key : A -> Z) (x : A) (l : list A) : list A :=
  match l with
  | [] => [x]
  | y :: l' => if key x <=? key y then x :: l
               else y :: insert_sorted key x l'
  end.

Definition sort_by {A} (key : A -> Z) (l : list A) : list A :=
  fold_right (insert_sorted key) [] l.

(** ** Strings *)

(** [list(s)]: the characters of a string. *)
Definition chars : string -> list ascii := list_ascii_of_string.

(** [x in l] for a list of strings. *)
Definition mem (x : string) (l : list string) : bool :=
  existsb (String.eqb x) l.

(** [c.isspace()] on the code points below 256: TAB..CR, FS..US, space,
    NEL (0x85) and the no-break space (0xA0). *)
Definition isspace (c : ascii) : bool :=
  let n := nat_of_ascii c in
  ((9 <=? n) && (n <=? 13) || (28 <=? n) && (n <=? 32)
   || (n =? 133) || (n =? 160))%nat.

(** The class [\d] of [re] on the code points below 256: the ten ASCII
    digits (no other code point below 256 has category Nd). *)
Definition isdigit (c : ascii) : bool :=
  let n := nat_of_ascii c in ((48 <=? n) && (n <=? 57))%nat.

Fixpoint lstrip (s : string) : string :=
  match s with
  | EmptyString => EmptyString
  | String c s' => if isspace c then lstrip s' else s
  end.

Fixpoint rstrip (s : string) : string :=
  match s with
  | EmptyString => EmptyString
  | String c s' =>
      match rstrip s' with
      | EmptyString => if isspace c then EmptyString else String c EmptyString
      | r => String c r
      end
  end.

(** [s.strip()] *)
Definition strip (s : string) : string := rstrip (lstrip s).

(** [c.lower()] on the code points below 256: A..Z and the capital
    letters 0xC0..0xDE (0xD7, the multiplication sign, excepted). *)
Definition lower_char (c : ascii) : ascii :=
  let n := nat_of_ascii c in
  if ((65 <=? n) && (n <=? 90)
      || (192 <=? n) && (n <=? 222) && negb (n =? 215))%nat
  then ascii_of_nat (n + 32) else c.

Fixpoint lower (s : string) : string :=
  match s with
  | EmptyString => EmptyString
  | String c s' => String (lower_char c) (lower s')
  end.

Fixpoint string_prefix (p s : string) : bool :=
  match p, s with
  | EmptyString, _ => true
  | String a p', String b s' => Ascii.eqb a b && string_prefix p' s'
  | String _ _, EmptyString => false
  end.

(** [sub in s] for strings. *)
Fixpoint contains (sub s : string) : bool :=
  string_prefix sub s
  || match s with
     | EmptyString => false
     | String _ s' => contains sub s'
     end.

(** ** Dictionaries

    Keys are compared with [eqb]; a dictionary keeps its entries in
    insertion order, and assigning to a key already present keeps the
    key's position. *)
Definition dict (K V : Type) : Type := list (K * V).

Section Dict.
Context {K V : Type} (eqb : K -> K -> bool).

(** [d.get(k)] *)
Fixpoint get (k : K) (d : dict K V) : option V :=
  match d with
  | [] => None
  | (k', v) :: d' => if eqb k k' then Some v else get k d'
  end.

(** [d.get(k, default)] *)
Definition get_default (k : K) (default : V) (d : dict K V) : V :=
  match get k d with
  | Some v => v
  | None => default
  end.

(** [d[k] = v] *)
Fixpoint set (k : K) (v : V) (d : dict K V) : dict K V :=
  match d with
  | [] => [(k, v)]
  | (k', v') :: d' =>
      if eqb k k' then (k', v) :: d' else (k', v') :: set k v d'
  end.

(** [d.keys()] *)
Definition keys (d : dict K V) : list K := map fst d.
End Dict.

(** ** Tapes: the values an effectful primitive returns, call after call *)

Definition tape (A : Type) : Type := nat -> A.

Definition next {A} (t : tape A) : A * tape A := (t 0%nat, fun n => t (S n)).

End Py.

Import Py.

(* ================================================================== *)
(** * [core/models.py] *)
(* ================================================================== *)

Module Models.

(** ** Enumerations (each a [str]-valued [Enum]) *)

Inductive GradeLevel : Type :=
| KINDERGARTEN | GRADE_1 | GRADE_2 | GRADE_3 | GRADE_4 | GRADE_5 | GRADE_6
| GRADE_7 | GRADE_8 | GRADE_9 | GRADE_10 | GRADE_11 | GRADE_12.

Inductive DifficultyLevel : Type :=
| BEGINNER | INTERMEDIATE | ADVANCED | EXPERT.

Inductive LearningStyle : Type :=
| VISUAL | AUDITORY | KINESTHETIC | READING_WRITING.

Inductive MathTopic : Type :=
(* Early Math *)
| COUNTING | NUMBER_RECOGNITION | BASIC_ADDITION | BASIC_SUBTRACTION
| SHAPES | PATTERNS | MEASUREMENT | TIME | MONEY
(* Elementary *)
| MULTIPLICATION | DIVISION | FRACTIONS | DECIMALS | GEOMETRY
| DATA_GRAPHS | WORD_PROBLEMS
(* Middle School *)
| PRE_ALGEBRA | RATIOS | PROPORTIONS | STATISTICS | PROBABILITY
| COORDINATE_GEOMETRY | ALGEBRAIC_THINKING
(* High School *)
| ALGEBRA_1 | ALGEBRA_2 | GEOMETRY_ADVANCED | TRIGONOMETRY
| PRE_CALCULUS | CALCULUS.

Scheme Equality for GradeLevel.
Scheme Equality for DifficultyLevel.
Scheme Equality for LearningStyle.
Scheme Equality for MathTopic.

(** The members in definition order, and each member's [.value]. *)

Definition all_grades : list GradeLevel :=
  [KINDERGARTEN; GRADE_1; GRADE_2; GRADE_3; GRADE_4; GRADE_5; GRADE_6;
   GRADE_7; GRADE_8; GRADE_9; GRADE_10; GRADE_11; GRADE_12].

Definition grade_value (g : GradeLevel) : string :=
  match g with
  | KINDERGARTEN => "K" | GRADE_1 => "1" | GRADE_2 => "2" | GRADE_3 => "3"
  | GRADE_4 => "4" | GRADE_5 => "5" | GRADE_6 => "6" | GRADE_7 => "7"
  | GRADE_8 => "8" | GRADE_9 => "9" | GRADE_10 => "10" | GRADE_11 => "11"
  | GRADE_12 => "12"
  end.

Definition all_difficulties : list DifficultyLevel :=
  [BEGINNER; INTERMEDIATE; ADVANCED; EXPERT].

Definition difficulty_value (d : DifficultyLevel) : string :=
  match d with
  | BEGINNER => "beginner" | INTERMEDIATE => "intermediate"
  | ADVANCED => "advanced" | EXPERT => "expert"
  end.

Definition all_styles : list LearningStyle :=
  [VISUAL; AUDITORY; KINESTHETIC; READING_WRITING].

Definition style_value (s : LearningStyle) : string :=
  match s with
  | VISUAL => "visual" | AUDITORY => "auditory"
  | KINESTHETIC => "kinesthetic" | READING_WRITING => "reading_writing"
  end.

Definition all_topics : list MathTopic :=
  [COUNTING; NUMBER_RECOGNITION; BASIC_ADDITION; BASIC_SUBTRACTION;
   SHAPES; PATTERNS; MEASUREMENT; TIME; MONEY;
   MULTIPLICATION; DIVISION; FRACTIONS; DECIMALS; GEOMETRY;
   DATA_GRAPHS; WORD_PROBLEMS;
   PRE_ALGEBRA; RATIOS; PROPORTIONS; STATISTICS; PROBABILITY;
   COORDINATE_GEOMETRY; ALGEBRAIC_THINKING;
   ALGEBRA_1; ALGEBRA_2; GEOMETRY_ADVANCED; TRIGONOMETRY;
   PRE_CALCULUS; CALCULUS].

Definition topic_value (t : MathTopic) : string :=
  match t with
  | COUNTING => "counting" | NUMBER_RECOGNITION => "number_recognition"
  | BASIC_ADDITION => "basic_addition"
  | BASIC_SUBTRACTION => "basic_subtraction"
  | SHAPES => "shapes" | PATTERNS => "patterns"
  | MEASUREMENT => "measurement" | TIME => "time" | MONEY => "money"
  | MULTIPLICATION => "multiplication" | DIVISION => "division"
  | FRACTIONS => "fractions" | DECIMALS => "decimals"
  | GEOMETRY => "geometry" | DATA_GRAPHS => "data_graphs"
  | WORD_PROBLEMS => "word_problems"
  | PRE_ALGEBRA => "pre_algebra" | RATIOS => "ratios"
  | PROPORTIONS => "proportions" | STATISTICS => "statistics"
  | PROBABILITY => "probability"
  | COORDINATE_GEOMETRY => "coordinate_geometry"
  | ALGEBRAIC_THINKING => "algebraic_thinking"
  | ALGEBRA_1 => "algebra_1" | ALGEBRA_2 => "algebra_2"
  | GEOMETRY_ADVANCED => "geometry_advanced"
  | TRIGONOMETRY => "trigonometry" | PRE_CALCULUS => "pre_calculus"
  | CALCULUS => "calculus"
  end.

(** [E(value)]: the member whose value is the given string, [ValueError]
    when there is none. *)
Definition enum_of_value {E} (members : list E) (value : E -> string)
    (s : string) : result E :=
  match find (fun m => String.eqb (value m) s) members with
  | Some m => Ok m
  | None => Raise ValueError
  end.

Definition GradeLevel_of : string -> result GradeLevel :=
  enum_of_value all_grades grade_value.
Definition DifficultyLevel_of : string -> result DifficultyLevel :=
  enum_of_value all_difficulties difficulty_value.
Definition LearningStyle_of : string -> result LearningStyle :=
  enum_of_value all_styles style_value.
Definition MathTopic_of : string -> result MathTopic :=
  enum_of_value all_topics topic_value.

(** ** [Student] (the fields [_get_or_create_student] sets; the others
    take their defaults) *)
Record Student : Type := mkStudent {
  student_ident : string;
  student_name : string;
  student_grade_level : GradeLevel;
  student_age : Z;
  student_learning_style : LearningStyle
}.

(** ** [Problem] *)
Record Problem : Type := mkProblem {
  problem_id : string;
  problem_topic : MathTopic;
  problem_grade_level : GradeLevel;
  problem_difficulty : DifficultyLevel;
  question : string;
  answer : string;
  solution_steps : list string;
  hints : list string;
  explanation : string
}.

(** ** [Lesson]: the fields the engines read ([objectives],
    [content_blocks] and the other payload fields are never inspected). *)
Record Lesson : Type := mkLesson {
  lesson_id : string;
  title : string;
  lesson_topic : MathTopic;
  lesson_grade_level : GradeLevel;
  duration_minutes : Z;
  practice_problems : list string
}.

(** ** [LearningPath]

    [datetime] is a clock reading.  An entry of [adaptive_adjustments] is
    the dictionary the code appends, kept as a tagged record: its
    ["action"] is the constructor, and the values from which the
    ["timestamp"] and ["reason"] strings are formatted are kept as they
    are (the reading of the clock, the mastery score). *)
Definition datetime : Type := Z.

Inductive Adjustment : Type :=
| added_remedial (timestamp : datetime) (topic : MathTopic) (mastery : float)
| accelerated_path (timestamp : datetime).

(** The [id] is [f"path_{student_id}_{now.timestamp()}"]: the student and
    the reading it is formatted from.  [estimated_completion_date] is
    [now + timedelta(weeks=n)]: the reading and the number of weeks. *)
Record LearningPath : Type := mkLearningPath {
  path_id : string * datetime;
  student_id : string;
  current_lesson : Z;
  lessons : list string;
  progress : dict string float;
  mastery_scores : dict MathTopic float;
  recommended_topics : list MathTopic;
  learning_goals : list string;
  estimated_completion_date : option (datetime * float);
  adaptive_adjustments : list Adjustment;
  created_at : datetime;
  updated_at : datetime
}.

End Models.

Import Models.

(* ================================================================== *)
(** * [config.py] *)
(* ================================================================== *)

Module Config.

(** The educational settings read by the engines. *)
Record Settings : Type := mkSettings {
  min_accuracy_for_advancement : float;
  max_hints_per_problem : Z
}.

(** The defaults ([Field(default=...)]). *)
Definition settings : Settings :=
  {| min_accuracy_for_advancement := 0.8%float;
     max_hints_per_problem := 3 |}.

End Config.

Import Config.

(* ================================================================== *)
(** * [core/curriculum.py] *)
(* ================================================================== *)

Module Curriculum.

(** [_initialize_curriculum]: the topics of each grade, in order. *)
Definition topics_by_grade : dict GradeLevel (list MathTopic) :=
  [ (KINDERGARTEN, [COUNTING; NUMBER_RECOGNITION; SHAPES; PATTERNS]);
    (GRADE_1, [COUNTING; BASIC_ADDITION; BASIC_SUBTRACTION; SHAPES;
               MEASUREMENT]);
    (GRADE_2, [BASIC_ADDITION; BASIC_SUBTRACTION; TIME; MONEY; MEASUREMENT]);
    (GRADE_3, [MULTIPLICATION; DIVISION; FRACTIONS; GEOMETRY; WORD_PROBLEMS]);
    (GRADE_4, [MULTIPLICATION; DIVISION; FRACTIONS; DECIMALS; DATA_GRAPHS]);
    (GRADE_5, [FRACTIONS; DECIMALS; GEOMETRY; DATA_GRAPHS; WORD_PROBLEMS]);
    (GRADE_6, [PRE_ALGEBRA; RATIOS; PROPORTIONS; STATISTICS;
               COORDINATE_GEOMETRY]);
    (GRADE_7, [PRE_ALGEBRA; PROPORTIONS; STATISTICS; PROBABILITY;
               ALGEBRAIC_THINKING]);
    (GRADE_8, [ALGEBRA_1; COORDINATE_GEOMETRY; STATISTICS; PROBABILITY;
               ALGEBRAIC_THINKING]);
    (GRADE_9, [ALGEBRA_1; GEOMETRY_ADVANCED]);
    (GRADE_10, [ALGEBRA_2; GEOMETRY_ADVANCED]);
    (GRADE_11, [ALGEBRA_2; TRIGONOMETRY; PRE_CALCULUS]);
    (GRADE_12, [PRE_CALCULUS; CALCULUS; STATISTICS]) ].

(** A curriculum: its lesson store ([self.lessons], by lesson id).  The
    grade table is the same for every instance. *)
Record t : Type := mk {
  lesson_store : dict string Lesson
}.

(** [_create_sample_content]: the store every fresh [Curriculum()] has. *)
Definition sample : t :=
  {| lesson_store :=
       [ ("lesson_mult_3_1",
          {| lesson_id := "lesson_mult_3_1";
             title := "Introduction to Multiplication";
             lesson_topic := MULTIPLICATION;
             lesson_grade_level := GRADE_3;
             duration_minutes := 30;
             practice_problems :=
               ["prob_mult_1"; "prob_mult_2"; "prob_mult_3"] |}) ] |}.

(** [get_topics_for_grade] *)
Definition get_topics_for_grade (grade : GradeLevel) : list MathTopic :=
  get_default GradeLevel_beq grade [] topics_by_grade.

(** [get_lesson] *)
Definition get_lesson (c : t) (id : string) : option Lesson :=
  get String.eqb id (lesson_store c).

(** [get_lessons_for_topic]: the lessons of the store, in store order,
    whose topic (and grade, when one is given) match. *)
Definition get_lessons_for_topic (c : t) (topic : MathTopic)
    (grade : option GradeLevel) : list Lesson :=
  filter
    (fun lesson =>
       MathTopic_beq (lesson_topic lesson) topic
       && match grade with
          | None => true
          | Some g => GradeLevel_beq (lesson_grade_level lesson) g
          end)
    (map snd (lesson_store c)).

End Curriculum.

(* ================================================================== *)
(** * Regular expressions (the fragment of [re] the engine uses) *)
(* ================================================================== *)

Module Re.

Inductive regex : Type :=
| Empty                         (* matches nothing *)
| Eps                           (* the empty string *)
| Chr (c : ascii)               (* a literal character *)
| Class (p : ascii -> bool)     (* a character class, such as [\d] *)
| Seq (r1 r2 : regex)
| Alt (r1 r2 : regex)
| Star (r : regex).

(** [r?] and [r+] *)
Definition Opt (r : regex) : regex := Alt r Eps.
Definition Plus (r : regex) : regex := Seq r (Star r).

Fixpoint nullable (r : regex) : bool :=
  match r with
  | Empty => false
  | Eps => true
  | Chr _ => false
  | Class _ => false
  | Seq r1 r2 => nullable r1 && nullable r2
  | Alt r1 r2 => nullable r1 || nullable r2
  | Star _ => true
  end.

(** The derivative of [r] by the character [c]. *)
Fixpoint deriv (c : ascii) (r : regex) : regex :=
  match r with
  | Empty => Empty
  | Eps => Empty
  | Chr c' => if Ascii.eqb c c' then Eps else Empty
  | Class p => if p c then Eps else Empty
  | Seq r1 r2 =>
      if nullable r1 then Alt (Seq (deriv c r1) r2) (deriv c r2)
      else Seq (deriv c r1) r2
  | Alt r1 r2 => Alt (deriv c r1) (deriv c r2)
  | Star r' => Seq (deriv c r') (Star r')
  end.

(** [r] matches the whole of [s]. *)
Fixpoint fullmatch (r : regex) (s : string) : bool :=
  match s with
  | EmptyString => nullable r
  | String c s' => fullmatch (deriv c r) s'
  end.

(** [s] without its last character, when that character is a newline. *)
Fixpoint chop_newline (s : string) : option string :=
  match s with
  | EmptyString => None
  | String c EmptyString =>
      if Ascii.eqb c (ascii_of_nat 10) then Some EmptyString else None
  | String c s' => option_map (String c) (chop_newline s')
  end.

(** [re.match("^" + r + "$", s)] (no flags): [^] anchors at the start;
    [$] holds at the end of [s] and also just before a newline that ends
    [s].  The result is whether a match object is returned. *)
Definition match_anchored (r : regex) (s : string) : bool :=
  fullmatch r s
  || match chop_newline s with
     | Some s' => fullmatch r s'
     | None => false
     end.

(** The strings of a regular expression. *)
Inductive lang : regex -> string -> Prop :=
| lang_eps : lang Eps ""
| lang_chr c : lang (Chr c) (String c "")
| lang_class (p : ascii -> bool) c : p c = true -> lang (Class p) (String c "")
| lang_seq r1 r2 s1 s2 : lang r1 s1 -> lang r2 s2 -> lang (Seq r1 r2) (s1 ++ s2)
| lang_alt_l r1 r2 s : lang r1 s -> lang (Alt r1 r2) s
| lang_alt_r r1 r2 s : lang r2 s -> lang (Alt r1 r2) s
| lang_star_nil r : lang (Star r) ""
| lang_star_cons r s1 s2 :
    lang r s1 -> lang (Star r) s2 -> lang (Star r) (s1 ++ s2).

End Re.

(* ================================================================== *)
(** * [core/problem_engine.py] *)
(* ================================================================== *)

Module ProblemEngine.

(** ** The random source

    [random.randint(a, b)] returns some integer of [a .. b]; which one is
    decided by the next raw value of the tape. *)
Definition Rand (A : Type) : Type := tape Z -> A * tape Z.

Definition ret {A} (a : A) : Rand A := fun t => (a, t).

Definition bindR {A B} (m : Rand A) (k : A -> Rand B) : Rand B :=
  fun t => let (a, t') := m t in k a t'.

Notation "x <- m ;; k" := (bindR m (fun x => k))
  (at level 61, m at next level, right associativity).
Notation "' pat <- m ;; k" := (bindR m (fun x => match x with pat => k end))
  (at level 61, pat pattern, m at next level, right associativity).

Definition randint (a b : Z) : Rand Z :=
  fun t => let (raw, t') := next t in (a + raw mod (b - a + 1), t').

(** [x, y = m1, m2]: the left draw first. *)
Definition both {A B} (m1 : Rand A) (m2 : Rand B) : Rand (A * B) :=
  x <- m1 ;; y <- m2 ;; ret (x, y).

(** ** The generators *)

(** What a generator returns: the dictionary with the keys ["question"],
    ["answer"], ["solution_steps"], ["hints"] and ["explanation"]. *)
Record ProblemData : Type := mkData {
  data_question : string;
  data_answer : string;
  data_solution_steps : list string;
  data_hints : list string;
  data_explanation : string
}.

(** U+00D7 and U+00F7 *)
Definition times_sign : string := String (ascii_of_nat 215) "".
Definition division_sign : string := String (ascii_of_nat 247) "".

Definition _generate_addition (difficulty : DifficultyLevel) : Rand ProblemData :=
  '(a, b) <- match difficulty with
             | BEGINNER => both (randint 1 10) (randint 1 10)
             | INTERMEDIATE => both (randint 10 50) (randint 10 50)
             | ADVANCED => both (randint 50 100) (randint 50 100)
             | EXPERT => both (randint 100 1000) (randint 100 1000)
             end ;;
  let answer := str_int (a + b) in
  let a := str_int a in
  let b := str_int b in
  ret {| data_question := "What is " ++ a ++ " + " ++ b ++ "?";
         data_answer := answer;
         data_solution_steps :=
           [ "We need to add " ++ a ++ " and " ++ b;
             "Starting with " ++ a;
             "Adding " ++ b;
             a ++ " + " ++ b ++ " = " ++ answer ];
         data_hints :=
           [ "Line up the numbers vertically";
             "Start adding from the ones place";
             "Think: what do you get when you combine " ++ a ++ " and "
               ++ b ++ "?" ];
         data_explanation :=
           "Addition combines two numbers. " ++ a ++ " plus " ++ b
             ++ " equals " ++ answer ++ "." |}.

(** The operands of a subtraction problem, after [a, b = max(a, b),
    min(a, b)]. *)
Definition subtraction_operands (difficulty : DifficultyLevel) : Rand (Z * Z) :=
  '(a, b) <- match difficulty with
             | BEGINNER => both (randint 5 20) (randint 1 10)
             | INTERMEDIATE => both (randint 20 100) (randint 10 50)
             | _ => both (randint 100 1000) (randint 50 500)
             end ;;
  (* Ensure positive result *)
  ret (Z.max a b, Z.min a b).

Definition _generate_subtraction (difficulty : DifficultyLevel) : Rand ProblemData :=
  '(a, b) <- subtraction_operands difficulty ;;
  let answer := str_int (a - b) in
  let a := str_int a in
  let b := str_int b in
  ret {| data_question := "What is " ++ a ++ " - " ++ b ++ "?";
         data_answer := answer;
         data_solution_steps :=
           [ "We need to subtract " ++ b ++ " from " ++ a;
             "Starting with " ++ a;
             "Taking away " ++ b;
             a ++ " - " ++ b ++ " = " ++ answer ];
         data_hints :=
           [ "Think of subtraction as taking away";
             "Start with " ++ a ++ " and remove " ++ b;
             "You can use a number line to help" ];
         data_explanation :=
           "Subtraction finds the difference. " ++ a ++ " minus " ++ b
             ++ " equals " ++ answer ++ "." |}.

Definition _generate_multiplication (difficulty : DifficultyLevel) : Rand ProblemData :=
  '(a, b) <- match difficulty with
             | BEGINNER => both (randint 1 5) (randint 1 5)
             | INTERMEDIATE => both (randint 2 10) (randint 2 10)
             | _ => both (randint 5 20) (randint 5 20)
             end ;;
  let answer := str_int (a * b) in
  let a := str_int a in
  let b := str_int b in
  ret {| data_question := "What is " ++ a ++ " " ++ times_sign ++ " " ++ b ++ "?";
         data_answer := answer;
         data_solution_steps :=
           [ "We need to multiply " ++ a ++ " by " ++ b;
             "This means " ++ a ++ " groups of " ++ b;
             "Or adding " ++ b ++ " to itself " ++ a ++ " times";
             a ++ " " ++ times_sign ++ " " ++ b ++ " = " ++ answer ];
         data_hints :=
           [ "Think of " ++ a ++ " groups with " ++ b ++ " items in each";
             "You can add " ++ b ++ " + " ++ b ++ " + ... (" ++ a ++ " times)";
             "Draw an array to visualize" ];
         data_explanation :=
           "Multiplication is repeated addition. " ++ a ++ " times " ++ b
             ++ " equals " ++ answer ++ "." |}.

(** The operands of a division problem: the divisor [b] is drawn first,
    the dividend is [b] times a second draw. *)
Definition division_operands (difficulty : DifficultyLevel) : Rand (Z * Z) :=
  match difficulty with
  | BEGINNER => b <- randint 1 5 ;; q <- randint 1 5 ;; ret (b * q, b)
  | INTERMEDIATE => b <- randint 2 10 ;; q <- randint 2 10 ;; ret (b * q, b)
  | _ => b <- randint 5 20 ;; q <- randint 5 20 ;; ret (b * q, b)
  end.

Definition _generate_division (difficulty : DifficultyLevel) : Rand ProblemData :=
  '(a, b) <- division_operands difficulty ;;
  let answer := str_int (a / b) in
  let a := str_int a in
  let b := str_int b in
  ret {| data_question := "What is " ++ a ++ " " ++ division_sign ++ " " ++ b ++ "?";
         data_answer := answer;
         data_solution_steps :=
           [ "We need to divide " ++ a ++ " by " ++ b;
             "How many groups of " ++ b ++ " fit in " ++ a ++ "?";
             "Or: If we share " ++ a ++ " items among " ++ b
               ++ " groups equally";
             a ++ " " ++ division_sign ++ " " ++ b ++ " = " ++ answer ];
         data_hints :=
           [ "Think: how many " ++ b ++ "s are in " ++ a ++ "?";
             "Division is the opposite of multiplication";
             "Try: " ++ b ++ " " ++ times_sign ++ " ? = " ++ a ];
         data_explanation :=
           "Division splits a number into equal groups. " ++ a
             ++ " divided by " ++ b ++ " equals " ++ answer ++ "." |}.

Definition _generate_fractions (difficulty : DifficultyLevel) : Rand ProblemData :=
  '(question, answer) <-
     match difficulty with
     | BEGINNER =>
         (* Simple fractions *)
         numerator <- randint 1 5 ;;
         denominator <- randint 2 10 ;;
         (* Find GCD and simplify *)
         let g := Z.gcd numerator denominator in
         let simple_num := numerator / g in
         let simple_den := denominator / g in
         ret ("Simplify the fraction " ++ str_int numerator ++ "/"
                ++ str_int denominator,
              str_int simple_num ++ "/" ++ str_int simple_den)
     | _ =>
         (* Fraction operations *)
         '(n1, d1) <- both (randint 1 5) (randint 2 8) ;;
         '(n2, d2) <- both (randint 1 5) (randint 2 8) ;;
         (* Calculate sum *)
         let lcm := (d1 * d2) / Z.gcd d1 d2 in
         let sum_num := (n1 * lcm) / d1 + (n2 * lcm) / d2 in
         let g := Z.gcd sum_num lcm in
         ret ("What is " ++ str_int n1 ++ "/" ++ str_int d1 ++ " + "
                ++ str_int n2 ++ "/" ++ str_int d2 ++ "?",
              str_int (sum_num / g) ++ "/" ++ str_int (lcm / g))
     end ;;
  ret {| data_question := question;
         data_answer := answer;
         data_solution_steps :=
           [ "Identify the numerator and denominator";
             "Find common factors if simplifying";
             "Or find common denominator if adding";
             "The answer is " ++ answer ];
         data_hints :=
           [ "Look for common factors";
             "Remember to simplify your answer";
             "Use visual aids like pie charts" ];
         data_explanation := "Fractions represent parts of a whole." |}.

(** [str(b / a)] when [b % a == 0]: the true division is exact, its result
    is the float of the integer [b // a], and the [repr] of an integral
    float of this size is the integer followed by [.0]. *)
Definition str_exact_quotient (b a : Z) : string := str_int (b / a) ++ ".0".

(** The answer of the multiplicative equation [a x = b]:
    [str(b / a if b % a == 0 else f"{b}/{a}")]. *)
Definition algebra_answer (a b : Z) : string :=
  if b mod a =? 0 then str_exact_quotient b a
  else str_int b ++ "/" ++ str_int a.

Definition _generate_algebra (difficulty : DifficultyLevel) : Rand ProblemData :=
  '(question, answer, steps) <-
     match difficulty with
     | BEGINNER =>
         a <- randint 1 10 ;;
         b <- randint 1 20 ;;
         let answer := str_int (b - a) in
         let a := str_int a in
         let b := str_int b in
         ret ("Solve for x: x + " ++ a ++ " = " ++ b,
              answer,
              [ "We have x + " ++ a ++ " = " ++ b;
                "Subtract " ++ a ++ " from both sides";
                "x = " ++ b ++ " - " ++ a;
                "x = " ++ answer ])
     | _ =>
         a <- randint 2 10 ;;
         b <- randint 10 50 ;;
         let answer := algebra_answer a b in
         let a := str_int a in
         let b := str_int b in
         ret ("Solve for x: " ++ a ++ "x = " ++ b,
              answer,
              [ "We have " ++ a ++ "x = " ++ b;
                "Divide both sides by " ++ a;
                "x = " ++ b ++ "/" ++ a;
                "x = " ++ answer ])
     end ;;
  ret {| data_question := question;
         data_answer := answer;
         data_solution_steps := steps;
         data_hints :=
           [ "Isolate the variable x";
             "What operation undoes the one in the equation?";
             "Check your answer by substituting back" ];
         data_explanation :=
           "To solve for x, we isolate it on one side of the equation." |}.

Definition _generate_default (difficulty : DifficultyLevel) : Rand ProblemData :=
  _generate_addition difficulty.

(** [self.generators] *)
Definition generators : dict MathTopic (DifficultyLevel -> Rand ProblemData) :=
  [ (BASIC_ADDITION, _generate_addition);
    (BASIC_SUBTRACTION, _generate_subtraction);
    (MULTIPLICATION, _generate_multiplication);
    (DIVISION, _generate_division);
    (FRACTIONS, _generate_fractions);
    (ALGEBRA_1, _generate_algebra) ].

(** [generate_problem(topic, difficulty_level, student_level)] *)
Definition generate_problem (topic : string) (difficulty_level student_level : Z)
    (t : tape Z) : result (Problem * tape Z) :=
  bind (MathTopic_of topic) (fun topic_enum =>
  bind (index ["beginner"; "intermediate"; "advanced"; "expert"]
              (difficulty_level - 1)) (fun name =>
  bind (DifficultyLevel_of name) (fun difficulty =>
  bind (GradeLevel_of (str_int student_level)) (fun grade =>
  (* Get appropriate generator *)
  let generator := get_default MathTopic_beq topic_enum _generate_default generators in
  (* Generate problem *)
  let (problem_data, t) := generator difficulty t in
  let (n, t) := randint 1000 9999 t in
  Ok ({| problem_id := "prob_" ++ topic ++ "_" ++ str_int n;
         problem_topic := topic_enum;
         problem_grade_level := grade;
         problem_difficulty := difficulty;
         question := data_question problem_data;
         answer := data_answer problem_data;
         solution_steps := data_solution_steps problem_data;
         hints := data_hints problem_data;
         explanation := data_explanation problem_data |}, t))))).

(** ** [check_solution] *)

(** The dictionary [check_solution] returns; ["hint"] and ["next_step"]
    are keys that may be absent. *)
Record Feedback : Type := mkFeedback {
  correct : bool;
  feedback : string;
  hint : option string;
  next_step : option string
}.

(** The body of [r"^-?\d+(/\d+)?$"] between its anchors. *)
Definition answer_pattern : Re.regex :=
  Re.Seq (Re.Opt (Re.Chr "-"))
    (Re.Seq (Re.Plus (Re.Class isdigit))
       (Re.Opt (Re.Seq (Re.Chr "/") (Re.Plus (Re.Class isdigit))))).

Definition check_solution (problem_id student_answer : string)
    (show_steps : bool) : Feedback :=
  (* Clean answer *)
  let student_answer := strip student_answer in
  (* Simple validation *)
  let is_correct := Re.match_anchored answer_pattern student_answer in
  let with_steps := show_steps && negb is_correct in
  {| correct := is_correct;
     feedback := if is_correct then "Great job! That's correct!"
                 else "Not quite. Try again! You can do it!";
     hint := if with_steps
             then Some "Remember to check your work step by step" else None;
     next_step := if with_steps
                  then Some "Try breaking down the problem into smaller parts"
                  else None |}.

(** ** [generate_practice_set] *)

Fixpoint practice_loop (topic : MathTopic) (n : nat)
    (difficulty : DifficultyLevel) : Rand (list Problem) :=
  match n with
  | O => ret []
  | S n' =>
      problem_data <- get_default MathTopic_beq topic _generate_default generators
                        difficulty ;;
      k <- randint 1000 9999 ;;
      let problem :=
        {| problem_id := "practice_" ++ topic_value topic ++ "_" ++ str_int k;
           problem_topic := topic;
           problem_grade_level := GRADE_5;  (* Default *)
           problem_difficulty := difficulty;
           question := data_question problem_data;
           answer := data_answer problem_data;
           solution_steps := data_solution_steps problem_data;
           hints := data_hints problem_data;
           explanation := data_explanation problem_data |} in
      rest <- practice_loop topic n' difficulty ;;
      ret (problem :: rest)
  end.

Definition generate_practice_set (topic : MathTopic) (num_problems : Z)
    (difficulty : DifficultyLevel) : Rand (list Problem) :=
  practice_loop topic (Z.to_nat num_problems) difficulty.

End ProblemEngine.

(* ================================================================== *)
(** * [core/learning_path.py] *)
(* ================================================================== *)

Module LearningPathGenerator.

(** ** The clock: [datetime.utcnow()] returns the next reading. *)
Definition Clock (A : Type) : Type := tape datetime -> A * tape datetime.

Definition utcnow : Clock datetime := next.

(** [float(n)] for a small non-negative [int]. *)
Definition float_of_int (n : Z) : float := PrimFloat.of_uint63 (Uint63.of_Z n).

(** ** Attribute assignment on a path *)

Definition with_current_lesson (v : Z) (p : LearningPath) : LearningPath :=
  {| path_id := path_id p; student_id := student_id p;
     current_lesson := v; lessons := lessons p; progress := progress p;
     mastery_scores := mastery_scores p;
     recommended_topics := recommended_topics p;
     learning_goals := learning_goals p;
     estimated_completion_date := estimated_completion_date p;
     adaptive_adjustments := adaptive_adjustments p;
     created_at := created_at p; updated_at := updated_at p |}.

Definition with_lessons (v : list string) (p : LearningPath) : LearningPath :=
  {| path_id := path_id p; student_id := student_id p;
     current_lesson := current_lesson p; lessons := v; progress := progress p;
     mastery_scores := mastery_scores p;
     recommended_topics := recommended_topics p;
     learning_goals := learning_goals p;
     estimated_completion_date := estimated_completion_date p;
     adaptive_adjustments := adaptive_adjustments p;
     created_at := created_at p; updated_at := updated_at p |}.

Definition with_progress (v : dict string float) (p : LearningPath) : LearningPath :=
  {| path_id := path_id p; student_id := student_id p;
     current_lesson := current_lesson p; lessons := lessons p; progress := v;
     mastery_scores := mastery_scores p;
     recommended_topics := recommended_topics p;
     learning_goals := learning_goals p;
     estimated_completion_date := estimated_completion_date p;
     adaptive_adjustments := adaptive_adjustments p;
     created_at := created_at p; updated_at := updated_at p |}.

Definition with_mastery_scores (v : dict MathTopic float) (p : LearningPath) : LearningPath :=
  {| path_id := path_id p; student_id := student_id p;
     current_lesson := current_lesson p; lessons := lessons p;
     progress := progress p; mastery_scores := v;
     recommended_topics := recommended_topics p;
     learning_goals := learning_goals p;
     estimated_completion_date := estimated_completion_date p;
     adaptive_adjustments := adaptive_adjustments p;
     created_at := created_at p; updated_at := updated_at p |}.

Definition with_adaptive_adjustments (v : list Adjustment) (p : LearningPath) : LearningPath :=
  {| path_id := path_id p; student_id := student_id p;
     current_lesson := current_lesson p; lessons := lessons p;
     progress := progress p; mastery_scores := mastery_scores p;
     recommended_topics := recommended_topics p;
     learning_goals := learning_goals p;
     estimated_completion_date := estimated_completion_date p;
     adaptive_adjustments := v;
     created_at := created_at p; updated_at := updated_at p |}.

Definition with_updated_at (v : datetime) (p : LearningPath) : LearningPath :=
  {| path_id := path_id p; student_id := student_id p;
     current_lesson := current_lesson p; lessons := lessons p;
     progress := progress p; mastery_scores := mastery_scores p;
     recommended_topics := recommended_topics p;
     learning_goals := learning_goals p;
     estimated_completion_date := estimated_completion_date p;
     adaptive_adjustments := adaptive_adjustments p;
     created_at := created_at p; updated_at := v |}.

(** ** [_get_or_create_student]

    The two enumeration lookups and the bounds of the [age] field
    ([ge=3, le=18]) can raise.  The two timestamps a [Student] takes by
    default are read by nothing and are left out, with their two readings
    of the clock. *)
Definition _get_or_create_student (student_id : string) (grade_level : Z)
    (learning_style : string) : result Student :=
  bind (GradeLevel_of (str_int grade_level)) (fun grade =>
  let age := grade_level + 5 in  (* Approximate age *)
  bind (LearningStyle_of learning_style) (fun style =>
  if (3 <=? age) && (age <=? 18)
  then Ok {| student_ident := student_id; student_name := "Student";
             student_grade_level := grade; student_age := age;
             student_learning_style := style |}
  else Raise ValueError)).

(** ** [_analyze_assessment] *)

(** One turn of the loop over [results.items()]; an unknown topic string
    is logged and skipped. *)
Definition analyze_step (acc : list MathTopic * list MathTopic)
    (item : string * float) : list MathTopic * list MathTopic :=
  let (strengths, weaknesses) := acc in
  let (topic_str, score) := item in
  match MathTopic_of topic_str with
  | Ok topic =>
      if (0.8 <=? score)%float then ((strengths ++ [topic])%list, weaknesses)
      else if (score <? 0.6)%float then (strengths, (weaknesses ++ [topic])%list)
      else (strengths, weaknesses)
  | Raise _ => (strengths, weaknesses)
  end.

Definition _analyze_assessment (results : dict string float)
    : list MathTopic * list MathTopic :=
  fold_left analyze_step results ([], []).

(** ** [_generate_lesson_sequence] *)

Definition topic_in (t : MathTopic) (l : list MathTopic) : bool :=
  existsb (MathTopic_beq t) l.

Definition _generate_lesson_sequence (cur : Curriculum.t) (student : Student)
    (topics strengths weaknesses : list MathTopic) (goals : list string)
    : list string :=
  let grade := Some (student_grade_level student) in
  (* Start with prerequisite topics *)
  let remedial :=
    flat_map
      (fun topic =>
         let topic_lessons := Curriculum.get_lessons_for_topic cur topic grade in
         (* Sort by difficulty *)
         let topic_lessons := sort_by duration_minutes topic_lessons in
         (* Max 2 lessons per weak topic *)
         map lesson_id (take 2 topic_lessons))
      weaknesses in
  (* Add regular curriculum lessons *)
  let regular :=
    flat_map
      (fun topic =>
         if negb (topic_in topic weaknesses) && negb (topic_in topic strengths)
         then match Curriculum.get_lessons_for_topic cur topic grade with
              | first :: _ => [lesson_id first]
              | [] => []
              end
         else [])
      topics in
  (* Add advanced lessons for strengths *)
  let advanced :=
    flat_map
      (fun topic =>
         let topic_lessons := Curriculum.get_lessons_for_topic cur topic grade in
         (* Get more challenging lessons *)
         match filter (fun l => contains "advanced" (lower (title l)))
                 topic_lessons with
         | first :: _ => [lesson_id first]
         | [] => []
         end)
      strengths in
  (remedial ++ regular ++ advanced)%list.

(** ** [_estimate_completion_date]: three lessons per week. *)
Definition _estimate_completion_date (num_lessons : Z) : Clock (datetime * float) :=
  fun clk =>
    let weeks_needed := (float_of_int num_lessons / 3)%float in
    let (now, clk) := utcnow clk in
    ((now, weeks_needed), clk).

(** ** [create_path] *)

Definition seed_mastery (topics : list MathTopic)
    (assessment_results : dict string float) : dict MathTopic float :=
  fold_left
    (fun d topic =>
       set MathTopic_beq topic
         (get_default String.eqb (topic_value topic) 0.0%float assessment_results) d)
    topics [].

Definition create_path (cur : Curriculum.t) (student_id : string)
    (grade_level : Z) (assessment_results : dict string float)
    (learning_style : string) (goals : option (list string))
    (clk : tape datetime) : result (LearningPath * tape datetime) :=
  (* Get student profile *)
  bind (_get_or_create_student student_id grade_level learning_style)
    (fun student =>
  (* Analyze assessment results *)
  let (strengths, weaknesses) := _analyze_assessment assessment_results in
  (* Get curriculum topics for grade *)
  bind (GradeLevel_of (str_int grade_level)) (fun grade =>
  let topics := Curriculum.get_topics_for_grade grade in
  let goals := match goals with Some g => g | None => [] end in
  (* Generate personalized lesson sequence *)
  let lessons :=
    _generate_lesson_sequence cur student topics strengths weaknesses goals in
  (* Create learning path *)
  let (stamp, clk) := utcnow clk in
  let (eta, clk) := _estimate_completion_date (len lessons) clk in
  let (created, clk) := utcnow clk in
  let (updated, clk) := utcnow clk in
  Ok ({| path_id := (student_id, stamp);
         student_id := student_id;
         current_lesson := 0;
         lessons := lessons;
         progress := [];
         mastery_scores := seed_mastery topics assessment_results;
         recommended_topics := take 3 weaknesses;  (* top 3 weak areas *)
         learning_goals := goals;
         estimated_completion_date := Some eta;
         adaptive_adjustments := [];
         created_at := created;
         updated_at := updated |}, clk))).

(** ** [update_path] *)

(** One turn of the loop that blends mastery; a key that is no topic is
    passed over. *)
Definition blend_step (mastery : dict MathTopic float) (item : string * float)
    : dict MathTopic float :=
  let (topic_str, score) := item in
  match MathTopic_of topic_str with
  | Ok topic =>
      let current_score := get_default MathTopic_beq topic 0.0%float mastery in
      (* Weighted average with more weight on recent performance *)
      set MathTopic_beq topic (0.3 * current_score + 0.7 * score)%float mastery
  | Raise _ => mastery
  end.

Definition blend_mastery (mastery : dict MathTopic float)
    (performance_data : dict string float) : dict MathTopic float :=
  fold_left blend_step performance_data mastery.

(** One turn of the loop over [struggling_topics[:2]]. *)
Definition remedial_step (cur : Curriculum.t) (topic : MathTopic)
    (path : LearningPath) : Clock LearningPath :=
  fun clk =>
    match Curriculum.get_lessons_for_topic cur topic None with
    | first :: _ =>
        (* Insert remedial lesson *)
        let path :=
          with_lessons
            (insert (current_lesson path + 1) (lesson_id first) (lessons path))
            path in
        let (now, clk) := utcnow clk in
        let entry :=
          added_remedial now topic
            (get_default MathTopic_beq topic 0.0%float (mastery_scores path)) in
        (with_adaptive_adjustments
           (adaptive_adjustments path ++ [entry])%list path, clk)
    | [] => (path, clk)
    end.

Fixpoint remedial_loop (cur : Curriculum.t) (topics : list MathTopic)
    (path : LearningPath) : Clock LearningPath :=
  fun clk =>
    match topics with
    | [] => (path, clk)
    | topic :: rest =>
        let (path, clk) := remedial_step cur topic path clk in
        remedial_loop cur rest path clk
    end.

(** [len(excelling_topics) > len(path.mastery_scores) / 2]: the lengths
    are small integers, so the comparison with the (exact) half is the
    integer comparison of the doubled left side. *)
Definition more_than_half (n total : Z) : bool := total <? 2 * n.

Definition update_path (cur : Curriculum.t) (st : Settings)
    (path : LearningPath) (performance_data : dict string float)
    : Clock LearningPath :=
  fun clk =>
    (* Update mastery scores *)
    let path :=
      with_mastery_scores
        (blend_mastery (mastery_scores path) performance_data) path in
    (* Identify topics needing more practice *)
    let struggling_topics :=
      map fst
        (filter (fun item => (snd item <? min_accuracy_for_advancement st)%float)
           (mastery_scores path)) in
    (* Add remedial lessons if needed; top 2 struggling topics *)
    let (path, clk) := remedial_loop cur (take 2 struggling_topics) path clk in
    (* Skip ahead if student is excelling *)
    let excelling_topics :=
      map fst
        (filter (fun item => (0.95 <? snd item)%float) (mastery_scores path)) in
    let (path, clk) :=
      if more_than_half (len excelling_topics) (len (mastery_scores path))
      then let (now, clk) := utcnow clk in
           (with_adaptive_adjustments
              (adaptive_adjustments path ++ [accelerated_path now])%list path,
            clk)
      else (path, clk) in
    let (now, clk) := utcnow clk in
    (with_updated_at now path, clk).

(** ** [get_next_lesson] *)
Definition get_next_lesson (path : LearningPath) : result (option string) :=
  if current_lesson path <? len (lessons path)
  then bind (index (lessons path) (current_lesson path))
         (fun lesson => Ok (Some lesson))
  else Ok None.

(** ** [complete_lesson] *)
Definition complete_lesson (st : Settings) (path : LearningPath)
    (lesson_id : string) (performance : float) : Clock LearningPath :=
  fun clk =>
    if mem lesson_id (lessons path) then
      let path :=
        with_progress (set String.eqb lesson_id performance (progress path))
          path in
      (* Move to next lesson if performance is sufficient *)
      let path :=
        if (min_accuracy_for_advancement st <=? performance)%float
        then with_current_lesson (current_lesson path + 1) path
        else path (* Repeat lesson or add supplementary content *) in
      let (now, clk) := utcnow clk in
      (with_updated_at now path, clk)
    else (path, clk).

(** ** Sequences of operations on one path

    A caller holds a path and applies the operations of the generator to
    it, one after the other; [create_path] replaces the path held.  A
    raised exception ends the sequence. *)
Inductive operation : Type :=
| do_create_path (student_id : string) (grade_level : Z)
    (assessment_results : dict string float) (learning_style : string)
    (goals : option (list string))
| do_update_path (performance_data : dict string float)
| do_get_next_lesson
| do_complete_lesson (lesson_id : string) (performance : float).

Definition apply (cur : Curriculum.t) (st : Settings) (op : operation)
    (path : LearningPath) (clk : tape datetime)
    : result (LearningPath * tape datetime) :=
  match op with
  | do_create_path student_id grade_level assessment learning_style goals =>
      create_path cur student_id grade_level assessment learning_style goals clk
  | do_update_path performance_data =>
      Ok (update_path cur st path performance_data clk)
  | do_get_next_lesson =>
      bind (get_next_lesson path) (fun _ => Ok (path, clk))
  | do_complete_lesson lesson_id performance =>
      Ok (complete_lesson st path lesson_id performance clk)
  end.

(** The paths held after each operation of the sequence, up to the first
    exception. *)
Fixpoint run (cur : Curriculum.t) (st : Settings) (ops : list operation)
    (path : LearningPath) (clk : tape datetime) : list LearningPath :=
  match ops with
  | [] => []
  | op :: rest =>
      match apply cur st op path clk with
      | Ok (path', clk') => path' :: run cur st rest path' clk'
      | Raise _ => []
      end
  end.

End LearningPathGenerator.

(* ================================================================== *)
(** * The statements of the specification, as definitions *)
(* ================================================================== *)

Module Spec.

(** A non-empty run of decimal digits. *)
Definition digits (s : string) : Prop :=
  s <> "" /\ Forall (fun c => isdigit c = true) (list_ascii_of_string s).

(** An optional sign: nothing, or one minus. *)
Definition sign (s : string) : Prop := s = "" \/ s = "-".

(** "an optionally-signed integer or simple int/int fraction" *)
Inductive answer_format : string -> Prop :=
| format_integer sg n :
    sign sg -> digits n -> answer_format (sg ++ n)
| format_fraction sg n d :
    sign sg -> digits n -> digits d -> answer_format (sg ++ n ++ "/" ++ d).

(** "a fraction string reduced to lowest terms" *)
Definition lowest_terms (numerator denominator : Z) : string :=
  let g := Z.gcd numerator denominator in
  str_int (numerator / g) ++ "/" ++ str_int (denominator / g).

(** The answer of [a x = b] as the specification words it: "the integer
    quotient when b is evenly divisible by a, and otherwise a fraction
    string reduced to lowest terms". *)
Definition algebra_answer (a b : Z) : string :=
  if b mod a =? 0 then str_int (b / a) else lowest_terms b a.

(** "0 <= current_lesson <= len(lessons)" *)
Definition path_invariant (path : LearningPath) : Prop :=
  0 <= current_lesson path <= len (lessons path).

(** The call advances the index of the path: a [complete_lesson] of a
    lesson of the path with a performance that reaches the threshold. *)
Definition advances (st : Settings) (op : LearningPathGenerator.operation)
    (path : LearningPath) : bool :=
  match op with
  | LearningPathGenerator.do_complete_lesson lesson_id performance =>
      mem lesson_id (lessons path)
      && (min_accuracy_for_advancement st <=? performance)%float
  | _ => false
  end.

(** A sequence of operations in which every advancing [complete_lesson]
    is applied to a path that is not yet complete
    ([current_lesson < len(lessons)]). *)
Fixpoint completes_only_open_paths (cur : Curriculum.t) (st : Settings)
    (ops : list LearningPathGenerator.operation) (path : LearningPath)
    (clk : tape datetime) : Prop :=
  match ops with
  | [] => True
  | op :: rest =>
      (advances st op path = true ->
       current_lesson path < len (lessons path))
      /\ match LearningPathGenerator.apply cur st op path clk with
         | Ok (path', clk') =>
             completes_only_open_paths cur st rest path' clk'
         | Raise _ => True
         end
  end.

(** The topics an assessment names with a score of at least 0.8, and
    those it names with a score below 0.6, each in the order of the
    assessment ("classification order"); a string that names no topic
    contributes nothing. *)
Definition strong_topics (results : dict string float) : list MathTopic :=
  flat_map
    (fun item =>
       match MathTopic_of (fst item) with
       | Ok topic => if (0.8 <=? snd item)%float then [topic] else []
       | Raise _ => []
       end)
    results.

Definition weak_topics (results : dict string float) : list MathTopic :=
  flat_map
    (fun item =>
       match MathTopic_of (fst item) with
       | Ok topic => if (snd item <? 0.6)%float then [topic] else []
       | Raise _ => []
       end)
    results.

(** A call whose arguments are in range: a [create_path] for a grade of
    [1 .. 12] and a known learning style; any call of the other three
    operations. *)
Definition in_range (op : LearningPathGenerator.operation) : Prop :=
  match op with
  | LearningPathGenerator.do_create_path _ grade_level _ learning_style _ =>
      1 <= grade_level <= 12
      /\ exists style, LearningStyle_of learning_style = Ok style
  | _ => True
  end.

(** The three buckets of the classification. *)
Inductive bucket : Type := strength | weakness | neutral.

(** The topic is in the given bucket of a classification (the pair of the
    strengths and the weaknesses) and in no other. *)
Definition placed (topic : MathTopic)
    (classes : list MathTopic * list MathTopic) (b : bucket) : Prop :=
  let (strengths, weaknesses) := classes in
  match b with
  | strength => In topic strengths /\ ~ In topic weaknesses
  | weakness => In topic weaknesses /\ ~ In topic strengths
  | neutral => ~ In topic strengths /\ ~ In topic weaknesses
  end.

End Spec.

(* ================================================================== *)
(** * Inputs used in the examples *)
(* ================================================================== *)

Module Examples.

(** The raw values that make [randint 2 10] return 4 and then
    [randint 10 50] return 10. *)
Definition tape_4_10 : tape Z := fun n => match n with O => 2 | _ => 0 end.

(** A clock that reads 1000, 1001, 1002, ... *)
Definition clock : tape datetime := fun n => 1000 + Z.of_nat n.

(** A path with one lesson and a mastery of 0.4 for multiplication. *)
Definition path_04 : LearningPath :=
  {| path_id := ("student_1", 0);
     student_id := "student_1";
     current_lesson := 0;
     lessons := ["lesson_mult_3_1"];
     progress := [];
     mastery_scores := [(MULTIPLICATION, 0.4%float)];
     recommended_topics := [];
     learning_goals := [];
     estimated_completion_date := None;
     adaptive_adjustments := [];
     created_at := 0;
     updated_at := 0 |}.

(** The assessment of the classification example. *)
Definition assessment : dict string float :=
  [("multiplication", 0.9%float); ("division", 0.5%float);
   ("fractions", 0.7%float)].

(** A student who creates a path for grade 3 with no assessment and then
    completes its only lesson twice. *)
Definition completes_twice : list LearningPathGenerator.operation :=
  [ LearningPathGenerator.do_create_path "student_1" 3 [] "visual" None;
    LearningPathGenerator.do_complete_lesson "lesson_mult_3_1" 1.0%float;
    LearningPathGenerator.do_complete_lesson "lesson_mult_3_1" 1.0%float ].

End Examples.

(* ================================================================== *)
(** * The tables of the generators, as the sources write them *)
(* ================================================================== *)

Module Tables.

(** The four tiers, in the order of the list [generate_problem] indexes. *)
Definition tiers : list DifficultyLevel :=
  [BEGINNER; INTERMEDIATE; ADVANCED; EXPERT].

(** The bounds [(low, high)] of the two operands of an addition problem. *)
Definition addition_range (difficulty : DifficultyLevel) : Z * Z :=
  match difficulty with
  | BEGINNER => (1, 10)
  | INTERMEDIATE => (10, 50)
  | ADVANCED => (50, 100)
  | EXPERT => (100, 1000)
  end.

(** The bounds of the two factors of a multiplication problem. *)
Definition multiplication_range (difficulty : DifficultyLevel) : Z * Z :=
  match difficulty with
  | BEGINNER => (1, 5)
  | INTERMEDIATE => (2, 10)
  | _ => (5, 20)
  end.

(** The topics that have a generator of their own. *)
Definition dedicated : list MathTopic :=
  [BASIC_ADDITION; BASIC_SUBTRACTION; MULTIPLICATION; DIVISION; FRACTIONS;
   ALGEBRA_1].

(** The raw values that make [randint 2 10] return 5 and then
    [randint 10 50] return 20. *)
Definition tape_5_20 : tape Z := fun n => match n with O => 3 | _ => 10 end.

End Tables.

(* ================================================================== *)
(** * Properties of the Python primitives *)
(* ================================================================== *)

Module PyFacts.

Lemma append_empty_r (s : string) : s ++ "" = s.
Proof. induction s as [|c s IH]; simpl; [reflexivity | now rewrite IH]. Qed.

Lemma append_assoc (s1 s2 s3 : string) : (s1 ++ s2) ++ s3 = s1 ++ s2 ++ s3.
Proof. induction s1 as [|c s1 IH]; simpl; [reflexivity | now rewrite IH]. Qed.

Lemma append_eq_empty (s1 s2 : string) : s1 ++ s2 = "" -> s1 = "" /\ s2 = "".
Proof. destruct s1; simpl; [auto | discriminate]. Qed.

Lemma isspace_newline : isspace (ascii_of_nat 10) = true.
Proof. reflexivity. Qed.

(** What [rstrip] returns does not end with a newline. *)
Lemma chop_newline_rstrip (s : string) : Re.chop_newline (rstrip s) = None.
Proof.
  induction s as [|c s IH]; simpl; [reflexivity|].
  destruct (rstrip s) as [|a r] eqn:E.
  - destruct (isspace c) eqn:Hc; simpl; [reflexivity|].
    destruct (Ascii.eqb c (ascii_of_nat 10)) eqn:Hn; [|reflexivity].
    apply Ascii.eqb_eq in Hn. subst c. rewrite isspace_newline in Hc.
    discriminate.
  - change (Re.chop_newline (String c (String a r)))
      with (option_map (String c) (Re.chop_newline (String a r))).
    now rewrite IH.
Qed.

Lemma chop_newline_strip (s : string) : Re.chop_newline (strip s) = None.
Proof. apply chop_newline_rstrip. Qed.

End PyFacts.

(* ================================================================== *)
(** * The matcher decides the language *)
(* ================================================================== *)

Module ReFacts.
Import Re PyFacts.

Lemma nullable_lang (r : regex) : nullable r = true -> lang r "".
Proof.
  induction r; simpl; intro H; try discriminate.
  - constructor.
  - apply andb_prop in H as [H1 H2].
    change "" with ("" ++ ""). constructor; auto.
  - apply orb_prop in H as [H|H]; [apply lang_alt_l | apply lang_alt_r]; auto.
  - constructor.
Qed.

Lemma lang_nullable (r : regex) (s : string) :
  lang r s -> s = "" -> nullable r = true.
Proof.
  induction 1; simpl; intro E; try discriminate; try reflexivity.
  - apply append_eq_empty in E as [E1 E2]. rewrite IHlang1, IHlang2; auto.
  - rewrite IHlang; auto.
  - rewrite IHlang; auto using orb_true_r.
Qed.

Lemma lang_deriv_intro (r : regex) (s0 : string) :
  lang r s0 -> forall a t, s0 = String a t -> lang (deriv a r) t.
Proof.
  induction 1 as [ | c | p c Hp | r1 r2 s1 s2 H1 IH1 H2 IH2 | r1 r2 s H IH
                 | r1 r2 s H IH | r | r s1 s2 H1 IH1 H2 IH2 ];
    intros a t E; simpl.
  - discriminate.
  - injection E as -> <-. rewrite Ascii.eqb_refl. constructor.
  - injection E as <- <-. rewrite Hp. constructor.
  - destruct s1 as [|b s1]; simpl in E.
    + subst s2. rewrite (lang_nullable r1 "" H1 eq_refl).
      apply lang_alt_r. now apply IH2.
    + injection E as -> <-.
      assert (lang (Seq (deriv a r1) r2) (s1 ++ s2))
        by (constructor; [now apply IH1 | assumption]).
      destruct (nullable r1); [now apply lang_alt_l | assumption].
  - apply lang_alt_l. now apply IH.
  - apply lang_alt_r. now apply IH.
  - discriminate.
  - destruct s1 as [|b s1]; simpl in E.
    + now apply IH2.
    + injection E as -> <-. constructor; [now apply IH1 | assumption].
Qed.

Lemma lang_deriv_elim (r : regex) :
  forall c s, lang (deriv c r) s -> lang r (String c s).
Proof.
  induction r; intros a s H; simpl in H.
  - inversion H.
  - inversion H.
  - destruct (Ascii.eqb a c) eqn:E; inversion H; subst.
    apply Ascii.eqb_eq in E. subst. constructor.
  - destruct (p a) eqn:E; inversion H; subst. now constructor.
  - assert (Hseq : forall s, lang (Seq (deriv a r1) r2) s ->
                             lang (Seq r1 r2) (String a s)).
    { intros s' H'. inversion H'; subst.
      change (String a (s1 ++ s2)) with (String a s1 ++ s2).
      constructor; auto. }
    destruct (nullable r1) eqn:N.
    + inversion H; subst; [now apply Hseq|].
      change (String a s) with ("" ++ String a s).
      constructor; [now apply nullable_lang | auto].
    + now apply Hseq.
  - inversion H; subst; [apply lang_alt_l | apply lang_alt_r]; auto.
  - inversion H; subst.
    change (String a (s1 ++ s2)) with (String a s1 ++ s2).
    constructor; auto.
Qed.

(** [fullmatch] returns [true] exactly on the strings of the expression. *)
Lemma fullmatch_lang (s : string) :
  forall r, fullmatch r s = true <-> lang r s.
Proof.
  induction s as [|c s IH]; intro r; simpl.
  - split; [apply nullable_lang | intro H; now apply lang_nullable with ""].
  - rewrite IH. split.
    + apply lang_deriv_elim.
    + intro H. now apply lang_deriv_intro with (String c s).
Qed.

(** [\d+] *)
Lemma lang_star_digits (r : regex) (s : string) :
  lang r s -> r = Star (Class isdigit) ->
  Forall (fun c => isdigit c = true) (list_ascii_of_string s).
Proof.
  induction 1; intro E; try discriminate.
  - constructor.
  - injection E as ->. inversion H; subst. simpl. constructor; auto.
Qed.

Lemma digits_lang_star (s : string) :
  Forall (fun c => isdigit c = true) (list_ascii_of_string s) ->
  lang (Star (Class isdigit)) s.
Proof.
  induction s as [|c s IH]; simpl; intro H.
  - constructor.
  - inversion H; subst.
    change (String c s) with (String c "" ++ s).
    constructor; [now constructor | auto].
Qed.

(** Inversion of a [lang] hypothesis whose expression starts with a
    constructor other than [Star]. *)
Ltac lang_inv :=
  match goal with
  | H : lang Empty _ |- _ => inversion H
  | H : lang Eps _ |- _ => inversion H; subst; clear H
  | H : lang (Chr _) _ |- _ => inversion H; subst; clear H
  | H : lang (Class _) _ |- _ => inversion H; subst; clear H
  | H : lang (Seq _ _) _ |- _ => inversion H; subst; clear H
  | H : lang (Alt _ _) _ |- _ => inversion H; subst; clear H
  end.

Lemma lang_plus_digits (s : string) :
  lang (Plus (Class isdigit)) s <-> Spec.digits s.
Proof.
  unfold Spec.digits. split.
  - intro H. unfold Plus in H. do 2 lang_inv. simpl. split.
    + discriminate.
    + constructor; [assumption|].
      now apply lang_star_digits with (Star (Class isdigit)).
  - intros [Hne H]. destruct s as [|c s]; [contradiction|].
    simpl in H. inversion H; subst.
    change (String c s) with (String c "" ++ s).
    constructor; [now constructor | now apply digits_lang_star].
Qed.

Lemma lang_opt_minus (s : string) : lang (Opt (Chr "-")) s <-> Spec.sign s.
Proof.
  unfold Spec.sign. split.
  - intro H. unfold Opt in H. lang_inv; lang_inv; [now right | now left].
  - intros [-> | ->]; [apply lang_alt_r | apply lang_alt_l]; constructor.
Qed.

(** The pattern of [check_solution] denotes the answer format. *)
Lemma lang_answer_pattern (s : string) :
  lang ProblemEngine.answer_pattern s <-> Spec.answer_format s.
Proof.
  unfold ProblemEngine.answer_pattern. split.
  - intro H. do 2 lang_inv.
    repeat match goal with
           | H : lang (Opt (Chr _)) _ |- _ => apply lang_opt_minus in H
           | H : lang (Plus _) _ |- _ => apply lang_plus_digits in H
           end.
    match goal with H : lang (Opt _) _ |- _ => unfold Opt in H end.
    lang_inv.
    + do 2 lang_inv.
      match goal with H : lang (Plus _) _ |- _ => apply lang_plus_digits in H end.
      now apply Spec.format_fraction.
    + lang_inv. rewrite append_empty_r. now apply Spec.format_integer.
  - intro H. destruct H as [sg n Hsg Hn | sg n d Hsg Hn Hd].
    + constructor; [now apply lang_opt_minus|].
      rewrite <- (append_empty_r n).
      constructor; [now apply lang_plus_digits|].
      apply lang_alt_r. constructor.
    + constructor; [now apply lang_opt_minus|].
      constructor; [now apply lang_plus_digits|].
      apply lang_alt_l.
      change ("/" ++ d) with (String "/" "" ++ d).
      constructor; [constructor | now apply lang_plus_digits].
Qed.

End ReFacts.

(* ================================================================== *)
(** * Properties of the problem engine *)
(* ================================================================== *)

Module ProblemEngineFacts.
Import Re PyFacts ReFacts ProblemEngine Examples.

(** ** Rendering of integers *)

Lemma chars_append (s1 s2 : string) : chars (s1 ++ s2) = (chars s1 ++ chars s2)%list.
Proof. induction s1 as [|c s1 IH]; simpl; [reflexivity | now rewrite IH]. Qed.

Lemma string_of_uint_digits (d : Decimal.uint) :
  Forall (fun c => isdigit c = true) (chars (NilEmpty.string_of_uint d)).
Proof. induction d; simpl; constructor; auto. Qed.

Lemma nilzero_string_of_uint_digits (d : Decimal.uint) :
  Forall (fun c => isdigit c = true) (chars (NilZero.string_of_uint d)).
Proof.
  destruct d; try apply string_of_uint_digits.
  simpl. constructor; auto.
Qed.

(** The decimal rendering of a non-negative integer consists of digits. *)
Lemma str_int_nonneg_digits (z : Z) :
  0 <= z -> Forall (fun c => isdigit c = true) (chars (str_int z)).
Proof.
  intro H. unfold str_int. destruct z as [|p|p]; simpl.
  - constructor; auto.
  - apply nilzero_string_of_uint_digits.
  - lia.
Qed.

(** Every character of a rendered integer is a digit or the minus sign. *)
Lemma str_int_chars (z : Z) :
  Forall (fun c => isdigit c = true \/ c = "-"%char) (chars (str_int z)).
Proof.
  assert (W : forall l, Forall (fun c => isdigit c = true) l ->
                        Forall (fun c => isdigit c = true \/ c = "-"%char) l).
  { intros l Hl. eapply Forall_impl; [|exact Hl]. simpl. auto. }
  unfold str_int. destruct z as [|p|p]; simpl.
  - constructor; auto.
  - apply W, nilzero_string_of_uint_digits.
  - constructor; [now right|]. apply W, nilzero_string_of_uint_digits.
Qed.

(** A one-character string is found only in strings that hold that
    character. *)
Lemma contains_char (c : ascii) (s : string) :
  contains (String c "") s = true -> In c (chars s).
Proof.
  induction s as [|b s IH]; simpl; [discriminate|].
  intro H. apply orb_prop in H as [H|H].
  - rewrite andb_true_r in H. apply Ascii.eqb_eq in H. now left.
  - right. now apply IH.
Qed.

Lemma str_int_no_slash (z : Z) : contains "/" (str_int z) = false.
Proof.
  destruct (contains "/" (str_int z)) eqn:E; [|reflexivity].
  apply contains_char in E.
  pose proof (str_int_chars z) as F. rewrite Forall_forall in F.
  destruct (F _ E) as [D|D]; discriminate.
Qed.

Lemma str_int_nonneg_no_minus (z : Z) :
  0 <= z -> string_prefix "-" (str_int z) = false.
Proof.
  intro H. apply str_int_nonneg_digits in H.
  destruct (str_int z) as [|c s]; [reflexivity|].
  unfold chars in H. cbn [list_ascii_of_string] in H.
  inversion H as [|? ? Hc _]; subst.
  change (string_prefix "-" (String c s)) with (Ascii.eqb "-" c && true).
  rewrite andb_true_r. destruct (Ascii.eqb "-" c) eqn:E; [|reflexivity].
  apply Ascii.eqb_eq in E. subst c. discriminate.
Qed.

(** ** The random source *)

Lemma randint_range (a b : Z) (t : tape Z) :
  a <= b -> a <= fst (randint a b t) <= b.
Proof.
  intro H. unfold randint, next. simpl.
  pose proof (Z.mod_pos_bound (t 0%nat) (b - a + 1)). lia.
Qed.

Lemma randint_eq (a b : Z) (t : tape Z) :
  randint a b t = (a + t 0%nat mod (b - a + 1), fun n => t (S n)).
Proof. reflexivity. Qed.

(** ** [check_solution] *)

Lemma is_correct_iff (student_answer : string) :
  match_anchored answer_pattern (strip student_answer) = true
  <-> Spec.answer_format (strip student_answer).
Proof.
  unfold match_anchored. rewrite chop_newline_strip, orb_false_r.
  rewrite fullmatch_lang. apply lang_answer_pattern.
Qed.

(** C1.  [check_solution] reports [correct] exactly when the stripped
    answer is an optionally-signed integer or an int/int fraction; the
    problem id plays no part in the result (no stored answer is looked
    up); and a hint and a next step are attached exactly when
    [show_steps] is set and the answer is not of that form. *)
Theorem check_solution_validates_format :
  forall (problem_id student_answer : string) (show_steps : bool),
    let r := check_solution problem_id student_answer show_steps in
    let well_formed := Spec.answer_format (strip student_answer) in
    (correct r = true <-> well_formed)
    /\ (hint r <> None <-> show_steps = true /\ ~ well_formed)
    /\ (next_step r <> None <-> show_steps = true /\ ~ well_formed)
    /\ (forall other_id : string,
          check_solution other_id student_answer show_steps = r).
Proof.
  intros problem_id student_answer show_steps r well_formed.
  pose proof (is_correct_iff student_answer) as C.
  fold well_formed in C.
  assert (A : forall x : string,
             (if show_steps
                 && negb (match_anchored answer_pattern (strip student_answer))
              then Some x else @None string) <> None
             <-> show_steps = true /\ ~ well_formed).
  { intro x.
    destruct show_steps,
      (match_anchored answer_pattern (strip student_answer)); simpl; split.
    - intro H. now contradiction H.
    - intros [_ H]. exfalso. apply H, C. reflexivity.
    - intros _. split; [reflexivity|]. intro H. apply C in H. discriminate.
    - discriminate.
    - intro H. now contradiction H.
    - intros [H _]. discriminate.
    - intro H. now contradiction H.
    - intros [H _]. discriminate. }
  split; [exact C|].
  split; [exact (A "Remember to check your work step by step")|].
  split; [exact (A "Try breaking down the problem into smaller parts")|].
  intro other_id. reflexivity.
Qed.

(** ** The subtraction generator *)

Lemma subtraction_operands_ordered (difficulty : DifficultyLevel) (t : tape Z) :
  exists (a b : Z) (t' : tape Z),
    subtraction_operands difficulty t = ((Z.max a b, Z.min a b), t').
Proof.
  destruct difficulty; unfold subtraction_operands, both, bindR, ret;
    rewrite !randint_eq; eauto.
Qed.

(** C8.  At every difficulty and for every state of the random source,
    the subtraction problem is [max(a,b) - min(a,b)] for the two draws
    [a] and [b]; its answer is the rendering of that difference, which is
    not negative and carries no minus sign. *)
Theorem subtraction_answer_never_negative :
  forall (difficulty : DifficultyLevel) (t : tape Z),
    let problem := fst (_generate_subtraction difficulty t) in
    exists a b : Z,
      data_question problem
        = "What is " ++ str_int (Z.max a b) ++ " - " ++ str_int (Z.min a b) ++ "?"
      /\ data_answer problem = str_int (Z.max a b - Z.min a b)
      /\ 0 <= Z.max a b - Z.min a b
      /\ string_prefix "-" (data_answer problem) = false.
Proof.
  intros difficulty t problem.
  destruct (subtraction_operands_ordered difficulty t) as (a & b & t' & E).
  exists a, b. subst problem. unfold _generate_subtraction, bindR.
  rewrite E. cbn [fst ret data_question data_answer].
  assert (0 <= Z.max a b - Z.min a b) by lia.
  repeat split; auto using str_int_nonneg_no_minus.
Qed.

(** ** The division generator *)

Lemma division_operands_multiple (difficulty : DifficultyLevel) (t : tape Z) :
  exists (b q : Z) (t' : tape Z),
    b = fst (match difficulty with
             | BEGINNER => randint 1 5 t
             | INTERMEDIATE => randint 2 10 t
             | _ => randint 5 20 t
             end)
    /\ 0 < b
    /\ division_operands difficulty t = ((b * q, b), t').
Proof.
  destruct difficulty; unfold division_operands, bindR, ret;
    match goal with
    | |- context [randint ?lo ?hi t] =>
        pose proof (randint_range lo hi t ltac:(lia)) as R;
        destruct (randint lo hi t) as [b t1] eqn:E1;
        destruct (randint lo hi t1) as [q t2] eqn:E2;
        exists b, q, t2; simpl in R |- *; repeat split; auto; lia
    end.
Qed.

(** C9.  At every difficulty and for every state of the random source,
    the divisor [b] is the first draw and the dividend is [b] times a
    second draw [q]; the answer is the rendering of [q], the exact
    quotient of the dividend by the divisor, and holds no [/]. *)
Theorem division_answer_exact_quotient :
  forall (difficulty : DifficultyLevel) (t : tape Z),
    let problem := fst (_generate_division difficulty t) in
    exists b q : Z,
      b = fst (match difficulty with
               | BEGINNER => randint 1 5 t
               | INTERMEDIATE => randint 2 10 t
               | _ => randint 5 20 t
               end)
      /\ fst (division_operands difficulty t) = (b * q, b)
      /\ data_question problem
         = "What is " ++ str_int (b * q) ++ " " ++ division_sign ++ " "
             ++ str_int b ++ "?"
      /\ (b * q) mod b = 0
      /\ (b * q) / b = q
      /\ data_answer problem = str_int q
      /\ contains "/" (data_answer problem) = false.
Proof.
  intros difficulty t problem.
  destruct (division_operands_multiple difficulty t) as (b & q & t' & Hb & Hpos & E).
  exists b, q. subst problem. unfold _generate_division, bindR.
  rewrite E. cbn [fst ret data_question data_answer].
  assert (Q : (b * q) / b = q) by (rewrite Z.mul_comm; apply Z.div_mul; lia).
  assert (M : (b * q) mod b = 0) by (rewrite Z.mul_comm; apply Z.mod_mul; lia).
  rewrite Q. repeat split; auto using str_int_no_slash.
Qed.

(** ** The algebra generator *)

(** C4, as stated, fails: for the draws [a = 4] and [b = 10] the answer is
    the string [10/4], which is not the fraction in lowest terms ([5/2])
    that the statement asks for. *)
Lemma algebra_fraction_not_reduced :
  let problem := fst (_generate_algebra ADVANCED tape_4_10) in
  data_question problem = "Solve for x: 4x = 10"
  /\ data_answer problem = "10/4"
  /\ Spec.algebra_answer 4 10 = "5/2"
  /\ data_answer problem <> Spec.algebra_answer 4 10.
Proof.
  repeat split; try reflexivity.
  vm_compute. discriminate.
Qed.

(** C4, amended.  Above the beginner level the question is [a x = b] for
    draws [a] of [2..10] and [b] of [10..50]; when [a] does not divide [b]
    the answer is the fraction [b/a] written with the drawn operands as
    they are. *)
Theorem algebra_advanced_answer :
  forall (difficulty : DifficultyLevel) (t : tape Z),
    difficulty <> BEGINNER ->
    let problem := fst (_generate_algebra difficulty t) in
    exists a b : Z,
      2 <= a <= 10 /\ 10 <= b <= 50
      /\ data_question problem
         = "Solve for x: " ++ str_int a ++ "x = " ++ str_int b
      /\ (b mod a <> 0 ->
          data_answer problem = str_int b ++ "/" ++ str_int a).
Proof.
  intros difficulty t Hd problem.
  pose proof (randint_range 2 10 t ltac:(lia)) as Ra.
  destruct (randint 2 10 t) as [a t1] eqn:E1.
  pose proof (randint_range 10 50 t1 ltac:(lia)) as Rb.
  destruct (randint 10 50 t1) as [b t2] eqn:E2.
  exists a, b. simpl in Ra, Rb.
  assert (P : problem
              = {| data_question := "Solve for x: " ++ str_int a ++ "x = " ++ str_int b;
                   data_answer := algebra_answer a b;
                   data_solution_steps :=
                     [ "We have " ++ str_int a ++ "x = " ++ str_int b;
                       "Divide both sides by " ++ str_int a;
                       "x = " ++ str_int b ++ "/" ++ str_int a;
                       "x = " ++ algebra_answer a b ];
                   data_hints :=
                     [ "Isolate the variable x";
                       "What operation undoes the one in the equation?";
                       "Check your answer by substituting back" ];
                   data_explanation :=
                     "To solve for x, we isolate it on one side of the equation." |}).
  { subst problem.
    destruct difficulty; [contradiction| | |];
      unfold _generate_algebra, bindR, ret; rewrite E1, E2; reflexivity. }
  rewrite P. cbn [data_question data_answer].
  repeat split; try lia.
  intro N. unfold algebra_answer.
  destruct (b mod a =? 0) eqn:E; [|reflexivity].
  apply Z.eqb_eq in E. contradiction.
Qed.

Lemma algebra_advanced_answer_witness :
  ADVANCED <> BEGINNER
  /\ exists a b : Z,
       2 <= a <= 10 /\ 10 <= b <= 50
       /\ data_question (fst (_generate_algebra ADVANCED tape_4_10))
          = "Solve for x: " ++ str_int a ++ "x = " ++ str_int b
       /\ (b mod a <> 0 ->
           data_answer (fst (_generate_algebra ADVANCED tape_4_10))
           = str_int b ++ "/" ++ str_int a).
Proof.
  split; [discriminate|].
  apply (algebra_advanced_answer ADVANCED tape_4_10). discriminate.
Defined.

(** ** [generate_problem] *)

(** C10.  For a known topic and a valid grade, difficulty level 0 indexes
    the tier list at -1: the call returns, the problem is at the expert
    tier, and it is the very problem level 4 yields.  Level 5 indexes
    past the end and raises [IndexError]. *)
Theorem difficulty_zero_wraps_to_expert :
  forall (topic : string) (student_level : Z) (topic_enum : MathTopic)
         (grade : GradeLevel) (t : tape Z),
    MathTopic_of topic = Ok topic_enum ->
    GradeLevel_of (str_int student_level) = Ok grade ->
    (exists (p : Problem) (t' : tape Z),
        generate_problem topic 0 student_level t = Ok (p, t')
        /\ problem_difficulty p = EXPERT
        /\ problem_topic p = topic_enum
        /\ generate_problem topic 4 student_level t = Ok (p, t'))
    /\ generate_problem topic 5 student_level t = Raise IndexError.
Proof.
  intros topic student_level topic_enum grade t Ht Hg.
  unfold generate_problem. rewrite Ht, Hg.
  change (index ["beginner"; "intermediate"; "advanced"; "expert"] (0 - 1))
    with (@Ok string "expert").
  change (index ["beginner"; "intermediate"; "advanced"; "expert"] (4 - 1))
    with (@Ok string "expert").
  change (index ["beginner"; "intermediate"; "advanced"; "expert"] (5 - 1))
    with (@Raise string IndexError).
  cbn [bind].
  change (DifficultyLevel_of "expert") with (Ok EXPERT).
  cbn [bind].
  destruct (get_default MathTopic_beq topic_enum _generate_default generators
              EXPERT t) as [problem_data t1].
  destruct (randint 1000 9999 t1) as [n t2].
  split; [|reflexivity].
  eexists. eexists. split; [reflexivity|]. repeat split.
Qed.

Lemma difficulty_zero_wraps_to_expert_witness :
  (exists (p : Problem) (t' : tape Z),
      generate_problem "division" 0 4 tape_4_10 = Ok (p, t')
      /\ problem_difficulty p = EXPERT
      /\ problem_topic p = DIVISION
      /\ generate_problem "division" 4 4 tape_4_10 = Ok (p, t'))
  /\ generate_problem "division" 5 4 tape_4_10 = Raise IndexError.
Proof.
  apply (difficulty_zero_wraps_to_expert "division" 4 DIVISION GRADE_4 tape_4_10);
    reflexivity.
Defined.

End ProblemEngineFacts.

(* ================================================================== *)
(** * Comparisons of binary64 scores with the two thresholds *)
(* ================================================================== *)

Module FloatFacts.

Ltac fold_compare :=
  repeat match goal with
         | |- context [Pos.compare_cont Eq ?a ?b] =>
             change (Pos.compare_cont Eq a b) with (Pos.compare a b)
         end.

(** Two positive finite floats of one binade, [flo < fhi], against any
    float [f]. *)
Section Band.
Variables (lo hi : positive) (e0 : Z).
Hypothesis lo_hi : (lo < hi)%positive.

Lemma sf_below_lo_not_above_hi (f : spec_float) :
  SFltb f (S754_finite false lo e0) = true ->
  SFleb (S754_finite false hi e0) f = false.
Proof.
  unfold SFltb, SFleb, SFcompare.
  destruct f as [sg|sg| |sg m e]; try reflexivity.
  - destruct sg; [reflexivity | discriminate].
  - destruct sg; [reflexivity|].
    rewrite (Z.compare_antisym e e0).
    destruct (Z.compare e e0); cbn [CompOpp];
      try reflexivity; try discriminate.
    fold_compare. intro H.
    destruct (Pos.compare_spec m lo); try discriminate.
    destruct (Pos.compare_spec hi m); try reflexivity; lia.
Qed.

Lemma sf_between (f : spec_float) :
  f <> S754_nan ->
  SFleb (S754_finite false hi e0) f = false ->
  SFltb f (S754_finite false lo e0) = false ->
  SFleb (S754_finite false lo e0) f = true
  /\ SFltb f (S754_finite false hi e0) = true.
Proof.
  unfold SFltb, SFleb, SFcompare.
  destruct f as [sg|sg| |sg m e]; intro N.
  - discriminate.
  - destruct sg; discriminate.
  - contradiction.
  - destruct sg; [discriminate|].
    rewrite (Z.compare_antisym e e0).
    destruct (Z.compare e e0); cbn [CompOpp]; try discriminate.
    fold_compare. intros H1 H2.
    destruct (Pos.compare_spec hi m); try discriminate.
    destruct (Pos.compare_spec m lo); try discriminate;
      destruct (Pos.compare_spec lo m); try lia;
      destruct (Pos.compare_spec m hi); try lia; auto.
Qed.

Lemma sf_between_inv (f : spec_float) :
  SFleb (S754_finite false lo e0) f = true ->
  SFltb f (S754_finite false hi e0) = true ->
  SFleb (S754_finite false hi e0) f = false
  /\ SFltb f (S754_finite false lo e0) = false.
Proof.
  unfold SFltb, SFleb, SFcompare.
  destruct f as [sg|sg| |sg m e].
  - discriminate.
  - destruct sg; discriminate.
  - discriminate.
  - destruct sg; [discriminate|].
    rewrite (Z.compare_antisym e e0).
    destruct (Z.compare e e0); cbn [CompOpp]; try discriminate.
    fold_compare. intros H1 H2.
    destruct (Pos.compare_spec lo m); try discriminate;
      destruct (Pos.compare_spec m hi); try discriminate;
      destruct (Pos.compare_spec hi m); try lia;
      destruct (Pos.compare_spec m lo); try lia; split; reflexivity.
Qed.

End Band.

Lemma prim_0_6 : Prim2SF 0.6 = S754_finite false 5404319552844595 (-53).
Proof. reflexivity. Qed.

Lemma prim_0_8 : Prim2SF 0.8 = S754_finite false 7205759403792794 (-53).
Proof. reflexivity. Qed.

Lemma mantissa_0_6_lt_0_8 : (5404319552844595 < 7205759403792794)%positive.
Proof. reflexivity. Qed.

Lemma not_nan_spec (s : float) :
  PrimFloat.is_nan s = false -> Prim2SF s <> S754_nan.
Proof.
  unfold PrimFloat.is_nan. rewrite eqb_spec. intros H E.
  rewrite E in H. discriminate.
Qed.

(** A score below 0.6 does not reach 0.8. *)
Lemma below_0_6_not_above_0_8 (s : float) :
  (s <? 0.6)%float = true -> (0.8 <=? s)%float = false.
Proof.
  rewrite ltb_spec, leb_spec, prim_0_6, prim_0_8.
  apply sf_below_lo_not_above_hi. exact mantissa_0_6_lt_0_8.
Qed.

(** A score that is a number and is neither [>= 0.8] nor [< 0.6] lies in
    [0.6, 0.8), and conversely. *)
Lemma neither_iff_between (s : float) :
  PrimFloat.is_nan s = false ->
  ((0.8 <=? s)%float = false /\ (s <? 0.6)%float = false
   <-> (0.6 <=? s)%float = true /\ (s <? 0.8)%float = true).
Proof.
  intro N. apply not_nan_spec in N.
  rewrite !ltb_spec, !leb_spec, prim_0_6, prim_0_8. split.
  - intros [H1 H2]. now apply sf_between.
  - intros [H1 H2]. now apply sf_between_inv.
Qed.

End FloatFacts.

(* ================================================================== *)
(** * Dictionaries and enumerations *)
(* ================================================================== *)

Module DictFacts.

Section WithKeys.
Context {K V : Type} (eqb : K -> K -> bool).
Hypothesis eqb_eq : forall a b : K, eqb a b = true <-> a = b.

Lemma eqb_same (k : K) : eqb k k = true.
Proof. now apply eqb_eq. Qed.

Lemma eqb_differ (a b : K) : a <> b -> eqb a b = false.
Proof.
  intro N. destruct (eqb a b) eqn:E; [|reflexivity].
  apply eqb_eq in E. contradiction.
Qed.

(** Reading the key just assigned. *)
Lemma get_after_set (k : K) (v : V) (d : dict K V) :
  get eqb k (set eqb k v d) = Some v.
Proof.
  induction d as [|[k' v'] d IH]; simpl.
  - now rewrite eqb_same.
  - destruct (eqb k k') eqn:E; simpl; rewrite E; [reflexivity | exact IH].
Qed.

(** Reading another key than the one assigned. *)
Lemma get_set_elsewhere (k k0 : K) (v : V) (d : dict K V) :
  k0 <> k -> get eqb k0 (set eqb k v d) = get eqb k0 d.
Proof.
  intro N. induction d as [|[k' v'] d IH]; simpl.
  - now rewrite (eqb_differ k0 k).
  - destruct (eqb k k') eqn:E; simpl.
    + apply eqb_eq in E. subst k'. now rewrite (eqb_differ k0 k).
    + destruct (eqb k0 k'); [reflexivity | exact IH].
Qed.

(** A dictionary holds one value per key. *)
Lemma one_value_per_key (d : dict K V) (k : K) (v v' : V) :
  NoDup (keys d) -> In (k, v) d -> In (k, v') d -> v = v'.
Proof.
  unfold keys. induction d as [|[k0 v0] d IH]; simpl; [contradiction|].
  intros ND [H|H] [H'|H'].
  - congruence.
  - inversion ND as [|? ? Hk _]; subst. injection H as -> ->.
    exfalso. apply Hk. change k with (fst (k, v')). now apply in_map.
  - inversion ND as [|? ? Hk _]; subst. injection H' as -> ->.
    exfalso. apply Hk. change k with (fst (k, v)). now apply in_map.
  - inversion ND; subst. now apply IH.
Qed.

End WithKeys.

Lemma in_take {A} (k : nat) (l : list A) (x : A) : In x (take k l) -> In x l.
Proof.
  unfold take. revert l. induction k as [|k IH]; intros [|y l]; simpl;
    try contradiction.
  intros [H|H]; [now left | right; now apply IH].
Qed.

Lemma MathTopic_beq_eq (a b : MathTopic) : MathTopic_beq a b = true <-> a = b.
Proof.
  split.
  - apply internal_MathTopic_dec_bl.
  - apply internal_MathTopic_dec_lb.
Qed.

Lemma mem_In (x : string) (l : list string) : mem x l = true <-> In x l.
Proof.
  unfold mem. rewrite existsb_exists. split.
  - intros (y & Hy & E). apply String.eqb_eq in E. now subst.
  - intro H. exists x. split; [assumption | apply String.eqb_refl].
Qed.

(** A string that names a member is that member's value. *)
Lemma enum_of_value_inv {E} (members : list E) (value : E -> string)
    (s : string) (m : E) :
  enum_of_value members value s = Ok m -> s = value m /\ In m members.
Proof.
  unfold enum_of_value.
  destruct (find (fun m => String.eqb (value m) s) members) as [m'|] eqn:F;
    [|discriminate].
  intro H. injection H as ->. apply find_some in F as [HIn HE].
  apply String.eqb_eq in HE. now split.
Qed.

Lemma MathTopic_of_value (s : string) (t : MathTopic) :
  MathTopic_of s = Ok t -> s = topic_value t.
Proof. intro H. now apply enum_of_value_inv in H. Qed.

(** The grades [1 .. 12] are members of [GradeLevel]. *)
Lemma GradeLevel_of_valid (grade_level : Z) :
  1 <= grade_level <= 12 ->
  exists grade, GradeLevel_of (str_int grade_level) = Ok grade.
Proof.
  intro H.
  assert (C : grade_level = 1 \/ grade_level = 2 \/ grade_level = 3
              \/ grade_level = 4 \/ grade_level = 5 \/ grade_level = 6
              \/ grade_level = 7 \/ grade_level = 8 \/ grade_level = 9
              \/ grade_level = 10 \/ grade_level = 11 \/ grade_level = 12)
    by lia.
  repeat (destruct C as [->|C]; [eexists; reflexivity|]).
  subst. eexists; reflexivity.
Qed.

End DictFacts.

(* ================================================================== *)
(** * Properties of the learning-path engine *)
(* ================================================================== *)

Module LearningPathFacts.
Import LearningPathGenerator DictFacts FloatFacts Examples.

(** ** [_analyze_assessment] *)

Lemma analyze_fold (results : dict string float) :
  forall strengths weaknesses,
    fold_left analyze_step results (strengths, weaknesses)
    = ((strengths ++ Spec.strong_topics results)%list,
       (weaknesses ++ Spec.weak_topics results)%list).
Proof.
  induction results as [|[k s] results IH]; intros strengths weaknesses.
  - simpl. now rewrite !app_nil_r.
  - cbn [fold_left analyze_step Spec.strong_topics Spec.weak_topics flat_map
         fst snd].
    destruct (MathTopic_of k) as [t|e].
    + destruct (0.8 <=? s)%float eqn:E8.
      * destruct (s <? 0.6)%float eqn:E6.
        { apply below_0_6_not_above_0_8 in E6. congruence. }
        rewrite IH. now rewrite <- app_assoc.
      * destruct (s <? 0.6)%float; rewrite IH; now rewrite <- ?app_assoc.
    + now rewrite IH.
Qed.

(** The strengths and the weaknesses are the topics scored [>= 0.8] and
    [< 0.6], in the order of the assessment. *)
Lemma analyze_assessment_eq (results : dict string float) :
  _analyze_assessment results
  = (Spec.strong_topics results, Spec.weak_topics results).
Proof. unfold _analyze_assessment. now rewrite analyze_fold. Qed.

Lemma in_strong_topics (results : dict string float) (t : MathTopic) :
  In t (Spec.strong_topics results)
  <-> exists k s, In (k, s) results /\ MathTopic_of k = Ok t
                  /\ (0.8 <=? s)%float = true.
Proof.
  unfold Spec.strong_topics. rewrite in_flat_map. split.
  - intros ([k s] & HIn & H). simpl in H.
    destruct (MathTopic_of k) as [t'|] eqn:R; [|contradiction].
    destruct (0.8 <=? s)%float eqn:E; [|contradiction].
    destruct H as [->|[]]. now exists k, s.
  - intros (k & s & HIn & R & E). exists (k, s). split; [assumption|].
    simpl. rewrite R, E. now left.
Qed.

Lemma in_weak_topics (results : dict string float) (t : MathTopic) :
  In t (Spec.weak_topics results)
  <-> exists k s, In (k, s) results /\ MathTopic_of k = Ok t
                  /\ (s <? 0.6)%float = true.
Proof.
  unfold Spec.weak_topics. rewrite in_flat_map. split.
  - intros ([k s] & HIn & H). simpl in H.
    destruct (MathTopic_of k) as [t'|] eqn:R; [|contradiction].
    destruct (s <? 0.6)%float eqn:E; [|contradiction].
    destruct H as [->|[]]. now exists k, s.
  - intros (k & s & HIn & R & E). exists (k, s). split; [assumption|].
    simpl. rewrite R, E. now left.
Qed.

(** In a dictionary, the score under which a topic was assessed is
    unique. *)
Lemma assessed_once (results : dict string float) (k k' : string)
    (s s' : float) (t : MathTopic) :
  NoDup (keys results) ->
  In (k, s) results -> MathTopic_of k = Ok t ->
  In (k', s') results -> MathTopic_of k' = Ok t ->
  s = s'.
Proof.
  intros ND H R H' R'.
  apply MathTopic_of_value in R, R'. subst k k'.
  exact (one_value_per_key results _ s s' ND H H').
Qed.

(** C6.  Every topic string of an assessment that names a topic lands in
    exactly one bucket: strength when its score is [>= 0.8], weakness when
    it is [< 0.6], neutral otherwise, which for a score that is a number
    means a score in [0.6, 0.8).  Strings that name no topic put nothing
    into any bucket (and nothing is raised: the classification is a total
    function).  On the assessment multiplication 0.9, division 0.5,
    fractions 0.7 the strengths are multiplication alone, the weaknesses
    division alone, and fractions is neutral. *)
Theorem classification_buckets :
  (forall results : dict string float,
      NoDup (keys results) ->
      let classes := _analyze_assessment results in
      classes = (Spec.strong_topics results, Spec.weak_topics results)
      /\ (forall (k : string) (s : float) (t : MathTopic),
             In (k, s) results -> MathTopic_of k = Ok t ->
             ((0.8 <=? s)%float = true -> Spec.placed t classes Spec.strength)
             /\ ((s <? 0.6)%float = true -> Spec.placed t classes Spec.weakness)
             /\ ((0.8 <=? s)%float = false -> (s <? 0.6)%float = false ->
                 Spec.placed t classes Spec.neutral)
             /\ (PrimFloat.is_nan s = false ->
                 ((0.8 <=? s)%float = false /\ (s <? 0.6)%float = false
                  <-> (0.6 <=? s)%float = true /\ (s <? 0.8)%float = true)))
      /\ (forall t : MathTopic,
             In t (fst classes) \/ In t (snd classes) ->
             exists k s, In (k, s) results /\ MathTopic_of k = Ok t))
  /\ _analyze_assessment assessment = ([MULTIPLICATION], [DIVISION])
  /\ Spec.placed FRACTIONS (_analyze_assessment assessment) Spec.neutral.
Proof.
  split; [|split].
  - intros results ND classes. subst classes.
    rewrite analyze_assessment_eq. split; [reflexivity|]. split.
    + intros k s t HIn R. unfold Spec.placed.
      assert (Strong : In t (Spec.strong_topics results)
                       -> (0.8 <=? s)%float = true).
      { intro H. apply in_strong_topics in H as (k' & s' & HIn' & R' & E).
        now rewrite (assessed_once results k k' s s' t ND HIn R HIn' R'). }
      assert (Weak : In t (Spec.weak_topics results)
                     -> (s <? 0.6)%float = true).
      { intro H. apply in_weak_topics in H as (k' & s' & HIn' & R' & E).
        now rewrite (assessed_once results k k' s s' t ND HIn R HIn' R'). }
      split; [|split; [|split]].
      * intro S8. split.
        { apply in_strong_topics. now exists k, s. }
        intro W. apply Weak, below_0_6_not_above_0_8 in W. congruence.
      * intro W6. split.
        { apply in_weak_topics. now exists k, s. }
        intro S. apply Strong in S.
        apply below_0_6_not_above_0_8 in W6. congruence.
      * intros N8 N6. split.
        { intro S. apply Strong in S. congruence. }
        intro W. apply Weak in W. congruence.
      * intro N. now apply neither_iff_between.
    + intros t [H|H]; simpl in H.
      * apply in_strong_topics in H as (k & s & HIn & R & _). now exists k, s.
      * apply in_weak_topics in H as (k & s & HIn & R & _). now exists k, s.
  - reflexivity.
  - unfold Spec.placed. change (_analyze_assessment assessment)
      with ([MULTIPLICATION], [DIVISION]).
    split; intros [H|[]]; discriminate.
Qed.

Lemma classification_buckets_witness :
  NoDup (keys assessment)
  /\ _analyze_assessment assessment
     = (Spec.strong_topics assessment, Spec.weak_topics assessment).
Proof.
  assert (ND : NoDup (keys assessment)).
  { repeat constructor; simpl; intuition discriminate. }
  split; [exact ND|].
  exact (proj1 (proj1 classification_buckets assessment ND)).
Defined.

(** ** [complete_lesson] *)

(** C7.  For a lesson of the path, [complete_lesson] records the
    performance under the lesson id, leaves the lessons as they are, and
    moves [current_lesson] one further exactly when the performance
    reaches the threshold, leaving it in place otherwise; with the default
    threshold 0.79 does not advance and 0.8 does.  For a lesson id that is
    not in the path, the path (and the clock) are returned untouched. *)
Theorem complete_lesson_records_and_advances :
  forall (st : Settings) (path : LearningPath) (lesson_id : string)
         (performance : float) (clk : tape datetime),
    let path' := fst (complete_lesson st path lesson_id performance clk) in
    (In lesson_id (lessons path) ->
       progress path' = set String.eqb lesson_id performance (progress path)
       /\ get String.eqb lesson_id (progress path') = Some performance
       /\ lessons path' = lessons path
       /\ (current_lesson path' = current_lesson path + 1
           <-> (min_accuracy_for_advancement st <=? performance)%float = true)
       /\ (current_lesson path' = current_lesson path
           <-> (min_accuracy_for_advancement st <=? performance)%float = false)
       /\ current_lesson
            (fst (complete_lesson settings path lesson_id 0.79%float clk))
          = current_lesson path
       /\ current_lesson
            (fst (complete_lesson settings path lesson_id 0.8%float clk))
          = current_lesson path + 1)
    /\ (~ In lesson_id (lessons path) ->
        complete_lesson st path lesson_id performance clk = (path, clk)).
Proof.
  intros st path lesson_id performance clk path'. subst path'. split.
  - intro HIn. apply mem_In in HIn.
    unfold complete_lesson. rewrite HIn.
    change (min_accuracy_for_advancement settings <=? 0.79)%float with false.
    change (min_accuracy_for_advancement settings <=? 0.8)%float with true.
    destruct (min_accuracy_for_advancement st <=? performance)%float;
      cbn; repeat split; try reflexivity; try discriminate; try lia;
      try (apply get_after_set; apply String.eqb_eq).
  - intro N. unfold complete_lesson.
    destruct (mem lesson_id (lessons path)) eqn:E; [|reflexivity].
    apply mem_In in E. contradiction.
Qed.

Lemma complete_lesson_records_and_advances_witness :
  In "lesson_mult_3_1" (lessons path_04)
  /\ current_lesson
       (fst (complete_lesson settings path_04 "lesson_mult_3_1" 0.8%float clock))
     = current_lesson path_04 + 1.
Proof.
  assert (HIn : In "lesson_mult_3_1" (lessons path_04)) by (now left).
  split; [exact HIn|].
  apply (proj1 (complete_lesson_records_and_advances
                  settings path_04 "lesson_mult_3_1" 0.8%float clock) HIn).
Defined.

(** ** [update_path]: the mastery scores *)

(** Keys that resolve to other topics leave a topic's score alone. *)
Lemma blend_elsewhere (performance_data : dict string float) (t : MathTopic) :
  (forall k s, In (k, s) performance_data -> MathTopic_of k <> Ok t) ->
  forall mastery,
    get MathTopic_beq t (blend_mastery mastery performance_data)
    = get MathTopic_beq t mastery.
Proof.
  unfold blend_mastery.
  induction performance_data as [|[k s] rest IH]; intros N mastery.
  - reflexivity.
  - cbn [fold_left]. rewrite IH by (intros k' s' H; apply (N k' s'); now right).
    unfold blend_step. destruct (MathTopic_of k) as [t0|] eqn:R; [|reflexivity].
    apply (get_set_elsewhere MathTopic_beq MathTopic_beq_eq).
    intros ->. apply (N k s); [now left | assumption].
Qed.

(** A key that resolves to a topic sets the topic's score to the blend. *)
Lemma blend_resolved (performance_data : dict string float) :
  NoDup (keys performance_data) ->
  forall mastery k s t,
    In (k, s) performance_data -> MathTopic_of k = Ok t ->
    get MathTopic_beq t (blend_mastery mastery performance_data)
    = Some (0.3 * get_default MathTopic_beq t 0.0 mastery + 0.7 * s)%float.
Proof.
  unfold blend_mastery.
  induction performance_data as [|[k0 s0] rest IH];
    intros ND mastery k s t HIn R; [contradiction|].
  inversion ND as [|? ? Hk ND']; subst.
  cbn [fold_left]. destruct HIn as [E|HIn].
  - injection E as -> ->.
    pose proof (blend_elsewhere rest t) as B. unfold blend_mastery in B.
    rewrite B.
    + unfold blend_step. rewrite R.
      apply (get_after_set MathTopic_beq MathTopic_beq_eq).
    + intros k' s' H' R'. apply MathTopic_of_value in R, R'. subst k'.
      apply Hk. subst k. change (topic_value t) with (fst (topic_value t, s')).
      now apply in_map.
  - rewrite (IH ND' _ k s t HIn R). do 3 f_equal.
    unfold blend_step. destruct (MathTopic_of k0) as [t0|] eqn:R0; [|reflexivity].
    unfold get_default.
    rewrite (get_set_elsewhere MathTopic_beq MathTopic_beq_eq); [reflexivity|].
    intros ->. apply MathTopic_of_value in R, R0. subst k0.
    apply Hk. rewrite <- R. change k with (fst (k, s)). now apply in_map.
Qed.

(** Keys that name no topic leave the whole dictionary as it is. *)
Lemma blend_unresolved (performance_data : dict string float) :
  (forall k s, In (k, s) performance_data -> MathTopic_of k = Raise ValueError) ->
  forall mastery, blend_mastery mastery performance_data = mastery.
Proof.
  unfold blend_mastery.
  induction performance_data as [|[k s] rest IH]; intros N mastery.
  - reflexivity.
  - cbn [fold_left]. unfold blend_step at 2.
    rewrite (N k s) by now left.
    apply IH. intros k' s' H. apply (N k' s'). now right.
Qed.

(** The loop that splices remedial lessons keeps the index and the
    mastery scores, and never shortens the list of lessons. *)
Lemma length_insert {A} (i : Z) (x : A) (l : list A) :
  len (insert i x l) = len l + 1.
Proof.
  unfold insert, len.
  set (n := Z.to_nat _).
  rewrite length_app. cbn [List.length].
  pose proof (firstn_skipn n l) as E.
  apply (f_equal (@List.length A)) in E. rewrite length_app in E. lia.
Qed.

Lemma remedial_step_keeps (cur : Curriculum.t) (topic : MathTopic)
    (path : LearningPath) (clk : tape datetime) :
  let path' := fst (remedial_step cur topic path clk) in
  current_lesson path' = current_lesson path
  /\ mastery_scores path' = mastery_scores path
  /\ len (lessons path) <= len (lessons path').
Proof.
  unfold remedial_step.
  destruct (Curriculum.get_lessons_for_topic cur topic None) as [|first rest].
  - cbn. repeat split; lia.
  - cbn. repeat split. rewrite length_insert. lia.
Qed.

Lemma remedial_loop_keeps (cur : Curriculum.t) (topics : list MathTopic) :
  forall (path : LearningPath) (clk : tape datetime),
    let path' := fst (remedial_loop cur topics path clk) in
    current_lesson path' = current_lesson path
    /\ mastery_scores path' = mastery_scores path
    /\ len (lessons path) <= len (lessons path').
Proof.
  induction topics as [|topic rest IH]; intros path clk.
  - cbn. repeat split; lia.
  - cbn [remedial_loop].
    pose proof (remedial_step_keeps cur topic path clk) as S.
    destruct (remedial_step cur topic path clk) as [p1 c1].
    cbn [fst] in S. destruct S as (S1 & S2 & S3).
    destruct (IH p1 c1) as (I1 & I2 & I3).
    cbv zeta. rewrite I1, I2, S1, S2. repeat split. lia.
Qed.

Lemma update_path_keeps (cur : Curriculum.t) (st : Settings)
    (path : LearningPath) (performance_data : dict string float)
    (clk : tape datetime) :
  let path' := fst (update_path cur st path performance_data clk) in
  current_lesson path' = current_lesson path
  /\ mastery_scores path'
     = blend_mastery (mastery_scores path) performance_data
  /\ len (lessons path) <= len (lessons path').
Proof.
  unfold update_path.
  match goal with
  | |- context [remedial_loop cur ?ts ?p clk] =>
      pose proof (remedial_loop_keeps cur ts p clk) as L;
      destruct (remedial_loop cur ts p clk) as [p1 c1]
  end.
  cbn [fst] in L. destruct L as (L1 & L2 & L3).
  cbn [current_lesson mastery_scores lessons with_mastery_scores] in L1, L2, L3.
  destruct (more_than_half _ _); cbn; rewrite L1, L2; repeat split; exact L3.
Qed.

(** C5, as stated, fails: with an old mastery of 0.4 and an observed
    score of 0.8 the new mastery is the binary64 number just below 0.68
    (printed 0.6799999999999999), not 0.68. *)
Lemma blend_is_not_exactly_0_68 :
  let path' :=
    fst (update_path Curriculum.sample settings path_04
           [("multiplication", 0.8%float)] clock) in
  get MathTopic_beq MULTIPLICATION (mastery_scores path_04) = Some 0.4%float
  /\ get MathTopic_beq MULTIPLICATION (mastery_scores path')
     = Some 0x1.5c28f5c28f5c2p-1%float
  /\ get MathTopic_beq MULTIPLICATION (mastery_scores path')
     <> Some 0.68%float.
Proof.
  repeat split.
  intro H.
  apply (f_equal (fun score => match score with
                               | Some x => PrimFloat.eqb x 0.68
                               | None => false
                               end)) in H.
  vm_compute in H. discriminate.
Qed.

(** C5, amended.  For every key of [performance_data] that names a topic,
    [update_path] sets the topic's mastery to the binary64 value of
    [0.3 * old + 0.7 * observed] (each product and the sum rounded to
    nearest; [old] is 0.0 for a topic not yet scored); topics that no key
    names keep their score, and when no key names a topic the scores are
    left as they were.  For 0.4 and 0.8 the blend is the binary64 number
    0x1.5c28f5c28f5c2p-1, one unit in the last place below 0.68. *)
Theorem update_path_blends_mastery :
  forall (cur : Curriculum.t) (st : Settings) (path : LearningPath)
         (performance_data : dict string float) (clk : tape datetime),
    NoDup (keys performance_data) ->
    let path' := fst (update_path cur st path performance_data clk) in
    (forall (k : string) (s : float) (t : MathTopic),
        In (k, s) performance_data -> MathTopic_of k = Ok t ->
        get MathTopic_beq t (mastery_scores path')
        = Some (0.3 * get_default MathTopic_beq t 0.0 (mastery_scores path)
                + 0.7 * s)%float)
    /\ (forall t : MathTopic,
           (forall k s, In (k, s) performance_data -> MathTopic_of k <> Ok t) ->
           get MathTopic_beq t (mastery_scores path')
           = get MathTopic_beq t (mastery_scores path))
    /\ ((forall k s, In (k, s) performance_data ->
                     MathTopic_of k = Raise ValueError) ->
        mastery_scores path' = mastery_scores path)
    /\ (0.3 * 0.4 + 0.7 * 0.8 = 0x1.5c28f5c28f5c2p-1)%float
    /\ PrimFloat.next_up 0x1.5c28f5c28f5c2p-1 = 0.68%float.
Proof.
  intros cur st path performance_data clk ND path'.
  destruct (update_path_keeps cur st path performance_data clk) as (_ & M & _).
  fold path' in M. rewrite M.
  split; [|split; [|split; [|split]]].
  - intros k s t HIn R. now apply blend_resolved with k.
  - intros t N. now apply blend_elsewhere.
  - intro N. now apply blend_unresolved.
  - reflexivity.
  - reflexivity.
Qed.

Lemma update_path_blends_mastery_witness :
  NoDup (keys [("multiplication", 0.8%float); ("not_a_topic", 0.1%float)])
  /\ get MathTopic_beq MULTIPLICATION
       (mastery_scores
          (fst (update_path Curriculum.sample settings path_04
                  [("multiplication", 0.8%float); ("not_a_topic", 0.1%float)]
                  clock)))
     = Some (0.3 * get_default MathTopic_beq MULTIPLICATION 0.0
                     (mastery_scores path_04)
             + 0.7 * 0.8)%float.
Proof.
  assert (ND : NoDup (keys [("multiplication", 0.8%float);
                            ("not_a_topic", 0.1%float)])).
  { repeat constructor; simpl; intuition discriminate. }
  split; [exact ND|].
  apply (proj1 (update_path_blends_mastery Curriculum.sample settings path_04
                  _ clock ND) "multiplication" 0.8%float MULTIPLICATION).
  - now left.
  - reflexivity.
Defined.

(** ** [create_path] *)

(** For a grade of [1 .. 12] and a known learning style, [create_path]
    returns this path. *)
Lemma create_path_returns (cur : Curriculum.t) (student_id : string)
    (grade_level : Z) (assessment_results : dict string float)
    (learning_style : string) (goals : option (list string))
    (clk : tape datetime) (style : LearningStyle) :
  1 <= grade_level <= 12 ->
  LearningStyle_of learning_style = Ok style ->
  exists (grade : GradeLevel) (path : LearningPath) (clk' : tape datetime),
    GradeLevel_of (str_int grade_level) = Ok grade
    /\ create_path cur student_id grade_level assessment_results
         learning_style goals clk = Ok (path, clk')
    /\ current_lesson path = 0
    /\ recommended_topics path = take 3 (Spec.weak_topics assessment_results)
    /\ mastery_scores path
       = seed_mastery (Curriculum.get_topics_for_grade grade) assessment_results.
Proof.
  intros G S. destruct (GradeLevel_of_valid grade_level G) as [grade Hg].
  exists grade. unfold create_path, _get_or_create_student.
  rewrite Hg, S. cbn [bind].
  replace ((3 <=? grade_level + 5) && (grade_level + 5 <=? 18)) with true
    by (symmetry; apply andb_true_intro; split; apply Z.leb_le; lia).
  rewrite analyze_assessment_eq.
  eexists. eexists. split; [reflexivity|]. split; [reflexivity|].
  repeat split.
Qed.

(** C3, as stated, fails: for grade 3, an assessment that scores calculus
    at 0.1 makes calculus a recommended topic, and calculus is not in the
    topic list of grade 3. *)
Lemma recommended_topic_outside_grade :
  exists (path : LearningPath) (clk' : tape datetime),
    create_path Curriculum.sample "student_1" 3 [("calculus", 0.1%float)]
      "visual" None clock = Ok (path, clk')
    /\ recommended_topics path = [CALCULUS]
    /\ GradeLevel_of (str_int 3) = Ok GRADE_3
    /\ ~ In CALCULUS (Curriculum.get_topics_for_grade GRADE_3).
Proof.
  eexists. eexists. split; [reflexivity|]. split; [reflexivity|].
  split; [reflexivity|].
  cbv. intuition discriminate.
Qed.

(** C3, amended.  For a grade of [1 .. 12] and a known learning style,
    [create_path] returns a path whose recommended topics are the first
    three weakness topics in classification order; each of them is a topic
    that a key of the assessment names with a score below 0.6, whether or
    not the grade's curriculum lists it. *)
Theorem recommended_topics_first_three_weaknesses :
  forall (cur : Curriculum.t) (student_id : string) (grade_level : Z)
         (assessment_results : dict string float) (learning_style : string)
         (goals : option (list string)) (clk : tape datetime)
         (style : LearningStyle),
    1 <= grade_level <= 12 ->
    LearningStyle_of learning_style = Ok style ->
    exists (path : LearningPath) (clk' : tape datetime),
      create_path cur student_id grade_level assessment_results
        learning_style goals clk = Ok (path, clk')
      /\ recommended_topics path
         = take 3 (snd (_analyze_assessment assessment_results))
      /\ recommended_topics path
         = take 3 (Spec.weak_topics assessment_results)
      /\ Forall
           (fun t => exists k s,
                In (k, s) assessment_results /\ MathTopic_of k = Ok t
                /\ (s <? 0.6)%float = true)
           (recommended_topics path).
Proof.
  intros cur student_id grade_level assessment_results learning_style goals
    clk style G S.
  destruct (create_path_returns cur student_id grade_level assessment_results
              learning_style goals clk style G S)
    as (grade & path & clk' & _ & C & _ & R & _).
  exists path, clk'. rewrite analyze_assessment_eq, R.
  repeat split; try assumption.
  apply Forall_forall. intros t H. apply in_weak_topics.
  now apply in_take in H.
Qed.

Lemma recommended_topics_first_three_weaknesses_witness :
  1 <= 3 <= 12
  /\ LearningStyle_of "visual" = Ok VISUAL
  /\ exists (path : LearningPath) (clk' : tape datetime),
       create_path Curriculum.sample "student_1" 3 assessment "visual" None
         clock = Ok (path, clk')
       /\ recommended_topics path
          = take 3 (snd (_analyze_assessment assessment))
       /\ recommended_topics path = take 3 (Spec.weak_topics assessment)
       /\ Forall
            (fun t => exists k s,
                 In (k, s) assessment /\ MathTopic_of k = Ok t
                 /\ (s <? 0.6)%float = true)
            (recommended_topics path).
Proof.
  split; [lia|]. split; [reflexivity|].
  apply (recommended_topics_first_three_weaknesses Curriculum.sample
           "student_1" 3 assessment "visual" None clock VISUAL);
    [lia | reflexivity].
Defined.

(** ** The invariant of the lesson index *)

(** A path that [create_path] returns starts at lesson 0. *)
Lemma create_path_starts_at_zero (cur : Curriculum.t) (student_id : string)
    (grade_level : Z) (assessment_results : dict string float)
    (learning_style : string) (goals : option (list string))
    (clk clk' : tape datetime) (path : LearningPath) :
  create_path cur student_id grade_level assessment_results learning_style
    goals clk = Ok (path, clk') ->
  current_lesson path = 0.
Proof.
  unfold create_path.
  destruct (_get_or_create_student student_id grade_level learning_style);
    [|discriminate].
  cbn [bind]. destruct (_analyze_assessment assessment_results).
  destruct (GradeLevel_of (str_int grade_level)); [|discriminate].
  cbn [bind]. unfold utcnow, _estimate_completion_date, next.
  intro H. injection H as <- _. reflexivity.
Qed.

(** An index within the list is served. *)
Lemma index_in_range {A} (l : list A) (i : Z) :
  0 <= i < len l -> exists a, index l i = Ok a.
Proof.
  unfold index, len. intro H.
  destruct (i <? 0) eqn:E; [apply Z.ltb_lt in E; lia|]. rewrite E.
  destruct (nth_error l (Z.to_nat i)) as [a|] eqn:N; [now exists a|].
  apply nth_error_None in N. lia.
Qed.

(** With an index that is not negative, [get_next_lesson] returns. *)
Lemma get_next_lesson_returns (path : LearningPath) :
  0 <= current_lesson path -> exists r, get_next_lesson path = Ok r.
Proof.
  intro H. unfold get_next_lesson.
  destruct (current_lesson path <? len (lessons path)) eqn:E;
    [|now exists None].
  apply Z.ltb_lt in E.
  destruct (index_in_range (lessons path) (current_lesson path)) as [a ->];
    [lia|]. now exists (Some a).
Qed.

(** One operation: it returns when its arguments are in range; the index
    stays non-negative; and the invariant survives unless the operation
    advances a path that is already complete. *)
Lemma apply_step (cur : Curriculum.t) (st : Settings)
    (op : operation) (path : LearningPath) (clk : tape datetime) :
  0 <= current_lesson path ->
  (Spec.in_range op -> exists path' clk', apply cur st op path clk = Ok (path', clk'))
  /\ (forall path' clk',
         apply cur st op path clk = Ok (path', clk') ->
         0 <= current_lesson path'
         /\ (Spec.path_invariant path ->
             (Spec.advances st op path = true ->
              current_lesson path < len (lessons path)) ->
             Spec.path_invariant path')).
Proof.
  intro Nonneg. unfold Spec.path_invariant.
  destruct op as [sid g a ls goals | pd | | lid perf]; cbn [apply Spec.in_range].
  - split.
    + intros [G [style S]].
      destruct (create_path_returns cur sid g a ls goals clk style G S)
        as (_ & p & c & _ & C & _). eauto.
    + intros p c C. apply create_path_starts_at_zero in C. rewrite C.
      unfold len. split; [lia|]. intros _ _. lia.
  - split;
      [intros _; destruct (update_path cur st path pd clk) as [p c]; eauto|].
    intros p c C. injection C as C.
    destruct (update_path_keeps cur st path pd clk) as (K1 & _ & K3).
    rewrite C in K1, K3. cbn [fst] in K1, K3. rewrite K1.
    split; [lia|]. intros I _. lia.
  - destruct (get_next_lesson_returns path Nonneg) as [r ->]. cbn [bind].
    split; [eauto|]. intros p c C. injection C as <- _.
    split; [lia|]. intros I _. lia.
  - split;
      [intros _; destruct (complete_lesson st path lid perf clk) as [p c];
       eauto|].
    intros p c C. injection C as C.
    apply (f_equal fst) in C. cbn [fst] in C. subst p.
    unfold complete_lesson, Spec.advances.
    destruct (mem lid (lessons path)); [|cbn; split; [lia | intros I _; lia]].
    destruct (min_accuracy_for_advancement st <=? perf)%float; cbn.
    + split; [lia|]. intros I G. specialize (G eq_refl). lia.
    + split; [lia|]. intros I _. lia.
Qed.

(** Sequences of operations from a path whose index is not negative. *)
Lemma run_nonneg (cur : Curriculum.t) (st : Settings) (ops : list operation) :
  forall (path : LearningPath) (clk : tape datetime),
    0 <= current_lesson path ->
    Forall (fun p => 0 <= current_lesson p) (run cur st ops path clk)
    /\ (Forall Spec.in_range ops ->
        List.length (run cur st ops path clk) = List.length ops).
Proof.
  induction ops as [|op rest IH]; intros path clk N.
  - split; [constructor | reflexivity].
  - destruct (apply_step cur st op path clk N) as [Ret Keep].
    cbn [run]. destruct (apply cur st op path clk) as [[p c]|e] eqn:A.
    + destruct (Keep p c eq_refl) as [N' _].
      destruct (IH p c N') as [F L]. split.
      * now constructor.
      * intro R. inversion R; subst. cbn [List.length]. now rewrite L.
    + split; [constructor|].
      intro R. inversion R as [|? ? Hop _]; subst.
      destruct (Ret Hop) as (p & c & E). discriminate.
Qed.

Lemma run_guarded (cur : Curriculum.t) (st : Settings) (ops : list operation) :
  forall (path : LearningPath) (clk : tape datetime),
    Spec.path_invariant path ->
    Spec.completes_only_open_paths cur st ops path clk ->
    Forall Spec.path_invariant (run cur st ops path clk).
Proof.
  induction ops as [|op rest IH]; intros path clk I G.
  - constructor.
  - assert (N : 0 <= current_lesson path) by (destruct I; assumption).
    destruct (apply_step cur st op path clk N) as [_ Keep].
    cbn [run Spec.completes_only_open_paths] in *.
    destruct G as [G1 G2].
    destruct (apply cur st op path clk) as [[p c]|e] eqn:A; [|constructor].
    destruct (Keep p c eq_refl) as [_ I']. specialize (I' I G1).
    constructor; [assumption | now apply IH].
Qed.

(** C2, as stated, fails: a student creates a path for grade 3 (it has one
    lesson) and completes that lesson twice with full marks; after the
    second completion [current_lesson] is 2 and [len(lessons)] is 1. *)
Lemma complete_lesson_overruns_path :
  map (fun p => (current_lesson p, len (lessons p)))
    (run Curriculum.sample settings completes_twice path_04 clock)
  = [(0, 1); (1, 1); (2, 1)]
  /\ ~ Forall Spec.path_invariant
         (run Curriculum.sample settings completes_twice path_04 clock).
Proof.
  split; [reflexivity|].
  intro F. apply Forall_forall with (x := nth 2 (run Curriculum.sample settings
                                                   completes_twice path_04 clock)
                                              path_04) in F.
  - unfold Spec.path_invariant in F. vm_compute in F. destruct F as [_ F].
    now apply F.
  - vm_compute. auto.
Qed.

(** C2, amended.  From a path that satisfies [0 <= current_lesson <=
    len(lessons)], any sequence of the four operations with arguments in
    range runs to its end and keeps [0 <= current_lesson] after each
    operation; it keeps [current_lesson <= len(lessons)] after each
    operation as long as [complete_lesson] advances only paths that are
    not yet complete.  [complete_lesson] itself does not look at
    [len(lessons)]: for a lesson of the path and a performance that
    reaches the threshold it adds one to [current_lesson], so the bound
    holds afterwards exactly when the path was not complete before. *)
Theorem path_invariant_while_incomplete :
  forall (cur : Curriculum.t) (st : Settings) (ops : list operation)
         (path : LearningPath) (clk : tape datetime),
    Spec.path_invariant path ->
    (Forall Spec.in_range ops ->
     List.length (run cur st ops path clk) = List.length ops)
    /\ Forall (fun p => 0 <= current_lesson p) (run cur st ops path clk)
    /\ (Spec.completes_only_open_paths cur st ops path clk ->
        Forall Spec.path_invariant (run cur st ops path clk))
    /\ (forall (lesson_id : string) (performance : float),
           In lesson_id (lessons path) ->
           (min_accuracy_for_advancement st <=? performance)%float = true ->
           let path' :=
             fst (complete_lesson st path lesson_id performance clk) in
           current_lesson path' = current_lesson path + 1
           /\ lessons path' = lessons path
           /\ (Spec.path_invariant path'
               <-> current_lesson path < len (lessons path))).
Proof.
  intros cur st ops path clk I.
  assert (N : 0 <= current_lesson path) by (destruct I; assumption).
  destruct (run_nonneg cur st ops path clk N) as [F L].
  split; [exact L|]. split; [exact F|]. split.
  - now apply run_guarded.
  - intros lesson_id performance HIn T path'. subst path'.
    apply mem_In in HIn. unfold complete_lesson, Spec.path_invariant in *.
    rewrite HIn, T. cbn. repeat split; lia.
Qed.

Lemma path_invariant_while_incomplete_witness :
  Spec.path_invariant path_04
  /\ Forall Spec.path_invariant
       (run Curriculum.sample settings
          [do_get_next_lesson;
           do_update_path [("multiplication", 0.8%float)];
           do_complete_lesson "lesson_mult_3_1" 0.9%float]
          path_04 clock).
Proof.
  assert (I : Spec.path_invariant path_04) by (unfold Spec.path_invariant; cbn; lia).
  split; [exact I|].
  apply (path_invariant_while_incomplete Curriculum.sample settings _ path_04
           clock I).
  cbn. repeat split; intros; try discriminate; lia.
Defined.

End LearningPathFacts.

(* ================================================================== *)
(** * Further properties of the Python primitives *)
(* ================================================================== *)

From Stdlib Require DecimalPos DecimalZ Sorted.

Module PyMore.
Import PyFacts ProblemEngineFacts DictFacts.

(** ** [str] of an integer *)

Lemma to_int_not_nil (z : Z) :
  Z.to_int z <> Decimal.Pos Decimal.Nil /\ Z.to_int z <> Decimal.Neg Decimal.Nil.
Proof.
  destruct z as [|p|p]; simpl; split; try discriminate.
  - intro H. injection H as H. now apply (DecimalPos.Unsigned.to_uint_nonnil p).
  - intro H. injection H as H. now apply (DecimalPos.Unsigned.to_uint_nonnil p).
Qed.

(** Different integers have different renderings. *)
Lemma str_int_inj (a b : Z) : str_int a = str_int b -> a = b.
Proof.
  unfold str_int. intro H.
  apply (f_equal NilZero.int_of_string) in H.
  destruct (to_int_not_nil a) as [A1 A2], (to_int_not_nil b) as [B1 B2].
  rewrite !NilZero.isi in H by assumption.
  injection H as H. apply (f_equal Z.of_int) in H.
  now rewrite !DecimalZ.of_to in H.
Qed.

Lemma string_of_uint_nonempty (d : Decimal.uint) :
  NilZero.string_of_uint d <> "".
Proof. destruct d; discriminate. Qed.

(** A rendered non-negative integer is a non-empty run of digits. *)
Lemma str_int_nonneg_is_digits (z : Z) : 0 <= z -> Spec.digits (str_int z).
Proof.
  intro H. split; [|now apply str_int_nonneg_digits].
  unfold str_int. destruct z as [|p|p]; simpl;
    [discriminate | apply string_of_uint_nonempty | lia].
Qed.

(** A rendered integer is a sign followed by digits. *)
Lemma str_int_signed (z : Z) :
  exists sg n, str_int z = sg ++ n /\ Spec.sign sg /\ Spec.digits n.
Proof.
  destruct (Z.leb_spec 0 z) as [H|H].
  - exists "", (str_int z). repeat split; try (now left);
      now apply str_int_nonneg_is_digits.
  - destruct z as [|p|p]; try lia.
    exists "-", (str_int (Z.pos p)). split; [reflexivity|].
    split; [now right|]. apply str_int_nonneg_is_digits. lia.
Qed.

(** ** [strip] *)

Lemma lstrip_kept (c : ascii) (s : string) :
  isspace c = false -> lstrip (String c s) = String c s.
Proof. intro H. simpl. now rewrite H. Qed.

Lemma rstrip_kept (s : string) :
  Forall (fun c => isspace c = false) (chars s) -> rstrip s = s.
Proof.
  induction s as [|c s IH]; [reflexivity|].
  intro H. unfold chars in H. cbn [list_ascii_of_string] in H.
  inversion H as [|? ? Hc Hs]; subst.
  cbn [rstrip]. rewrite (IH Hs). destruct s; [now rewrite Hc | reflexivity].
Qed.

(** A string without white space is its own [strip]. *)
Lemma strip_kept (s : string) :
  Forall (fun c => isspace c = false) (chars s) -> strip s = s.
Proof.
  intro H. unfold strip.
  destruct s as [|c s]; [reflexivity|].
  unfold chars in H. cbn [list_ascii_of_string] in H.
  rewrite lstrip_kept by (now inversion H).
  now apply rstrip_kept.
Qed.

Lemma digit_not_space (c : ascii) : isdigit c = true -> isspace c = false.
Proof.
  unfold isdigit, isspace. intro H.
  apply andb_prop in H as [H1 H2].
  apply Nat.leb_le in H1, H2.
  repeat match goal with
         | |- context [(?a <=? ?b)%nat] =>
             destruct (Nat.leb_spec a b); try lia
         | |- context [(?a =? ?b)%nat] =>
             destruct (Nat.eqb_spec a b); try lia
         end; reflexivity.
Qed.

Lemma digits_no_space (s : string) :
  Forall (fun c => isdigit c = true) (chars s) ->
  Forall (fun c => isspace c = false) (chars s).
Proof.
  intro H. eapply Forall_impl; [|exact H]. apply digit_not_space.
Qed.

Lemma sign_no_space (sg : string) :
  Spec.sign sg -> Forall (fun c => isspace c = false) (chars sg).
Proof. intros [->| ->]; repeat constructor. Qed.

(** A string of the answer format holds no white space. *)
Lemma answer_format_no_space (s : string) :
  Spec.answer_format s -> Forall (fun c => isspace c = false) (chars s).
Proof.
  intro H. destruct H as [sg n Hs [_ Hn] | sg n d Hs [_ Hn] [_ Hd]].
  - rewrite chars_append. apply Forall_app. split;
      auto using sign_no_space, digits_no_space.
  - rewrite !chars_append. apply Forall_app. split; [now apply sign_no_space|].
    apply Forall_app. split; [now apply digits_no_space|].
    apply Forall_app. split; [|now apply digits_no_space].
    constructor; [reflexivity | constructor].
Qed.

(** Every character of a string of the answer format is a digit, a minus
    sign or a slash. *)
Lemma answer_format_alphabet (s : string) :
  Spec.answer_format s ->
  Forall (fun c => isdigit c = true \/ c = "-"%char \/ c = "/"%char) (chars s).
Proof.
  assert (D : forall n, Forall (fun c => isdigit c = true) (chars n) ->
              Forall (fun c => isdigit c = true \/ c = "-"%char \/ c = "/"%char)
                (chars n)).
  { intros n Hn. eapply Forall_impl; [|exact Hn]. simpl. auto. }
  assert (S : forall sg, Spec.sign sg ->
              Forall (fun c => isdigit c = true \/ c = "-"%char \/ c = "/"%char)
                (chars sg)).
  { intros sg [->| ->];
      [constructor | constructor; [right; left; reflexivity | constructor]]. }
  intro H. destruct H as [sg n Hs [_ Hn] | sg n d Hs [_ Hn] [_ Hd]].
  - rewrite chars_append. apply Forall_app. split; [now apply S | now apply D].
  - rewrite !chars_append. apply Forall_app. split; [now apply S|].
    apply Forall_app. split; [now apply D|].
    apply Forall_app. split; [|now apply D].
    constructor; [now right; right | constructor].
Qed.

End PyMore.

(* ================================================================== *)
(** * Further properties of the problem engine *)
(* ================================================================== *)

Module ProblemEngineMore.
Import Re PyFacts ReFacts ProblemEngine Examples ProblemEngineFacts DictFacts
  PyMore Tables.

(** Draw the next value of [randint lo hi] from the tape [t]. *)
Ltac draw lo hi t a t' R :=
  pose proof (randint_range lo hi t ltac:(lia)) as R;
  destruct (randint lo hi t) as [a t'];
  cbn [fst] in R.

(** ** [check_solution] and white space *)

Lemma lstrip_spaces (ws : string) :
  Forall (fun c => isspace c = true) (chars ws) -> lstrip ws = "".
Proof.
  induction ws as [|c ws IH]; [reflexivity|].
  intro H. unfold chars in H. cbn [list_ascii_of_string] in H.
  inversion H as [|? ? Hc Hs]; subst. cbn [lstrip]. rewrite Hc. now apply IH.
Qed.

Lemma rstrip_spaces (ws : string) :
  Forall (fun c => isspace c = true) (chars ws) -> rstrip ws = "".
Proof.
  induction ws as [|c ws IH]; [reflexivity|].
  intro H. unfold chars in H. cbn [list_ascii_of_string] in H.
  inversion H as [|? ? Hc Hs]; subst. cbn [rstrip].
  rewrite (IH Hs). now rewrite Hc.
Qed.

Lemma lstrip_pad (ws s : string) :
  Forall (fun c => isspace c = true) (chars ws) -> lstrip (ws ++ s) = lstrip s.
Proof.
  induction ws as [|c ws IH]; [reflexivity|].
  intro H. unfold chars in H. cbn [list_ascii_of_string] in H.
  inversion H as [|? ? Hc Hs]; subst.
  cbn [append lstrip]. rewrite Hc. now apply IH.
Qed.

Lemma rstrip_pad (s ws : string) :
  Forall (fun c => isspace c = true) (chars ws) -> rstrip (s ++ ws) = rstrip s.
Proof.
  intro H. induction s as [|c s IH].
  - now apply rstrip_spaces.
  - cbn [append rstrip]. now rewrite IH.
Qed.

(** White space around a string does not change its [strip]. *)
Lemma strip_pad (ws1 s ws2 : string) :
  Forall (fun c => isspace c = true) (chars ws1) ->
  Forall (fun c => isspace c = true) (chars ws2) ->
  strip (ws1 ++ s ++ ws2) = strip s.
Proof.
  intros H1 H2. unfold strip. rewrite (lstrip_pad ws1 _ H1).
  induction s as [|c s IH].
  - cbn [append]. now rewrite (lstrip_spaces ws2 H2).
  - cbn [append lstrip]. destruct (isspace c); [exact IH|].
    change (String c (s ++ ws2)) with (String c s ++ ws2).
    now apply rstrip_pad.
Qed.

(** X1.  White space before and after an answer plays no part in the
    verdict: [check_solution] returns the same dictionary for an answer
    and for that answer padded with any white space on both sides. *)
Theorem check_solution_ignores_padding :
  forall (problem_id ws1 student_answer ws2 : string) (show_steps : bool),
    Forall (fun c => isspace c = true) (chars ws1) ->
    Forall (fun c => isspace c = true) (chars ws2) ->
    check_solution problem_id (ws1 ++ student_answer ++ ws2) show_steps
    = check_solution problem_id student_answer show_steps.
Proof.
  intros problem_id ws1 student_answer ws2 show_steps H1 H2.
  unfold check_solution. now rewrite (strip_pad ws1 student_answer ws2 H1 H2).
Qed.

Lemma check_solution_ignores_padding_witness :
  Forall (fun c => isspace c = true) (chars "  ")
  /\ Forall (fun c => isspace c = true) (chars (String (ascii_of_nat 10) ""))
  /\ check_solution "p" ("  " ++ "3/4" ++ String (ascii_of_nat 10) "") true
     = check_solution "p" "3/4" true.
Proof.
  assert (H1 : Forall (fun c => isspace c = true) (chars "  "))
    by (repeat constructor).
  assert (H2 : Forall (fun c => isspace c = true)
                 (chars (String (ascii_of_nat 10) "")))
    by (repeat constructor).
  split; [exact H1|]. split; [exact H2|].
  exact (check_solution_ignores_padding "p" "  " "3/4" _ true H1 H2).
Defined.

(** ** Answers the checker accepts and rejects *)

Lemma accepted (problem_id s : string) (show_steps : bool) :
  Spec.answer_format s ->
  correct (check_solution problem_id s show_steps) = true.
Proof.
  intro H. unfold check_solution. cbn [correct].
  apply is_correct_iff. now rewrite (strip_kept s (answer_format_no_space s H)).
Qed.

Lemma accepted_int (problem_id : string) (z : Z) (show_steps : bool) :
  correct (check_solution problem_id (str_int z) show_steps) = true.
Proof.
  apply accepted. destruct (str_int_signed z) as (sg & n & -> & Hs & Hn).
  now apply Spec.format_integer.
Qed.

Lemma accepted_fraction (problem_id : string) (p q : Z) (show_steps : bool) :
  0 <= q ->
  correct (check_solution problem_id (str_int p ++ "/" ++ str_int q) show_steps)
  = true.
Proof.
  intro Hq. apply accepted.
  destruct (str_int_signed p) as (sg & n & -> & Hs & Hn).
  rewrite append_assoc.
  apply Spec.format_fraction; auto using str_int_nonneg_is_digits.
Qed.

(** An answer with a decimal point is not of the answer format. *)
Lemma rejected_decimal (problem_id : string) (z : Z) (show_steps : bool) :
  correct (check_solution problem_id (str_int z ++ ".0") show_steps) = false.
Proof.
  destruct (correct (check_solution problem_id (str_int z ++ ".0") show_steps))
    eqn:E; [|reflexivity].
  unfold check_solution in E. cbn [correct] in E. apply is_correct_iff in E.
  assert (K : strip (str_int z ++ ".0") = str_int z ++ ".0").
  { apply strip_kept. rewrite chars_append. apply Forall_app. split.
    - pose proof (str_int_chars z) as C.
      eapply Forall_impl; [|exact C].
      intros c [D| ->]; [now apply digit_not_space | reflexivity].
    - repeat constructor. }
  rewrite K in E. apply answer_format_alphabet in E.
  rewrite chars_append in E. apply Forall_app in E as [_ E].
  inversion E as [|? ? Hdot _]; subst.
  destruct Hdot as [D|[D|D]]; discriminate.
Qed.

(** ** The generators, tier by tier *)

(** X2.  An addition problem asks for the sum of two operands drawn from
    the bounds of its tier, and its answer is the rendering of that sum:
    between 2 and 20 for a beginner, at least 200 for an expert. *)
Theorem addition_problem_in_range :
  forall (difficulty : DifficultyLevel) (t : tape Z),
    let problem := fst (_generate_addition difficulty t) in
    let (low, high) := addition_range difficulty in
    exists a b : Z,
      low <= a <= high /\ low <= b <= high
      /\ data_question problem
         = "What is " ++ str_int a ++ " + " ++ str_int b ++ "?"
      /\ data_answer problem = str_int (a + b)
      /\ 2 * low <= a + b <= 2 * high.
Proof.
  intros difficulty t.
  destruct difficulty; cbn [addition_range];
    unfold _generate_addition, both, bindR, ret;
    match goal with
    | |- context [randint ?lo ?hi t] =>
        let a := fresh "a" in let b := fresh "b" in
        let t1 := fresh "t" in let t2 := fresh "t" in
        let Ra := fresh "R" in let Rb := fresh "R" in
        draw lo hi t a t1 Ra; draw lo hi t1 b t2 Rb;
        exists a, b; cbn [fst data_question data_answer];
        repeat split; lia
    end.
Qed.

(** X3.  A multiplication problem asks for the product of two factors
    drawn from the bounds of its tier (the advanced and the expert tier
    share the bounds 5..20), and its answer is the rendering of that
    product. *)
Theorem multiplication_problem_in_range :
  forall (difficulty : DifficultyLevel) (t : tape Z),
    let problem := fst (_generate_multiplication difficulty t) in
    let (low, high) := multiplication_range difficulty in
    exists a b : Z,
      low <= a <= high /\ low <= b <= high
      /\ data_question problem
         = "What is " ++ str_int a ++ " " ++ times_sign ++ " " ++ str_int b
             ++ "?"
      /\ data_answer problem = str_int (a * b)
      /\ low * low <= a * b <= high * high.
Proof.
  intros difficulty t.
  destruct difficulty; cbn [multiplication_range];
    unfold _generate_multiplication, both, bindR, ret;
    match goal with
    | |- context [randint ?lo ?hi t] =>
        let a := fresh "a" in let b := fresh "b" in
        let t1 := fresh "t" in let t2 := fresh "t" in
        let Ra := fresh "R" in let Rb := fresh "R" in
        draw lo hi t a t1 Ra; draw lo hi t1 b t2 Rb;
        exists a, b; cbn [fst data_question data_answer];
        repeat split; nia
    end.
Qed.

(** X4.  A beginner fraction problem asks to simplify [n/d] with [n] of
    1..5 and [d] of 2..10; its answer [p/q] has the same value
    ([p d = n q]), a positive denominator, and is in lowest terms. *)
Theorem fraction_simplification_is_reduced :
  forall t : tape Z,
    let problem := fst (_generate_fractions BEGINNER t) in
    exists n d p q : Z,
      1 <= n <= 5 /\ 2 <= d <= 10
      /\ data_question problem
         = "Simplify the fraction " ++ str_int n ++ "/" ++ str_int d
      /\ data_answer problem = str_int p ++ "/" ++ str_int q
      /\ p * d = n * q
      /\ 0 < p /\ 0 < q
      /\ Z.gcd p q = 1.
Proof.
  intro t. unfold _generate_fractions, bindR, ret.
  draw 1 5 t n t1 Rn. draw 2 10 t1 d t2 Rd.
  exists n, d, (n / Z.gcd n d), (d / Z.gcd n d).
  cbn [fst data_question data_answer].
  assert (G : 0 < Z.gcd n d).
  { pose proof (Z.gcd_nonneg n d).
    assert (Z.gcd n d <> 0) by (intro E; apply Z.gcd_eq_0_l in E; lia). lia. }
  destruct (Z.gcd_divide_l n d) as [x Hx], (Z.gcd_divide_r n d) as [y Hy].
  assert (Px : n / Z.gcd n d = x)
    by (rewrite Hx at 1; apply Z.div_mul; lia).
  assert (Py : d / Z.gcd n d = y)
    by (rewrite Hy at 1; apply Z.div_mul; lia).
  split; [lia|]. split; [lia|]. split; [reflexivity|]. split; [reflexivity|].
  split; [apply Z.gcd_div_swap|].
  split; [rewrite Px; nia|]. split; [rewrite Py; nia|].
  apply Z.gcd_div_gcd; [lia | reflexivity].
Qed.

(** The arithmetic of the sum of two fractions over the least common
    denominator, reduced by the greatest common divisor. *)
Lemma fraction_sum_arith (n1 d1 n2 d2 : Z) :
  0 < n1 -> 0 < d1 -> 0 < n2 -> 0 < d2 ->
  let lcm := d1 * d2 / Z.gcd d1 d2 in
  let sum_num := n1 * lcm / d1 + n2 * lcm / d2 in
  let g := Z.gcd sum_num lcm in
  sum_num / g * (d1 * d2) = (n1 * d2 + n2 * d1) * (lcm / g)
  /\ 0 < sum_num / g /\ 0 < lcm / g
  /\ Z.gcd (sum_num / g) (lcm / g) = 1.
Proof.
  intros N1 D1 N2 D2.
  assert (G0 : 0 < Z.gcd d1 d2).
  { pose proof (Z.gcd_nonneg d1 d2).
    assert (Z.gcd d1 d2 <> 0) by (intro E; apply Z.gcd_eq_0_l in E; lia). lia. }
  destruct (Z.gcd_divide_l d1 d2) as [x Hx], (Z.gcd_divide_r d1 d2) as [y Hy].
  revert Hx Hy G0. generalize (Z.gcd d1 d2). intros G Hx Hy G0. subst d1 d2.
  assert (X : 0 < x) by nia. assert (Y : 0 < y) by nia.
  assert (L : x * G * (y * G) / G = x * y * G).
  { replace (x * G * (y * G)) with (x * y * G * G) by ring.
    apply Z.div_mul. lia. }
  cbv zeta. rewrite !L.
  assert (S1 : n1 * (x * y * G) / (x * G) = n1 * y).
  { replace (n1 * (x * y * G)) with (n1 * y * (x * G)) by ring.
    apply Z.div_mul. nia. }
  assert (S2 : n2 * (x * y * G) / (y * G) = n2 * x).
  { replace (n2 * (x * y * G)) with (n2 * x * (y * G)) by ring.
    apply Z.div_mul. nia. }
  rewrite !S1, !S2.
  assert (Lpos : 0 < x * y * G) by nia.
  assert (Spos : 0 < n1 * y + n2 * x) by nia.
  assert (Gpos : 0 < Z.gcd (n1 * y + n2 * x) (x * y * G)).
  { pose proof (Z.gcd_nonneg (n1 * y + n2 * x) (x * y * G)).
    assert (Z.gcd (n1 * y + n2 * x) (x * y * G) <> 0)
      by (intro E; apply Z.gcd_eq_0_l in E; lia).
    lia. }
  split; [|split; [|split]].
  - destruct (Z.gcd_divide_l (n1 * y + n2 * x) (x * y * G)) as [p Hp],
             (Z.gcd_divide_r (n1 * y + n2 * x) (x * y * G)) as [q Hq].
    revert Hp Hq Gpos. generalize (Z.gcd (n1 * y + n2 * x) (x * y * G)).
    intros g Hp Hq Gpos. rewrite Hp at 1. rewrite Hq at 1.
    rewrite !Z.div_mul by lia.
    apply (Z.mul_reg_r _ _ g); [lia|].
    replace (p * (x * G * (y * G)) * g) with (p * g * (G * (x * y * G))) by ring.
    replace ((n1 * (y * G) + n2 * (x * G)) * q * g)
      with (G * (n1 * y + n2 * x) * (q * g)) by ring.
    rewrite <- Hp, <- Hq. ring.
  - destruct (Z.gcd_divide_l (n1 * y + n2 * x) (x * y * G)) as [p Hp].
    revert Hp Gpos. generalize (Z.gcd (n1 * y + n2 * x) (x * y * G)).
    intros g Hp Gpos. rewrite Hp, Z.div_mul by lia. nia.
  - destruct (Z.gcd_divide_r (n1 * y + n2 * x) (x * y * G)) as [q Hq].
    revert Hq Gpos. generalize (Z.gcd (n1 * y + n2 * x) (x * y * G)).
    intros g Hq Gpos. rewrite Hq at 1. rewrite Z.div_mul by lia. nia.
  - apply Z.gcd_div_gcd; [lia | reflexivity].
Qed.

(** X5.  Above the beginner tier a fraction problem asks for
    [n1/d1 + n2/d2] with numerators of 1..5 and denominators of 2..8; its
    answer [p/q] is that sum ([p d1 d2 = (n1 d2 + n2 d1) q]), with a
    positive denominator, in lowest terms. *)
Theorem fraction_sum_is_exact_and_reduced :
  forall (difficulty : DifficultyLevel) (t : tape Z),
    difficulty <> BEGINNER ->
    let problem := fst (_generate_fractions difficulty t) in
    exists n1 d1 n2 d2 p q : Z,
      1 <= n1 <= 5 /\ 2 <= d1 <= 8 /\ 1 <= n2 <= 5 /\ 2 <= d2 <= 8
      /\ data_question problem
         = "What is " ++ str_int n1 ++ "/" ++ str_int d1 ++ " + "
             ++ str_int n2 ++ "/" ++ str_int d2 ++ "?"
      /\ data_answer problem = str_int p ++ "/" ++ str_int q
      /\ p * (d1 * d2) = (n1 * d2 + n2 * d1) * q
      /\ 0 < p /\ 0 < q
      /\ Z.gcd p q = 1.
Proof.
  intros difficulty t Hd.
  assert (E : _generate_fractions difficulty t = _generate_fractions ADVANCED t)
    by (destruct difficulty; [contradiction | reflexivity ..]).
  rewrite E. clear E Hd difficulty.
  unfold _generate_fractions, both, bindR, ret.
  draw 1 5 t n1 t1 Rn1. draw 2 8 t1 d1 t2 Rd1.
  draw 1 5 t2 n2 t3 Rn2. draw 2 8 t3 d2 t4 Rd2.
  cbn [fst data_question data_answer].
  destruct (fraction_sum_arith n1 d1 n2 d2) as (V & P & Q & C); try lia.
  cbv zeta in V, P, Q, C.
  eexists n1, d1, n2, d2, _, _.
  split; [lia|]. split; [lia|]. split; [lia|]. split; [lia|].
  split; [reflexivity|]. split; [reflexivity|].
  split; [exact V|]. split; [exact P|]. split; [exact Q | exact C].
Qed.

Lemma fraction_sum_is_exact_and_reduced_witness :
  EXPERT <> BEGINNER
  /\ exists n1 d1 n2 d2 p q : Z,
       1 <= n1 <= 5 /\ 2 <= d1 <= 8 /\ 1 <= n2 <= 5 /\ 2 <= d2 <= 8
       /\ data_question (fst (_generate_fractions EXPERT tape_4_10))
          = "What is " ++ str_int n1 ++ "/" ++ str_int d1 ++ " + "
              ++ str_int n2 ++ "/" ++ str_int d2 ++ "?"
       /\ data_answer (fst (_generate_fractions EXPERT tape_4_10))
          = str_int p ++ "/" ++ str_int q
       /\ p * (d1 * d2) = (n1 * d2 + n2 * d1) * q
       /\ 0 < p /\ 0 < q
       /\ Z.gcd p q = 1.
Proof.
  split; [discriminate|].
  apply (fraction_sum_is_exact_and_reduced EXPERT tape_4_10). discriminate.
Defined.

(** X6.  A beginner algebra problem is the equation [x + a = b] with [a]
    of 1..10 and [b] of 1..20, and its answer is the rendering of the
    integer that solves it (which is negative when [a > b]). *)
Theorem algebra_beginner_solves_equation :
  forall t : tape Z,
    let problem := fst (_generate_algebra BEGINNER t) in
    exists a b x : Z,
      1 <= a <= 10 /\ 1 <= b <= 20
      /\ data_question problem
         = "Solve for x: x + " ++ str_int a ++ " = " ++ str_int b
      /\ data_answer problem = str_int x
      /\ x + a = b
      /\ -9 <= x <= 19.
Proof.
  intro t. unfold _generate_algebra, bindR, ret.
  draw 1 10 t a t1 Ra. draw 1 20 t1 b t2 Rb.
  exists a, b, (b - a). cbn [fst data_question data_answer].
  repeat split; lia.
Qed.

(** ** The generators against the checker *)

(** X7.  The answer of every addition, subtraction, multiplication,
    division and fraction problem, and of every beginner algebra problem,
    is accepted by [check_solution]: sent back as it is, it is reported
    correct. *)
Theorem generated_answers_are_accepted :
  forall (problem_id : string) (show_steps : bool)
         (difficulty : DifficultyLevel) (t : tape Z),
    let verdict (generator : DifficultyLevel -> Rand ProblemData)
                (tier : DifficultyLevel) :=
      correct (check_solution problem_id
                 (data_answer (fst (generator tier t))) show_steps) in
    verdict _generate_addition difficulty = true
    /\ verdict _generate_subtraction difficulty = true
    /\ verdict _generate_multiplication difficulty = true
    /\ verdict _generate_division difficulty = true
    /\ verdict _generate_fractions difficulty = true
    /\ verdict _generate_algebra BEGINNER = true
    /\ verdict _generate_default difficulty = true.
Proof.
  intros problem_id show_steps difficulty t verdict. subst verdict.
  cbv beta.
  assert (A : correct (check_solution problem_id
                (data_answer (fst (_generate_addition difficulty t)))
                show_steps) = true).
  { unfold _generate_addition, both, bindR, ret.
    destruct difficulty;
      match goal with
      | |- context [randint ?lo ?hi t] =>
          destruct (randint lo hi t) as [a t1];
          destruct (randint lo hi t1) as [b t2]
      end; apply accepted_int. }
  split; [exact A|]. split; [|split; [|split; [|split; [|split]]]].
  - destruct (subtraction_operands_ordered difficulty t) as (a & b & t' & E).
    unfold _generate_subtraction, bindR. rewrite E. apply accepted_int.
  - unfold _generate_multiplication, both, bindR, ret.
    destruct difficulty;
      match goal with
      | |- context [randint ?lo ?hi t] =>
          destruct (randint lo hi t) as [a t1];
          destruct (randint lo hi t1) as [b t2]
      end; apply accepted_int.
  - destruct (division_operands_multiple difficulty t)
      as (b & q & t' & _ & _ & E).
    unfold _generate_division, bindR. rewrite E. apply accepted_int.
  - assert (B : forall t0, correct (check_solution problem_id
                  (data_answer (fst (_generate_fractions BEGINNER t0)))
                  show_steps) = true).
    { intro t0. unfold _generate_fractions, bindR, ret.
      draw 1 5 t0 n t1 Rn. draw 2 10 t1 d t2 Rd.
      apply accepted_fraction. apply Z.div_pos; [lia|].
      pose proof (Z.gcd_nonneg n d).
      assert (Z.gcd n d <> 0) by (intro E; apply Z.gcd_eq_0_l in E; lia). lia. }
    assert (S : forall t0, correct (check_solution problem_id
                  (data_answer (fst (_generate_fractions ADVANCED t0)))
                  show_steps) = true).
    { intro t0. unfold _generate_fractions, both, bindR, ret.
      draw 1 5 t0 n1 t1 Rn1. draw 2 8 t1 d1 t2 Rd1.
      draw 1 5 t2 n2 t3 Rn2. draw 2 8 t3 d2 t4 Rd2.
      apply accepted_fraction.
      destruct (fraction_sum_arith n1 d1 n2 d2) as (_ & _ & Q & _); lia. }
    destruct difficulty; [apply B | apply S ..].
  - unfold _generate_algebra, bindR, ret.
    destruct (randint 1 10 t) as [a t1]. destruct (randint 1 20 t1) as [b t2].
    apply accepted_int.
  - exact A.
Qed.

(** The algebra problem above the beginner tier, for the draws [a], [b]. *)
Lemma generate_algebra_advanced (difficulty : DifficultyLevel) (t : tape Z) :
  difficulty <> BEGINNER ->
  exists (a b : Z) (t' : tape Z),
    a = fst (randint 2 10 t)
    /\ 2 <= a <= 10 /\ 10 <= b <= 50
    /\ data_question (fst (_generate_algebra difficulty t))
       = "Solve for x: " ++ str_int a ++ "x = " ++ str_int b
    /\ data_answer (fst (_generate_algebra difficulty t)) = algebra_answer a b.
Proof.
  intro Hd.
  assert (E : _generate_algebra difficulty t = _generate_algebra ADVANCED t)
    by (destruct difficulty; [contradiction | reflexivity ..]).
  rewrite E. unfold _generate_algebra, bindR, ret.
  pose proof (randint_range 2 10 t ltac:(lia)) as Ra.
  destruct (randint 2 10 t) as [a t1]. cbn [fst] in Ra |- *.
  draw 10 50 t1 b t2 Rb.
  exists a, b, t2. cbn [fst data_question data_answer]. repeat split; lia.
Qed.

(** X8.  Above the beginner tier the algebra answer is accepted by
    [check_solution] exactly when [a] does not divide [b]: when it does,
    the answer is rendered with a decimal point ([str] of a true
    division) and the checker reports the engine's own answer as not
    correct. *)
Theorem algebra_answer_against_checker :
  forall (problem_id : string) (show_steps : bool)
         (difficulty : DifficultyLevel) (t : tape Z),
    difficulty <> BEGINNER ->
    let problem := fst (_generate_algebra difficulty t) in
    exists a b : Z,
      2 <= a <= 10 /\ 10 <= b <= 50
      /\ data_question problem
         = "Solve for x: " ++ str_int a ++ "x = " ++ str_int b
      /\ (b mod a = 0 ->
          data_answer problem = str_int (b / a) ++ ".0"
          /\ correct (check_solution problem_id (data_answer problem)
                        show_steps) = false)
      /\ (b mod a <> 0 ->
          correct (check_solution problem_id (data_answer problem) show_steps)
          = true).
Proof.
  intros problem_id show_steps difficulty t Hd problem. subst problem.
  destruct (generate_algebra_advanced difficulty t Hd)
    as (a & b & t' & _ & Ra & Rb & Q & A).
  exists a, b. rewrite A. unfold algebra_answer, str_exact_quotient.
  split; [exact Ra|]. split; [exact Rb|]. split; [exact Q|]. split.
  - intro M. apply Z.eqb_eq in M. rewrite M.
    split; [reflexivity | apply rejected_decimal].
  - intro M. apply Z.eqb_neq in M. rewrite M.
    apply accepted_fraction. lia.
Qed.

Lemma algebra_answer_against_checker_witness :
  EXPERT <> BEGINNER
  /\ exists a b : Z,
       2 <= a <= 10 /\ 10 <= b <= 50
       /\ data_question (fst (_generate_algebra EXPERT tape_5_20))
          = "Solve for x: " ++ str_int a ++ "x = " ++ str_int b
       /\ (b mod a = 0 ->
           data_answer (fst (_generate_algebra EXPERT tape_5_20))
           = str_int (b / a) ++ ".0"
           /\ correct (check_solution "p"
                         (data_answer (fst (_generate_algebra EXPERT tape_5_20)))
                         true) = false)
       /\ (b mod a <> 0 ->
           correct (check_solution "p"
                      (data_answer (fst (_generate_algebra EXPERT tape_5_20)))
                      true) = true).
Proof.
  split; [discriminate|].
  apply (algebra_answer_against_checker "p" true EXPERT tape_5_20).
  discriminate.
Defined.

(** ** The enumerations *)

(** A failed lookup raises [ValueError]. *)
Lemma enum_raises_value_error {E} (members : list E) (value : E -> string)
    (s : string) (e : exn) :
  enum_of_value members value s = Raise e -> e = ValueError.
Proof.
  unfold enum_of_value. destruct (find _ members); [discriminate|].
  intro H. now injection H.
Qed.

(** X9.  Looking a member up by its value gives the member back, and a
    string that resolves to a member is that member's value: the values of
    each enumeration are pairwise distinct, and [E(m.value) is m]. *)
Theorem enum_value_round_trip :
  (forall t : MathTopic, MathTopic_of (topic_value t) = Ok t)
  /\ (forall g : GradeLevel, GradeLevel_of (grade_value g) = Ok g)
  /\ (forall d : DifficultyLevel, DifficultyLevel_of (difficulty_value d) = Ok d)
  /\ (forall s : LearningStyle, LearningStyle_of (style_value s) = Ok s)
  /\ (forall (s : string) (t : MathTopic),
         MathTopic_of s = Ok t -> s = topic_value t)
  /\ (forall (s : string) (g : GradeLevel),
         GradeLevel_of s = Ok g -> s = grade_value g)
  /\ (forall (s : string) (e : exn),
         MathTopic_of s = Raise e \/ GradeLevel_of s = Raise e
         \/ DifficultyLevel_of s = Raise e \/ LearningStyle_of s = Raise e ->
         e = ValueError).
Proof.
  split; [intro t; destruct t; reflexivity|].
  split; [intro g; destruct g; reflexivity|].
  split; [intro d; destruct d; reflexivity|].
  split; [intro s; destruct s; reflexivity|].
  split; [intros s t H; now apply enum_of_value_inv in H|].
  split; [intros s g H; now apply enum_of_value_inv in H|].
  intros s e [H|[H|[H|H]]]; now apply enum_raises_value_error in H.
Qed.

(** ** [generate_problem] *)

(** The integers whose rendering names a grade are [1 .. 12]. *)
Lemma GradeLevel_of_int (grade_level : Z) (grade : GradeLevel) :
  GradeLevel_of (str_int grade_level) = Ok grade -> 1 <= grade_level <= 12.
Proof.
  intro H. apply enum_of_value_inv in H as [H _].
  destruct grade;
    try (change (grade_value _) with (str_int 1) in H
         || change (grade_value _) with (str_int 2) in H
         || change (grade_value _) with (str_int 3) in H
         || change (grade_value _) with (str_int 4) in H
         || change (grade_value _) with (str_int 5) in H
         || change (grade_value _) with (str_int 6) in H
         || change (grade_value _) with (str_int 7) in H
         || change (grade_value _) with (str_int 8) in H
         || change (grade_value _) with (str_int 9) in H
         || change (grade_value _) with (str_int 10) in H
         || change (grade_value _) with (str_int 11) in H
         || change (grade_value _) with (str_int 12) in H);
    try (apply str_int_inj in H; lia).
  (* "K" is no rendering of an integer *)
  exfalso. pose proof (str_int_chars grade_level) as C. rewrite H in C.
  inversion C as [|? ? [D|D] _]; discriminate.
Qed.

Lemma GradeLevel_of_invalid (grade_level : Z) :
  ~ 1 <= grade_level <= 12 ->
  GradeLevel_of (str_int grade_level) = Raise ValueError.
Proof.
  intro N. destruct (GradeLevel_of (str_int grade_level)) as [g|e] eqn:E.
  - apply GradeLevel_of_int in E. contradiction.
  - f_equal. now apply enum_raises_value_error in E.
Qed.

(** Indexing outside [-len .. len-1] raises. *)
Lemma index_out_of_range {A} (l : list A) (i : Z) :
  i < - len l \/ len l <= i -> index l i = Raise IndexError.
Proof.
  unfold index, len. intro H.
  destruct (i <? 0) eqn:E.
  - apply Z.ltb_lt in E.
    destruct (Z.of_nat (List.length l) + i <? 0) eqn:E2; [reflexivity|].
    apply Z.ltb_ge in E2. lia.
  - rewrite E. apply Z.ltb_ge in E.
    destruct (nth_error l (Z.to_nat i)) eqn:N; [|reflexivity].
    assert (nth_error l (Z.to_nat i) <> None) by congruence.
    apply nth_error_Some in H0. lia.
Qed.

(** The tier a difficulty level of [-3 .. 4] selects: levels below 1 wrap
    around the end of the list. *)
Lemma tier_of_level (level : Z) :
  -3 <= level <= 4 ->
  exists name difficulty,
    index ["beginner"; "intermediate"; "advanced"; "expert"] (level - 1)
    = Ok name
    /\ DifficultyLevel_of name = Ok difficulty
    /\ nth_error tiers (Z.to_nat ((level - 1) mod 4)) = Some difficulty.
Proof.
  intro H.
  assert (C : level = -3 \/ level = -2 \/ level = -1 \/ level = 0
              \/ level = 1 \/ level = 2 \/ level = 3 \/ level = 4) by lia.
  repeat (destruct C as [->|C];
          [eexists; eexists; repeat split; reflexivity|]).
  subst. eexists; eexists; repeat split; reflexivity.
Qed.

(** Every generator returns four solution steps and three hints. *)
Lemma generator_shape (topic : MathTopic) (difficulty : DifficultyLevel)
    (t : tape Z) :
  let data :=
    fst (get_default MathTopic_beq topic _generate_default generators
           difficulty t) in
  List.length (data_solution_steps data) = 4%nat
  /\ List.length (data_hints data) = 3%nat.
Proof. destruct topic, difficulty; split; reflexivity. Qed.

(** X10.  For a topic string that names a topic, a difficulty level of
    [-3 .. 4] and a grade of [1 .. 12], [generate_problem] returns a
    problem of that topic and grade, at the tier the level selects (levels
    0, -1, -2, -3 wrap to expert, advanced, intermediate, beginner), with
    four solution steps, three hints, and the id [prob_<topic>_<n>] for an
    [n] of 1000..9999. *)
Theorem generate_problem_returns :
  forall (topic : string) (difficulty_level student_level : Z)
         (topic_enum : MathTopic) (t : tape Z),
    MathTopic_of topic = Ok topic_enum ->
    -3 <= difficulty_level <= 4 ->
    1 <= student_level <= 12 ->
    exists (p : Problem) (t' : tape Z) (n : Z),
      generate_problem topic difficulty_level student_level t = Ok (p, t')
      /\ problem_topic p = topic_enum
      /\ GradeLevel_of (str_int student_level) = Ok (problem_grade_level p)
      /\ nth_error tiers (Z.to_nat ((difficulty_level - 1) mod 4))
         = Some (problem_difficulty p)
      /\ List.length (solution_steps p) = 4%nat
      /\ List.length (hints p) = 3%nat
      /\ 1000 <= n <= 9999
      /\ problem_id p = "prob_" ++ topic ++ "_" ++ str_int n.
Proof.
  intros topic difficulty_level student_level topic_enum t Ht Hl Hg.
  destruct (tier_of_level difficulty_level Hl) as (name & difficulty & I & D & T).
  destruct (GradeLevel_of_valid student_level Hg) as [grade G].
  unfold generate_problem. rewrite Ht. cbn [bind]. rewrite I. cbn [bind].
  rewrite D. cbn [bind]. rewrite G. cbn [bind].
  pose proof (generator_shape topic_enum difficulty t) as [S H].
  destruct (get_default MathTopic_beq topic_enum _generate_default generators
              difficulty t) as [problem_data t1].
  cbn [fst] in S, H.
  draw 1000 9999 t1 n t2 Rn.
  eexists. exists t2, n. split; [reflexivity|].
  cbn [problem_topic problem_grade_level problem_difficulty solution_steps
       hints problem_id].
  repeat split; assumption || lia.
Qed.

Lemma generate_problem_returns_witness :
  MathTopic_of "geometry" = Ok GEOMETRY
  /\ -3 <= -1 <= 4 /\ 1 <= 7 <= 12
  /\ exists (p : Problem) (t' : tape Z) (n : Z),
       generate_problem "geometry" (-1) 7 tape_4_10 = Ok (p, t')
       /\ problem_topic p = GEOMETRY
       /\ GradeLevel_of (str_int 7) = Ok (problem_grade_level p)
       /\ nth_error tiers (Z.to_nat ((-1 - 1) mod 4))
          = Some (problem_difficulty p)
       /\ List.length (solution_steps p) = 4%nat
       /\ List.length (hints p) = 3%nat
       /\ 1000 <= n <= 9999
       /\ problem_id p = "prob_" ++ "geometry" ++ "_" ++ str_int n.
Proof.
  split; [reflexivity|]. split; [lia|]. split; [lia|].
  apply (generate_problem_returns "geometry" (-1) 7 GEOMETRY tape_4_10);
    [reflexivity | lia | lia].
Defined.

(** X11.  [generate_problem] raises in the order of its three lookups: a
    string that names no topic raises [ValueError] whatever the other
    arguments; for a known topic, a difficulty level outside [-3 .. 4]
    raises [IndexError] whatever the grade; for a known topic and a level
    of [-3 .. 4], a grade outside [1 .. 12] raises [ValueError]. *)
Theorem generate_problem_raises :
  forall (topic : string) (difficulty_level student_level : Z) (t : tape Z),
    ((forall topic_enum, MathTopic_of topic <> Ok topic_enum) ->
     generate_problem topic difficulty_level student_level t = Raise ValueError)
    /\ ((exists topic_enum, MathTopic_of topic = Ok topic_enum) ->
        ~ -3 <= difficulty_level <= 4 ->
        generate_problem topic difficulty_level student_level t
        = Raise IndexError)
    /\ ((exists topic_enum, MathTopic_of topic = Ok topic_enum) ->
        -3 <= difficulty_level <= 4 ->
        ~ 1 <= student_level <= 12 ->
        generate_problem topic difficulty_level student_level t
        = Raise ValueError).
Proof.
  intros topic difficulty_level student_level t. unfold generate_problem.
  split; [|split].
  - intro N. destruct (MathTopic_of topic) as [te|e] eqn:E.
    + now contradiction (N te).
    + apply enum_raises_value_error in E. now subst.
  - intros [te ->] N. cbn [bind].
    rewrite index_out_of_range; [reflexivity|]. unfold len. cbn. lia.
  - intros [te ->] L N. cbn [bind].
    destruct (tier_of_level difficulty_level L) as (name & d & I & D & _).
    rewrite I. cbn [bind]. rewrite D. cbn [bind].
    now rewrite (GradeLevel_of_invalid student_level N).
Qed.

Lemma generate_problem_raises_witness :
  (forall topic_enum, MathTopic_of "algebra" <> Ok topic_enum)
  /\ generate_problem "algebra" 9 99 tape_4_10 = Raise ValueError.
Proof.
  assert (N : forall topic_enum, MathTopic_of "algebra" <> Ok topic_enum)
    by (intros te H; discriminate).
  split; [exact N|].
  exact (proj1 (generate_problem_raises "algebra" 9 99 tape_4_10) N).
Defined.

(** X12.  A topic without a generator of its own gets an addition problem:
    for the same arguments and the same state of the random source,
    [generate_problem] yields for it what it yields for [basic_addition],
    apart from the topic and the id. *)
Theorem unmapped_topic_falls_back_to_addition :
  forall (topic : string) (topic_enum : MathTopic)
         (difficulty_level student_level : Z) (t : tape Z),
    MathTopic_of topic = Ok topic_enum ->
    ~ In topic_enum dedicated ->
    let content (r : result (Problem * tape Z)) :=
      match r with
      | Ok (p, t') =>
          Ok (problem_grade_level p, problem_difficulty p, question p,
              answer p, solution_steps p, hints p, explanation p, t')
      | Raise e => Raise e
      end in
    content (generate_problem topic difficulty_level student_level t)
    = content (generate_problem "basic_addition" difficulty_level
                 student_level t).
Proof.
  intros topic topic_enum difficulty_level student_level t Ht N content.
  subst content. unfold generate_problem. rewrite Ht.
  change (MathTopic_of "basic_addition") with (Ok BASIC_ADDITION).
  cbn [bind].
  destruct (index _ (difficulty_level - 1)) as [name|e]; [|reflexivity].
  cbn [bind]. destruct (DifficultyLevel_of name) as [d|e]; [|reflexivity].
  cbn [bind].
  destruct (GradeLevel_of (str_int student_level)) as [g|e]; [|reflexivity].
  cbn [bind].
  assert (G : get_default MathTopic_beq topic_enum _generate_default generators
              = get_default MathTopic_beq BASIC_ADDITION _generate_default
                  generators).
  { destruct topic_enum; try reflexivity;
      exfalso; apply N; unfold dedicated; cbn; tauto. }
  rewrite G.
  destruct (get_default MathTopic_beq BASIC_ADDITION _generate_default
              generators d t) as [problem_data t1].
  destruct (randint 1000 9999 t1) as [n t2]. reflexivity.
Qed.

Lemma unmapped_topic_falls_back_to_addition_witness :
  MathTopic_of "geometry" = Ok GEOMETRY
  /\ ~ In GEOMETRY dedicated
  /\ option_map (fun p => answer (fst p))
       (match generate_problem "geometry" 2 3 tape_4_10 with
        | Ok r => Some r | Raise _ => None end)
     = option_map (fun p => answer (fst p))
         (match generate_problem "basic_addition" 2 3 tape_4_10 with
          | Ok r => Some r | Raise _ => None end).
Proof.
  assert (N : ~ In GEOMETRY dedicated)
    by (unfold dedicated; cbn; intuition discriminate).
  split; [reflexivity|]. split; [exact N|].
  pose proof (unmapped_topic_falls_back_to_addition "geometry" GEOMETRY 2 3
                tape_4_10 eq_refl N) as H.
  cbv zeta in H.
  destruct (generate_problem "geometry" 2 3 tape_4_10) as [[p t1]|e],
           (generate_problem "basic_addition" 2 3 tape_4_10) as [[p' t1']|e'];
    try discriminate; cbn [option_map fst]; try reflexivity.
  injection H as _ _ _ H _ _ _ _. now rewrite H.
Defined.

(** ** [generate_practice_set] *)

(** X13.  A practice set has as many problems as asked for, none for a
    count of zero or less; every problem is of the given topic and tier,
    is filed under grade 5, has four solution steps and three hints, and
    has the id [practice_<topic value>_<n>] for an [n] of 1000..9999. *)
Theorem practice_set_shape :
  forall (topic : MathTopic) (num_problems : Z) (difficulty : DifficultyLevel)
         (t : tape Z),
    let problems := fst (generate_practice_set topic num_problems difficulty t) in
    len problems = Z.max 0 num_problems
    /\ Forall
         (fun p =>
            problem_topic p = topic
            /\ problem_difficulty p = difficulty
            /\ problem_grade_level p = GRADE_5
            /\ List.length (solution_steps p) = 4%nat
            /\ List.length (hints p) = 3%nat
            /\ exists n, 1000 <= n <= 9999
                         /\ problem_id p
                            = "practice_" ++ topic_value topic ++ "_"
                                ++ str_int n)
         problems.
Proof.
  intros topic num_problems difficulty t problems. subst problems.
  unfold generate_practice_set, len.
  assert (L : forall n t0,
             List.length (fst (practice_loop topic n difficulty t0)) = n
             /\ Forall
                  (fun p =>
                     problem_topic p = topic
                     /\ problem_difficulty p = difficulty
                     /\ problem_grade_level p = GRADE_5
                     /\ List.length (solution_steps p) = 4%nat
                     /\ List.length (hints p) = 3%nat
                     /\ exists n, 1000 <= n <= 9999
                                  /\ problem_id p
                                     = "practice_" ++ topic_value topic ++ "_"
                                         ++ str_int n)
                  (fst (practice_loop topic n difficulty t0))).
  { induction n as [|n IH]; intro t0.
    - split; [reflexivity | constructor].
    - cbn [practice_loop]. unfold bindR, ret.
      pose proof (generator_shape topic difficulty t0) as [S H].
      destruct (get_default MathTopic_beq topic _generate_default generators
                  difficulty t0) as [problem_data t1].
      cbn [fst] in S, H.
      draw 1000 9999 t1 k t2 Rk.
      destruct (IH t2) as [IL IF].
      destruct (practice_loop topic n difficulty t2) as [rest t3].
      cbn [fst] in IL, IF |- *. split; [cbn; now rewrite IL|].
      constructor; [|exact IF].
      cbn [problem_topic problem_difficulty problem_grade_level solution_steps
           hints problem_id].
      repeat split; try assumption. now exists k. }
  destruct (L (Z.to_nat num_problems) t) as [L1 L2].
  split; [rewrite L1; lia | exact L2].
Qed.

End ProblemEngineMore.

(* ================================================================== *)
(** * Further properties of the learning-path engine *)
(* ================================================================== *)

Module LearningPathMore.
Import LearningPathGenerator DictFacts FloatFacts Examples LearningPathFacts
  PyMore ProblemEngineMore.

(** ** [get_next_lesson] *)

(** X14.  [get_next_lesson] returns nothing when [current_lesson] is at or
    past the end of the lessons, the lesson at [current_lesson] when the
    index is within the list, the lesson counted from the end for a
    negative index down to [-len(lessons)], and raises [IndexError] below
    that. *)
Theorem get_next_lesson_cases :
  forall path : LearningPath,
    let i := current_lesson path in
    let n := len (lessons path) in
    (n <= i -> get_next_lesson path = Ok None)
    /\ (0 <= i < n ->
        exists lesson,
          nth_error (lessons path) (Z.to_nat i) = Some lesson
          /\ get_next_lesson path = Ok (Some lesson))
    /\ (- n <= i < 0 ->
        exists lesson,
          nth_error (lessons path) (Z.to_nat (n + i)) = Some lesson
          /\ get_next_lesson path = Ok (Some lesson))
    /\ (i < - n -> get_next_lesson path = Raise IndexError).
Proof.
  intros path i n. subst i n. unfold get_next_lesson, index, len.
  set (i := current_lesson path). set (l := lessons path).
  split; [|split; [|split]].
  - intro H. destruct (i <? Z.of_nat (List.length l)) eqn:E; [|reflexivity].
    apply Z.ltb_lt in E. lia.
  - intro H. destruct (i <? Z.of_nat (List.length l)) eqn:E;
      [|apply Z.ltb_ge in E; lia].
    destruct (i <? 0) eqn:E0; [apply Z.ltb_lt in E0; lia|]. rewrite E0.
    destruct (nth_error l (Z.to_nat i)) as [a|] eqn:N.
    + exists a. now split.
    + apply nth_error_None in N. lia.
  - intro H. destruct (i <? Z.of_nat (List.length l)) eqn:E;
      [|apply Z.ltb_ge in E; lia].
    destruct (i <? 0) eqn:E0; [|apply Z.ltb_ge in E0; lia].
    destruct (Z.of_nat (List.length l) + i <? 0) eqn:E1;
      [apply Z.ltb_lt in E1; lia|].
    destruct (nth_error l (Z.to_nat (Z.of_nat (List.length l) + i)))
      as [a|] eqn:N.
    + exists a. now split.
    + apply nth_error_None in N. lia.
  - intro H. destruct (i <? Z.of_nat (List.length l)) eqn:E;
      [|apply Z.ltb_ge in E; lia].
    destruct (i <? 0) eqn:E0; [|apply Z.ltb_ge in E0; lia].
    destruct (Z.of_nat (List.length l) + i <? 0) eqn:E1; [reflexivity|].
    apply Z.ltb_ge in E1. lia.
Qed.

(** ** [create_path] *)

(** X15.  [create_path] returns a path exactly when the grade is one of
    [1 .. 12] and the learning style is one of the four known styles;
    otherwise it raises [ValueError]. *)
Theorem create_path_returns_iff :
  forall (cur : Curriculum.t) (student_id : string) (grade_level : Z)
         (assessment_results : dict string float) (learning_style : string)
         (goals : option (list string)) (clk : tape datetime),
    let r := create_path cur student_id grade_level assessment_results
               learning_style goals clk in
    ((1 <= grade_level <= 12
      /\ exists style, LearningStyle_of learning_style = Ok style)
     <-> exists path clk', r = Ok (path, clk'))
    /\ ((forall path clk', r <> Ok (path, clk')) -> r = Raise ValueError).
Proof.
  intros cur student_id grade_level assessment_results learning_style goals
    clk r.
  assert (Bad : ~ (1 <= grade_level <= 12
                   /\ exists style, LearningStyle_of learning_style = Ok style)
                -> r = Raise ValueError).
  { intro N. subst r. unfold create_path, _get_or_create_student.
    destruct (GradeLevel_of (str_int grade_level)) as [g|e] eqn:G.
    - apply GradeLevel_of_int in G. cbn [bind].
      destruct (LearningStyle_of learning_style) as [s|e] eqn:S.
      + exfalso. apply N. split; [exact G | now exists s].
      + apply enum_raises_value_error in S. now subst.
    - apply enum_raises_value_error in G. now subst. }
  assert (Good : 1 <= grade_level <= 12
                 /\ (exists style, LearningStyle_of learning_style = Ok style)
                 -> exists path clk', r = Ok (path, clk')).
  { intros [G [style S]].
    destruct (create_path_returns cur student_id grade_level assessment_results
                learning_style goals clk style G S)
      as (_ & p & c & _ & C & _). now exists p, c. }
  split; [split; [exact Good|]|].
  - intros (p & c & E).
    destruct (Z_le_dec 1 grade_level) as [L1|L1];
      [destruct (Z_le_dec grade_level 12) as [L2|L2]|].
    + split; [lia|].
      destruct (LearningStyle_of learning_style) as [s|e] eqn:S;
        [now exists s|].
      rewrite Bad in E; [discriminate|]. intros [_ [s' S']]. discriminate.
    + rewrite Bad in E; [discriminate | intros [? _]; lia].
    + rewrite Bad in E; [discriminate | intros [? _]; lia].
  - intro N. apply Bad. intro H. destruct (Good H) as (p & c & E).
    now apply (N p c).
Qed.

(** Assigning to a key that is not in the dictionary appends the entry. *)
Lemma set_absent (t : MathTopic) (v : float) (d : dict MathTopic float) :
  get MathTopic_beq t d = None -> set MathTopic_beq t v d = (d ++ [(t, v)])%list.
Proof.
  induction d as [|[k w] d IH]; [reflexivity|].
  cbn [get set app]. destruct (MathTopic_beq t k); [discriminate|].
  intro H. now rewrite IH.
Qed.

Lemma get_appended (t k : MathTopic) (v : float) (d : dict MathTopic float) :
  t <> k -> get MathTopic_beq t d = None ->
  get MathTopic_beq t (d ++ [(k, v)])%list = None.
Proof.
  intros N. induction d as [|[k' w] d IH]; cbn [get app].
  - intros _. now rewrite (eqb_differ MathTopic_beq MathTopic_beq_eq t k N).
  - destruct (MathTopic_beq t k'); [discriminate | exact IH].
Qed.

(** The comprehension that seeds the mastery scores, over topics without
    repetition. *)
Lemma seed_mastery_eq (assessment_results : dict string float)
    (topics : list MathTopic) :
  NoDup topics ->
  seed_mastery topics assessment_results
  = map (fun t => (t, get_default String.eqb (topic_value t) 0.0%float
                        assessment_results))
      topics.
Proof.
  unfold seed_mastery.
  set (f := fun t => (t, get_default String.eqb (topic_value t) 0.0%float
                           assessment_results)).
  assert (G : forall ts acc,
             NoDup ts ->
             (forall t, In t ts -> get MathTopic_beq t acc = None) ->
             fold_left
               (fun d topic =>
                  set MathTopic_beq topic
                    (get_default String.eqb (topic_value topic) 0.0%float
                       assessment_results) d)
               ts acc
             = (acc ++ map f ts)%list).
  { induction ts as [|t ts IH]; intros acc ND A.
    - cbn. now rewrite app_nil_r.
    - inversion ND as [|? ? Ht ND']; subst. cbn [fold_left map].
      rewrite set_absent by (apply A; now left).
      rewrite IH; [now rewrite <- app_assoc | exact ND' |].
      intros t' H'. apply get_appended.
      + intros ->. contradiction.
      + apply A. now right. }
  intro ND. now rewrite (G topics [] ND) by reflexivity.
Qed.

(** No grade lists a topic twice, and every grade lists some topic. *)
Lemma grade_topics_nodup (grade : GradeLevel) :
  NoDup (Curriculum.get_topics_for_grade grade)
  /\ Curriculum.get_topics_for_grade grade <> [].
Proof.
  split; [|destruct grade; discriminate].
  destruct grade; cbv [Curriculum.get_topics_for_grade get_default get
                       Curriculum.topics_by_grade GradeLevel_beq];
    repeat constructor; cbn; intuition discriminate.
Qed.

(** What [create_path] returns for arguments in range. *)
Lemma create_path_fields (cur : Curriculum.t) (student_id : string)
    (grade_level : Z) (assessment_results : dict string float)
    (learning_style : string) (goals : option (list string))
    (clk : tape datetime) (style : LearningStyle) :
  1 <= grade_level <= 12 ->
  LearningStyle_of learning_style = Ok style ->
  exists (grade : GradeLevel) (path : LearningPath) (clk' : tape datetime),
    GradeLevel_of (str_int grade_level) = Ok grade
    /\ create_path cur student_id grade_level assessment_results
         learning_style goals clk = Ok (path, clk')
    /\ lessons path
       = _generate_lesson_sequence cur
           {| student_ident := student_id; student_name := "Student";
              student_grade_level := grade; student_age := grade_level + 5;
              student_learning_style := style |}
           (Curriculum.get_topics_for_grade grade)
           (Spec.strong_topics assessment_results)
           (Spec.weak_topics assessment_results)
           (match goals with Some g => g | None => [] end)
    /\ mastery_scores path
       = seed_mastery (Curriculum.get_topics_for_grade grade) assessment_results
    /\ current_lesson path = 0 /\ progress path = []
    /\ adaptive_adjustments path = []
    /\ student_id = Models.student_id path
    /\ learning_goals path = match goals with Some g => g | None => [] end
    /\ path_id path = (student_id, clk 0%nat).
Proof.
  intros G S. destruct (GradeLevel_of_valid grade_level G) as [grade Hg].
  exists grade. unfold create_path, _get_or_create_student.
  rewrite Hg, S. cbn [bind].
  replace ((3 <=? grade_level + 5) && (grade_level + 5 <=? 18)) with true
    by (symmetry; apply andb_true_intro; split; apply Z.leb_le; lia).
  rewrite analyze_assessment_eq.
  eexists. eexists. split; [reflexivity|]. split; [reflexivity|].
  repeat split.
Qed.

(** X16.  For arguments in range, the mastery scores of a new path list
    the topics of the grade, in the order of the curriculum, each with the
    score the assessment gives under the topic's name and 0.0 when the
    assessment does not name it; an assessed topic that the grade does not
    list is not tracked. *)
Theorem create_path_seeds_mastery :
  forall (cur : Curriculum.t) (student_id : string) (grade_level : Z)
         (assessment_results : dict string float) (learning_style : string)
         (goals : option (list string)) (clk : tape datetime)
         (style : LearningStyle),
    1 <= grade_level <= 12 ->
    LearningStyle_of learning_style = Ok style ->
    exists (grade : GradeLevel) (path : LearningPath) (clk' : tape datetime),
      GradeLevel_of (str_int grade_level) = Ok grade
      /\ create_path cur student_id grade_level assessment_results
           learning_style goals clk = Ok (path, clk')
      /\ mastery_scores path
         = map (fun t => (t, get_default String.eqb (topic_value t) 0.0%float
                               assessment_results))
             (Curriculum.get_topics_for_grade grade)
      /\ keys (mastery_scores path) = Curriculum.get_topics_for_grade grade
      /\ (forall t, ~ In t (Curriculum.get_topics_for_grade grade) ->
                    get MathTopic_beq t (mastery_scores path) = None).
Proof.
  intros cur student_id grade_level assessment_results learning_style goals
    clk style G S.
  destruct (create_path_fields cur student_id grade_level assessment_results
              learning_style goals clk style G S)
    as (grade & path & clk' & Hg & C & _ & M & _).
  exists grade, path, clk'.
  rewrite M, (seed_mastery_eq _ _ (proj1 (grade_topics_nodup grade))).
  split; [exact Hg|]. split; [exact C|]. split; [reflexivity|]. split.
  - unfold keys. rewrite map_map. cbn [fst]. apply map_id.
  - intros t N. clear M.
    induction (Curriculum.get_topics_for_grade grade) as [|k ks IH];
      [reflexivity|].
    cbn [map get].
    rewrite (eqb_differ MathTopic_beq MathTopic_beq_eq t k)
      by (intros ->; apply N; now left).
    apply IH. intro H. apply N. now right.
Qed.

Lemma create_path_seeds_mastery_witness :
  1 <= 3 <= 12
  /\ LearningStyle_of "auditory" = Ok AUDITORY
  /\ exists (grade : GradeLevel) (path : LearningPath) (clk' : tape datetime),
       GradeLevel_of (str_int 3) = Ok grade
       /\ create_path Curriculum.sample "student_1" 3 assessment "auditory"
            None clock = Ok (path, clk')
       /\ mastery_scores path
          = map (fun t => (t, get_default String.eqb (topic_value t) 0.0%float
                                assessment))
              (Curriculum.get_topics_for_grade grade)
       /\ keys (mastery_scores path) = Curriculum.get_topics_for_grade grade
       /\ (forall t, ~ In t (Curriculum.get_topics_for_grade grade) ->
                     get MathTopic_beq t (mastery_scores path) = None).
Proof.
  split; [lia|]. split; [reflexivity|].
  apply (create_path_seeds_mastery Curriculum.sample "student_1" 3 assessment
           "auditory" None clock AUDITORY); [lia | reflexivity].
Defined.

(** ** The catalogue and the lesson sequence *)

Lemma GradeLevel_beq_eq (a b : GradeLevel) : GradeLevel_beq a b = true <-> a = b.
Proof.
  split; [apply internal_GradeLevel_dec_bl | apply internal_GradeLevel_dec_lb].
Qed.

Lemma topic_in_In (t : MathTopic) (l : list MathTopic) :
  topic_in t l = true <-> In t l.
Proof.
  unfold topic_in. rewrite existsb_exists. split.
  - intros (y & Hy & E). apply MathTopic_beq_eq in E. now subst.
  - intro H. exists t. split; [assumption | now apply MathTopic_beq_eq].
Qed.

Lemma in_lessons_for_topic (cur : Curriculum.t) (topic : MathTopic)
    (grade : option GradeLevel) (lesson : Lesson) :
  In lesson (Curriculum.get_lessons_for_topic cur topic grade)
  <-> In lesson (map snd (Curriculum.lesson_store cur))
      /\ lesson_topic lesson = topic
      /\ (forall g, grade = Some g -> lesson_grade_level lesson = g).
Proof.
  unfold Curriculum.get_lessons_for_topic. rewrite filter_In.
  rewrite andb_true_iff, MathTopic_beq_eq.
  destruct grade as [g|].
  - rewrite GradeLevel_beq_eq. split.
    + intros (H & T & G). repeat split; auto. intros g' E. now injection E as <-.
    + intros (H & T & G). repeat split; auto.
  - split.
    + intros (H & T & _). repeat split; auto. discriminate.
    + intros (H & T & _). repeat split; auto.
Qed.

(** X17.  [get_lessons_for_topic] returns the lessons of the store, in the
    order of the store, that have the topic asked for and, when a grade is
    given, that grade: with a grade it returns some of what it returns
    without one, and from an empty store it returns nothing. *)
Theorem get_lessons_for_topic_contract :
  forall (cur : Curriculum.t) (topic : MathTopic) (grade : option GradeLevel),
    (forall lesson,
        In lesson (Curriculum.get_lessons_for_topic cur topic grade)
        <-> In lesson (map snd (Curriculum.lesson_store cur))
            /\ lesson_topic lesson = topic
            /\ (forall g, grade = Some g -> lesson_grade_level lesson = g))
    /\ Curriculum.get_lessons_for_topic cur topic grade
       = filter
           (fun lesson =>
              match grade with
              | Some g => GradeLevel_beq (lesson_grade_level lesson) g
              | None => true
              end)
           (Curriculum.get_lessons_for_topic cur topic None)
    /\ (Curriculum.lesson_store cur = [] ->
        Curriculum.get_lessons_for_topic cur topic grade = []).
Proof.
  intros cur topic grade. split; [|split].
  - intro lesson. apply in_lessons_for_topic.
  - unfold Curriculum.get_lessons_for_topic.
    destruct grade as [g|];
      induction (map snd (Curriculum.lesson_store cur)) as [|l ls IH];
      try reflexivity;
      cbn [filter];
      destruct (MathTopic_beq (lesson_topic l) topic); cbn [andb filter];
      try exact IH.
    + destruct (GradeLevel_beq (lesson_grade_level l) g);
        [f_equal|]; exact IH.
    + f_equal. exact IH.
  - intro E. unfold Curriculum.get_lessons_for_topic. now rewrite E.
Qed.

Lemma in_insert_sorted {A} (key : A -> Z) (x y : A) (l : list A) :
  In x (insert_sorted key y l) -> x = y \/ In x l.
Proof.
  induction l as [|z l IH]; cbn [insert_sorted].
  - intros [->|[]]. now left.
  - destruct (key y <=? key z).
    + intros [->|H]; [now left | now right].
    + intros [->|H]; [right; now left|].
      destruct (IH H) as [->|H']; [now left | right; now right].
Qed.

Lemma in_sort_by {A} (key : A -> Z) (x : A) (l : list A) :
  In x (sort_by key l) -> In x l.
Proof.
  unfold sort_by. induction l as [|y l IH]; cbn [fold_right]; [auto|].
  intro H. apply in_insert_sorted in H as [->|H]; [now left | right; auto].
Qed.

Lemma length_insert_sorted {A} (key : A -> Z) (y : A) (l : list A) :
  List.length (insert_sorted key y l) = S (List.length l).
Proof.
  induction l as [|z l IH]; cbn [insert_sorted]; [reflexivity|].
  destruct (key y <=? key z); cbn [List.length]; [reflexivity | now rewrite IH].
Qed.

Lemma length_flat_map_le {A B} (f : A -> list B) (k : nat) (l : list A) :
  (forall x, (List.length (f x) <= k)%nat) ->
  (List.length (flat_map f l) <= k * List.length l)%nat.
Proof.
  intro H. induction l as [|x l IH]; cbn [flat_map List.length]; [lia|].
  rewrite length_app. specialize (H x). lia.
Qed.

(** X18.  Every lesson id of a generated sequence is the id of a lesson of
    the catalogue for the student's grade, picked for a weakness topic,
    for a topic of the grade that is neither a weakness nor a strength, or
    for a strength topic with [advanced] in its lower-cased title; and the
    sequence holds at most two lessons per weakness, one per topic of the
    grade and one per strength. *)
Theorem lesson_sequence_from_catalogue :
  forall (cur : Curriculum.t) (student : Student)
         (topics strengths weaknesses : list MathTopic) (goals : list string),
    let sequence :=
      _generate_lesson_sequence cur student topics strengths weaknesses goals in
    (forall id,
        In id sequence ->
        exists lesson,
          In lesson (map snd (Curriculum.lesson_store cur))
          /\ lesson_id lesson = id
          /\ lesson_grade_level lesson = student_grade_level student
          /\ (In (lesson_topic lesson) weaknesses
              \/ (In (lesson_topic lesson) topics
                  /\ ~ In (lesson_topic lesson) weaknesses
                  /\ ~ In (lesson_topic lesson) strengths)
              \/ (In (lesson_topic lesson) strengths
                  /\ contains "advanced" (lower (title lesson)) = true)))
    /\ len sequence
       <= 2 * len weaknesses + len topics + len strengths.
Proof.
  intros cur student topics strengths weaknesses goals sequence.
  subst sequence. unfold _generate_lesson_sequence. split.
  - intros id H. rewrite !in_app_iff, !in_flat_map in H.
    destruct H as [(t & Ht & H) | [(t & Ht & H) | (t & Ht & H)]].
    + apply in_map_iff in H as (lesson & <- & H).
      apply in_take, in_sort_by, in_lessons_for_topic in H as (S & T & G).
      exists lesson. repeat split; auto. left. now rewrite T.
    + destruct (negb (topic_in t weaknesses) && negb (topic_in t strengths))
        eqn:E; [|contradiction].
      apply andb_prop in E as [E1 E2]. apply negb_true_iff in E1, E2.
      destruct (Curriculum.get_lessons_for_topic cur t
                  (Some (student_grade_level student))) as [|first rest] eqn:L;
        [contradiction|].
      destruct H as [<-|[]].
      assert (F : In first (Curriculum.get_lessons_for_topic cur t
                              (Some (student_grade_level student))))
        by (rewrite L; now left).
      apply in_lessons_for_topic in F as (S & T & G).
      exists first. repeat split; auto. right. left. rewrite T.
      repeat split; [assumption | |];
        intro C; apply topic_in_In in C; congruence.
    + destruct (filter _ _) as [|first rest] eqn:L; [contradiction|].
      destruct H as [<-|[]].
      assert (F : In first (first :: rest)) by now left.
      rewrite <- L in F. apply filter_In in F as [F A].
      apply in_lessons_for_topic in F as (S & T & G).
      exists first. repeat split; auto. right. right. now rewrite T.
  - unfold len. rewrite !length_app.
    pose proof (length_flat_map_le
      (fun topic =>
         map lesson_id
           (take 2 (sort_by duration_minutes
                      (Curriculum.get_lessons_for_topic cur topic
                         (Some (student_grade_level student))))))
      2 weaknesses) as W.
    pose proof (length_flat_map_le
      (fun topic =>
         if negb (topic_in topic weaknesses) && negb (topic_in topic strengths)
         then match Curriculum.get_lessons_for_topic cur topic
                      (Some (student_grade_level student)) with
              | first :: _ => [lesson_id first]
              | [] => []
              end
         else [])
      1 topics) as T.
    pose proof (length_flat_map_le
      (fun topic =>
         match filter (fun l => contains "advanced" (lower (title l)))
                 (Curriculum.get_lessons_for_topic cur topic
                    (Some (student_grade_level student))) with
         | first :: _ => [lesson_id first]
         | [] => []
         end)
      1 strengths) as S.
    assert (W' : forall x : MathTopic,
               (List.length
                  (map lesson_id
                     (take 2 (sort_by duration_minutes
                                (Curriculum.get_lessons_for_topic cur x
                                   (Some (student_grade_level student))))))
                <= 2)%nat).
    { intro x. rewrite length_map. unfold take. apply firstn_le_length. }
    assert (T' : forall x : MathTopic,
               (List.length
                  (if negb (topic_in x weaknesses) && negb (topic_in x strengths)
                   then match Curriculum.get_lessons_for_topic cur x
                                (Some (student_grade_level student)) with
                        | first :: _ => [lesson_id first]
                        | [] => []
                        end
                   else [])
                <= 1)%nat).
    { intro x. destruct (negb _ && negb _); [|cbn; lia].
      destruct (Curriculum.get_lessons_for_topic cur x _); cbn; lia. }
    assert (S' : forall x : MathTopic,
               (List.length
                  match filter (fun l => contains "advanced" (lower (title l)))
                          (Curriculum.get_lessons_for_topic cur x
                             (Some (student_grade_level student))) with
                  | first :: _ => [lesson_id first]
                  | [] => []
                  end
                <= 1)%nat).
    { intro x. destruct (filter _ _); cbn; lia. }
    specialize (W W'). specialize (T T'). specialize (S S'). lia.
Qed.

(** ** [update_path]: the lessons and the audit log *)

(** Inserting after position [i] leaves the first [i] elements alone and
    drops nothing. *)
Lemma insert_keeps_prefix {A} (i : Z) (x : A) (l : list A) :
  0 <= i <= len l ->
  firstn (Z.to_nat i) (insert i x l) = firstn (Z.to_nat i) l.
Proof.
  unfold insert, len. intro H.
  destruct (i <? 0) eqn:E; [apply Z.ltb_lt in E; lia|].
  rewrite Z.min_l by lia.
  rewrite firstn_app, firstn_firstn, Nat.min_id.
  rewrite length_firstn, Nat.min_l by lia.
  rewrite Nat.sub_diag. cbn [firstn]. apply app_nil_r.
Qed.

Lemma insert_keeps_members {A} (i : Z) (x y : A) (l : list A) :
  In y l -> In y (insert i x l).
Proof.
  unfold insert. intro H.
  rewrite <- (firstn_skipn
                (Z.to_nat (if i <? 0 then Z.max 0 (len l + i)
                           else Z.min i (len l))) l) in H.
  apply in_app_iff in H as [H|H]; apply in_app_iff; [now left|].
  right. now right.
Qed.

(** What one turn of the remedial loop does. *)
Lemma remedial_step_effect (cur : Curriculum.t) (topic : MathTopic)
    (path : LearningPath) (clk : tape datetime) :
  let path' := fst (remedial_step cur topic path clk) in
  (exists added,
      adaptive_adjustments path' = (adaptive_adjustments path ++ added)%list
      /\ len (lessons path') = len (lessons path) + len added
      /\ (added = []
          \/ exists ts,
               added = [added_remedial ts topic
                          (get_default MathTopic_beq topic 0.0%float
                             (mastery_scores path))]
               /\ Curriculum.get_lessons_for_topic cur topic None <> []))
  /\ (0 <= current_lesson path < len (lessons path) ->
      firstn (Z.to_nat (current_lesson path + 1)) (lessons path')
      = firstn (Z.to_nat (current_lesson path + 1)) (lessons path))
  /\ (forall id, In id (lessons path) -> In id (lessons path'))
  /\ progress path' = progress path
  /\ recommended_topics path' = recommended_topics path
  /\ learning_goals path' = learning_goals path
  /\ path_id path' = path_id path
  /\ Models.student_id path' = Models.student_id path
  /\ created_at path' = created_at path
  /\ updated_at path' = updated_at path.
Proof.
  unfold remedial_step.
  destruct (Curriculum.get_lessons_for_topic cur topic None) as [|first rest].
  - cbn. split.
    + exists []. rewrite app_nil_r. split; [reflexivity|].
      split; [unfold len; cbn; lia | now left].
    + repeat split; auto.
  - cbn. split.
    + eexists. split; [reflexivity|]. split.
      * rewrite length_insert. unfold len. cbn. lia.
      * right. eexists. split; [reflexivity | discriminate].
    + split; [intro H; apply insert_keeps_prefix; lia|].
      split; [intros id H; now apply insert_keeps_members|].
      repeat split.
Qed.

Lemma remedial_loop_effect (cur : Curriculum.t) (topics : list MathTopic) :
  forall (path : LearningPath) (clk : tape datetime),
    let path' := fst (remedial_loop cur topics path clk) in
    (exists added,
        adaptive_adjustments path' = (adaptive_adjustments path ++ added)%list
        /\ len (lessons path') = len (lessons path) + len added
        /\ len added <= len topics
        /\ Forall
             (fun entry =>
                exists ts topic,
                  entry = added_remedial ts topic
                            (get_default MathTopic_beq topic 0.0%float
                               (mastery_scores path))
                  /\ In topic topics
                  /\ Curriculum.get_lessons_for_topic cur topic None <> [])
             added)
    /\ (0 <= current_lesson path < len (lessons path) ->
        firstn (Z.to_nat (current_lesson path + 1)) (lessons path')
        = firstn (Z.to_nat (current_lesson path + 1)) (lessons path))
    /\ (forall id, In id (lessons path) -> In id (lessons path'))
    /\ progress path' = progress path
    /\ recommended_topics path' = recommended_topics path
    /\ learning_goals path' = learning_goals path
    /\ path_id path' = path_id path
    /\ Models.student_id path' = Models.student_id path
    /\ created_at path' = created_at path
    /\ updated_at path' = updated_at path.
Proof.
  induction topics as [|topic rest IH]; intros path clk.
  - cbn. split.
    + exists []. rewrite app_nil_r. split; [reflexivity|].
      split; [unfold len; cbn; lia|]. split; [unfold len; cbn; lia|].
      constructor.
    + repeat split; auto.
  - cbn [remedial_loop].
    pose proof (remedial_step_effect cur topic path clk) as S.
    pose proof (remedial_step_keeps cur topic path clk) as K.
    destruct (remedial_step cur topic path clk) as [p1 c1].
    cbn [fst] in S, K.
    destruct S as ((a1 & A1 & L1 & E1) & P1 & M1 & S1).
    destruct K as (K1 & K2 & K3).
    pose proof (IH p1 c1) as I.
    destruct (remedial_loop cur rest p1 c1) as [p2 c2].
    cbn [fst] in I |- *.
    destruct I as ((a2 & A2 & L2 & B2 & F2) & P2 & M2 & S2).
    split.
    + exists (a1 ++ a2)%list. rewrite A2, A1, app_assoc.
      split; [reflexivity|]. unfold len in *. rewrite length_app.
      split; [lia|]. split.
      * cbn [List.length].
        destruct E1 as [->|(ts & -> & _)]; cbn [List.length] in *; lia.
      * apply Forall_app. split.
        -- destruct E1 as [->|(ts & -> & N)]; [constructor|].
           constructor; [|constructor]. exists ts, topic.
           repeat split; auto. now left.
        -- eapply Forall_impl; [|exact F2].
           intros e (ts & t & -> & HIn & N). exists ts, t.
           rewrite K2. repeat split; auto. now right.
    + split.
      * intro H. rewrite K1 in P2. rewrite P2 by lia. now apply P1.
      * split; [intros id H; apply M2, M1, H|].
        destruct S1 as (S11 & S12 & S13 & S14 & S15 & S16 & S17).
        destruct S2 as (S21 & S22 & S23 & S24 & S25 & S26 & S27).
        repeat split; congruence.
Qed.

(** Within the list, [get_next_lesson] returns the lesson at the index. *)
Lemma get_next_lesson_eq (path : LearningPath) :
  0 <= current_lesson path < len (lessons path) ->
  get_next_lesson path
  = Ok (nth_error (lessons path) (Z.to_nat (current_lesson path))).
Proof.
  intro H. unfold get_next_lesson, index.
  destruct (current_lesson path <? len (lessons path)) eqn:E;
    [|apply Z.ltb_ge in E; lia].
  destruct (current_lesson path <? 0) eqn:E0; [apply Z.ltb_lt in E0; lia|].
  rewrite E0.
  destruct (nth_error (lessons path) (Z.to_nat (current_lesson path))) eqn:N;
    [reflexivity|].
  apply nth_error_None in N. unfold len in H. lia.
Qed.

(** The effect of [update_path] on everything but the mastery scores. *)
Lemma update_path_effect (cur : Curriculum.t) (st : Settings)
    (path : LearningPath) (performance_data : dict string float)
    (clk : tape datetime) :
  let path' := fst (update_path cur st path performance_data clk) in
  let mastery := blend_mastery (mastery_scores path) performance_data in
  (exists added accel,
      adaptive_adjustments path'
      = (adaptive_adjustments path ++ added ++ accel)%list
      /\ len (lessons path') = len (lessons path) + len added
      /\ len added <= 2
      /\ Forall
           (fun entry =>
              exists ts topic m,
                entry = added_remedial ts topic
                          (get_default MathTopic_beq topic 0.0%float mastery)
                /\ In (topic, m) mastery
                /\ (m <? min_accuracy_for_advancement st)%float = true
                /\ Curriculum.get_lessons_for_topic cur topic None <> [])
           added
      /\ (accel = [] \/ exists ts, accel = [accelerated_path ts])
      /\ (accel <> []
          <-> len mastery
              < 2 * len (filter (fun item => (0.95 <? snd item)%float) mastery)))
  /\ (0 <= current_lesson path < len (lessons path) ->
      firstn (Z.to_nat (current_lesson path + 1)) (lessons path')
      = firstn (Z.to_nat (current_lesson path + 1)) (lessons path))
  /\ (forall id, In id (lessons path) -> In id (lessons path'))
  /\ progress path' = progress path
  /\ recommended_topics path' = recommended_topics path
  /\ learning_goals path' = learning_goals path
  /\ path_id path' = path_id path
  /\ Models.student_id path' = Models.student_id path
  /\ created_at path' = created_at path.
Proof.
  intros path' mastery. subst path'. unfold update_path.
  set (path1 := with_mastery_scores _ path).
  set (struggling := map fst (filter _ (mastery_scores path1))).
  pose proof (remedial_loop_effect cur (take 2 struggling) path1 clk) as R.
  pose proof (remedial_loop_keeps cur (take 2 struggling) path1 clk) as K.
  destruct (remedial_loop cur (take 2 struggling) path1 clk) as [p2 c2].
  cbn [fst] in R, K.
  destruct R as ((added & A & L & B & F) & P & M & S1 & S2 & S3 & S4 & S5 & S6 & _).
  destruct K as (K1 & K2 & _).
  change (mastery_scores path1) with mastery in *.
  change (current_lesson path1) with (current_lesson path) in *.
  change (lessons path1) with (lessons path) in *.
  change (adaptive_adjustments path1) with (adaptive_adjustments path) in *.
  assert (B2 : len added <= 2).
  { unfold len, take in *. pose proof (firstn_le_length 2 struggling). lia. }
  assert (F' : Forall
           (fun entry =>
              exists ts topic m,
                entry = added_remedial ts topic
                          (get_default MathTopic_beq topic 0.0%float mastery)
                /\ In (topic, m) mastery
                /\ (m <? min_accuracy_for_advancement st)%float = true
                /\ Curriculum.get_lessons_for_topic cur topic None <> [])
           added).
  { eapply Forall_impl; [|exact F].
    intros e (ts & t & -> & HIn & N).
    apply in_take in HIn. unfold struggling in HIn.
    apply in_map_iff in HIn as ([t' m] & E & HIn). cbn [fst] in E. subst t'.
    apply filter_In in HIn as [HIn Hm]. cbn [snd] in Hm.
    now exists ts, t, m. }
  assert (Hm : more_than_half
                 (len (map fst (filter (fun item => (0.95 <? snd item)%float)
                                  (mastery_scores p2))))
                 (len (mastery_scores p2))
               = (len mastery
                  <? 2 * len (filter (fun item => (0.95 <? snd item)%float)
                                mastery))).
  { rewrite K2. unfold more_than_half, len. now rewrite length_map. }
  rewrite Hm. clear Hm.
  destruct (len mastery
            <? 2 * len (filter (fun item => (0.95 <? snd item)%float) mastery))
    eqn:H;
    unfold utcnow, next;
    cbn [fst with_updated_at with_adaptive_adjustments adaptive_adjustments
         lessons progress recommended_topics learning_goals path_id
         Models.student_id created_at current_lesson mastery_scores].
  - apply Z.ltb_lt in H. split.
    + exists added, [accelerated_path (c2 0%nat)].
      split; [now rewrite A, <- app_assoc|].
      split; [exact L|]. split; [exact B2|]. split; [exact F'|].
      split; [right; now eexists|].
      split; [intros _; exact H | discriminate].
    + repeat split; auto.
  - apply Z.ltb_ge in H. split.
    + exists added, [].
      split; [now rewrite A, app_nil_r|].
      split; [exact L|]. split; [exact B2|]. split; [exact F'|].
      split; [now left|].
      split; [intro C; now contradiction C | intro C; lia].
    + repeat split; auto.
Qed.

(** X19.  [update_path] leaves the index, the progress, the recommended
    topics, the goals and the identity of the path untouched and keeps
    every lesson of the path; when the index is within the lessons, the
    lessons up to and including the current one stay in place, so
    [get_next_lesson] returns after the update what it returned before. *)
Theorem update_path_keeps_position :
  forall (cur : Curriculum.t) (st : Settings) (path : LearningPath)
         (performance_data : dict string float) (clk : tape datetime),
    let path' := fst (update_path cur st path performance_data clk) in
    current_lesson path' = current_lesson path
    /\ progress path' = progress path
    /\ recommended_topics path' = recommended_topics path
    /\ learning_goals path' = learning_goals path
    /\ path_id path' = path_id path
    /\ Models.student_id path' = Models.student_id path
    /\ created_at path' = created_at path
    /\ (forall id, In id (lessons path) -> In id (lessons path'))
    /\ (0 <= current_lesson path < len (lessons path) ->
        firstn (Z.to_nat (current_lesson path + 1)) (lessons path')
        = firstn (Z.to_nat (current_lesson path + 1)) (lessons path)
        /\ get_next_lesson path' = get_next_lesson path).
Proof.
  intros cur st path performance_data clk path'.
  destruct (update_path_effect cur st path performance_data clk)
    as (_ & P & M & S1 & S2 & S3 & S4 & S5 & S6).
  destruct (update_path_keeps cur st path performance_data clk) as (K1 & _ & K3).
  fold path' in P, M, S1, S2, S3, S4, S5, S6, K1, K3.
  repeat (split; [assumption|]).
  intro H. split; [now apply P|].
  rewrite !get_next_lesson_eq by lia. f_equal. rewrite K1.
  assert (E : forall l : list string,
             nth_error l (Z.to_nat (current_lesson path))
             = nth_error (firstn (Z.to_nat (current_lesson path + 1)) l)
                 (Z.to_nat (current_lesson path))).
  { intro l. rewrite nth_error_firstn.
    destruct (Nat.ltb_spec (Z.to_nat (current_lesson path))
                (Z.to_nat (current_lesson path + 1))); [reflexivity | lia]. }
  rewrite (E (lessons path')), (E (lessons path)). now rewrite P.
Qed.

(** X20.  [update_path] only appends to the audit log: it adds one
    [added_remedial] entry for every lesson it splices in, at most two,
    each for a topic whose blended mastery is below the threshold and that
    has a lesson in the catalogue, recording the mastery the path then
    holds for the topic; after them it adds one [accelerated_path] entry
    exactly when more than half of the tracked topics have a mastery above
    0.95. *)
Theorem update_path_appends_to_audit_log :
  forall (cur : Curriculum.t) (st : Settings) (path : LearningPath)
         (performance_data : dict string float) (clk : tape datetime),
    let path' := fst (update_path cur st path performance_data clk) in
    exists added accel,
      adaptive_adjustments path'
      = (adaptive_adjustments path ++ added ++ accel)%list
      /\ len (lessons path') = len (lessons path) + len added
      /\ len added <= 2
      /\ Forall
           (fun entry =>
              exists ts topic m,
                entry = added_remedial ts topic
                          (get_default MathTopic_beq topic 0.0%float
                             (mastery_scores path'))
                /\ In (topic, m) (mastery_scores path')
                /\ (m <? min_accuracy_for_advancement st)%float = true
                /\ Curriculum.get_lessons_for_topic cur topic None <> [])
           added
      /\ (accel = [] \/ exists ts, accel = [accelerated_path ts])
      /\ (accel <> []
          <-> len (mastery_scores path')
              < 2 * len (filter (fun item => (0.95 <? snd item)%float)
                           (mastery_scores path'))).
Proof.
  intros cur st path performance_data clk path'.
  destruct (update_path_effect cur st path performance_data clk) as (E & _).
  destruct (update_path_keeps cur st path performance_data clk) as (_ & M & _).
  fold path' in E, M. rewrite M. exact E.
Qed.

(** ** [complete_lesson] and what follows it *)

(** With an index that is not negative, [get_next_lesson] returns the
    lesson at the index, or nothing past the end. *)
Lemma get_next_lesson_nonneg (path : LearningPath) :
  0 <= current_lesson path ->
  get_next_lesson path
  = Ok (nth_error (lessons path) (Z.to_nat (current_lesson path))).
Proof.
  intro H.
  destruct (Z.lt_ge_cases (current_lesson path) (len (lessons path))) as [L|L].
  - apply get_next_lesson_eq. lia.
  - unfold get_next_lesson.
    destruct (current_lesson path <? len (lessons path)) eqn:E;
      [apply Z.ltb_lt in E; lia|].
    symmetry. f_equal. apply nth_error_None. unfold len in L. lia.
Qed.

(** X21.  After [complete_lesson] on a lesson of the path, with an index
    that is not negative: when the performance reaches the threshold,
    [get_next_lesson] returns the lesson that follows the current one, and
    nothing when the current one was the last; when it does not,
    [get_next_lesson] returns what it returned before (the student
    repeats). *)
Theorem complete_lesson_then_next :
  forall (st : Settings) (path : LearningPath) (lesson_id : string)
         (performance : float) (clk : tape datetime),
    0 <= current_lesson path ->
    In lesson_id (lessons path) ->
    let path' := fst (complete_lesson st path lesson_id performance clk) in
    ((min_accuracy_for_advancement st <=? performance)%float = true ->
     get_next_lesson path'
     = Ok (nth_error (lessons path) (Z.to_nat (current_lesson path + 1))))
    /\ ((min_accuracy_for_advancement st <=? performance)%float = false ->
        get_next_lesson path' = get_next_lesson path).
Proof.
  intros st path lesson_id performance clk N HIn path'. subst path'.
  apply mem_In in HIn. unfold complete_lesson. rewrite HIn.
  split; intro T; rewrite T; unfold utcnow, next; cbn [fst].
  - rewrite get_next_lesson_nonneg by (cbn; lia). reflexivity.
  - reflexivity.
Qed.

Lemma complete_lesson_then_next_witness :
  0 <= current_lesson path_04
  /\ In "lesson_mult_3_1" (lessons path_04)
  /\ get_next_lesson
       (fst (complete_lesson settings path_04 "lesson_mult_3_1" 0.9%float clock))
     = Ok (nth_error (lessons path_04) (Z.to_nat (current_lesson path_04 + 1))).
Proof.
  assert (N : 0 <= current_lesson path_04) by (cbn; lia).
  assert (HIn : In "lesson_mult_3_1" (lessons path_04)) by (now left).
  split; [exact N|]. split; [exact HIn|].
  apply (proj1 (complete_lesson_then_next settings path_04 "lesson_mult_3_1"
                  0.9%float clock N HIn)).
  reflexivity.
Defined.

(** ** Scores that are not numbers *)

Lemma sf_compare_refl (f : spec_float) :
  f <> S754_nan -> SFcompare f f = Some Eq.
Proof.
  destruct f as [s|s| |s m e]; intro N; cbn [SFcompare].
  - reflexivity.
  - destruct s; reflexivity.
  - contradiction.
  - rewrite Z.compare_refl.
    change (Pos.compare_cont Eq m m) with (Pos.compare m m).
    rewrite Pos.compare_refl. destruct s; reflexivity.
Qed.

Lemma is_nan_spec (x : float) :
  PrimFloat.is_nan x = true -> Prim2SF x = S754_nan.
Proof.
  unfold PrimFloat.is_nan. rewrite eqb_spec. unfold SFeqb. intro H.
  destruct (Prim2SF x) as [s|s| |s m e] eqn:E; try reflexivity;
    rewrite sf_compare_refl in H by discriminate; discriminate.
Qed.

(** Every comparison with a NaN is false. *)
Lemma nan_compares_false (x y : float) :
  PrimFloat.is_nan x = true ->
  (y <=? x)%float = false /\ (x <? y)%float = false /\ (y <? x)%float = false.
Proof.
  intro H. apply is_nan_spec in H.
  rewrite leb_spec, !ltb_spec, H. unfold SFleb, SFltb.
  repeat split; destruct (Prim2SF y) as [s|s| |s m e]; reflexivity.
Qed.

(** X22.  A performance or score that is NaN passes no test: whatever the
    threshold, [complete_lesson] records it and does not move the index;
    the classification of an assessment puts the topic in no bucket; and
    after [update_path] a NaN mastery counts neither as struggling nor as
    excelling, so that it triggers no remedial lesson. *)
Theorem nan_passes_no_test :
  forall nan : float,
    PrimFloat.is_nan nan = true ->
    (forall (st : Settings) (path : LearningPath) (lesson_id : string)
            (clk : tape datetime),
        let path' := fst (complete_lesson st path lesson_id nan clk) in
        current_lesson path' = current_lesson path
        /\ (In lesson_id (lessons path) ->
            get String.eqb lesson_id (progress path') = Some nan))
    /\ (forall (acc : list MathTopic * list MathTopic) (topic_str : string),
           analyze_step acc (topic_str, nan) = acc)
    /\ (forall (st : Settings) (mastery : dict MathTopic float)
               (topic : MathTopic),
           ~ In (topic, nan)
               (filter
                  (fun item => (snd item <? min_accuracy_for_advancement st)%float)
                  mastery)
           /\ ~ In (topic, nan)
                  (filter (fun item => (0.95 <? snd item)%float) mastery)).
Proof.
  intros nan H. split; [|split].
  - intros st path lesson_id clk path'. subst path'. unfold complete_lesson.
    destruct (nan_compares_false nan (min_accuracy_for_advancement st) H)
      as (L & _).
    rewrite L. destruct (mem lesson_id (lessons path)) eqn:M.
    + unfold utcnow, next. cbn [fst]. split; [reflexivity|].
      intros _. cbn. apply get_after_set. apply String.eqb_eq.
    + split; [reflexivity|]. intro HIn. apply mem_In in HIn. congruence.
  - intros [strengths weaknesses] topic_str. unfold analyze_step.
    destruct (MathTopic_of topic_str); [|reflexivity].
    destruct (nan_compares_false nan 0.8%float H) as (-> & _).
    destruct (nan_compares_false nan 0.6%float H) as (_ & -> & _).
    reflexivity.
  - intros st mastery topic. split; intro C; apply filter_In in C as [_ C];
      cbn [snd] in C.
    + destruct (nan_compares_false nan (min_accuracy_for_advancement st) H)
        as (_ & L & _). congruence.
    + destruct (nan_compares_false nan 0.95%float H) as (_ & _ & L). congruence.
Qed.

Lemma nan_passes_no_test_witness :
  PrimFloat.is_nan PrimFloat.nan = true
  /\ current_lesson
       (fst (complete_lesson settings path_04 "lesson_mult_3_1" PrimFloat.nan
               clock))
     = current_lesson path_04.
Proof.
  assert (H : PrimFloat.is_nan PrimFloat.nan = true) by reflexivity.
  split; [exact H|].
  apply (proj1 (nan_passes_no_test PrimFloat.nan H) settings path_04
           "lesson_mult_3_1" clock).
Defined.

(** ** The progress dictionary *)

Lemma keys_set (k k' : string) (v : float) (d : dict string float) :
  In k' (keys (set String.eqb k v d)) <-> k' = k \/ In k' (keys d).
Proof.
  unfold keys. induction d as [|[k0 v0] d IH]; cbn [set map fst In].
  - intuition.
  - destruct (String.eqb k k0) eqn:E; cbn [map fst In].
    + apply String.eqb_eq in E. subst k0. intuition.
    + rewrite IH. intuition.
Qed.

Lemma nodup_set (k : string) (v : float) (d : dict string float) :
  NoDup (keys d) -> NoDup (keys (set String.eqb k v d)).
Proof.
  unfold keys. induction d as [|[k0 v0] d IH]; cbn [set map fst]; intro ND.
  - repeat constructor. intros [].
  - inversion ND as [|? ? H0 ND']; subst.
    destruct (String.eqb k k0) eqn:E; cbn [map fst].
    + now constructor.
    + constructor; [|now apply IH].
      intro C. apply (keys_set k k0 v d) in C as [C|C]; [|contradiction].
      subst k0. now rewrite String.eqb_refl in E.
Qed.

Lemma set_twice (k : string) (x y : float) (d : dict string float) :
  set String.eqb k y (set String.eqb k x d) = set String.eqb k y d.
Proof.
  induction d as [|[k0 v0] d IH]; cbn [set].
  - now rewrite String.eqb_refl.
  - destruct (String.eqb k k0) eqn:E; cbn [set]; rewrite E;
      [reflexivity | now rewrite IH].
Qed.

Lemma length_set (k : string) (v : float) (d : dict string float) :
  len (set String.eqb k v d)
  = if mem k (keys d) then len d else len d + 1.
Proof.
  unfold len, mem, keys. induction d as [|[k0 v0] d IH]; cbn [set map fst existsb].
  - reflexivity.
  - destruct (String.eqb k k0); cbn [orb List.length]; [reflexivity|].
    destruct (existsb (String.eqb k) (map fst d)); lia.
Qed.

(** X23.  [complete_lesson] keeps one entry per lesson in [progress]:
    completing a lesson again replaces the performance recorded for it,
    so that after two completions only the second performance is left,
    and the dictionary grows by one entry only for a lesson not yet
    recorded. *)
Theorem complete_lesson_overwrites_progress :
  forall (st : Settings) (path : LearningPath) (lesson_id : string)
         (first second : float) (clk : tape datetime),
    In lesson_id (lessons path) ->
    let once := complete_lesson st path lesson_id first clk in
    let twice := complete_lesson st (fst once) lesson_id second (snd once) in
    progress (fst twice) = set String.eqb lesson_id second (progress path)
    /\ get String.eqb lesson_id (progress (fst twice)) = Some second
    /\ len (progress (fst twice)) = len (progress (fst once))
    /\ len (progress (fst once))
       = (if mem lesson_id (keys (progress path))
          then len (progress path) else len (progress path) + 1).
Proof.
  intros st path lesson_id first second clk HIn once twice.
  apply mem_In in HIn.
  assert (O : progress (fst once)
              = set String.eqb lesson_id first (progress path)
              /\ lessons (fst once) = lessons path).
  { subst once. unfold complete_lesson. rewrite HIn.
    destruct (min_accuracy_for_advancement st <=? first)%float;
      unfold utcnow, next; cbn; split; reflexivity. }
  destruct O as [O1 O2].
  assert (T : progress (fst twice)
              = set String.eqb lesson_id second (progress (fst once))).
  { subst twice. unfold complete_lesson at 1. rewrite O2, HIn.
    destruct (min_accuracy_for_advancement st <=? second)%float;
      unfold utcnow, next; cbn; reflexivity. }
  rewrite T, O1, set_twice.
  split; [reflexivity|].
  split; [apply get_after_set; apply String.eqb_eq|].
  split; [now rewrite !length_set | apply length_set].
Qed.

Lemma complete_lesson_overwrites_progress_witness :
  In "lesson_mult_3_1" (lessons path_04)
  /\ progress
       (fst (complete_lesson settings
               (fst (complete_lesson settings path_04 "lesson_mult_3_1"
                       0.5%float clock))
               "lesson_mult_3_1" 0.9%float
               (snd (complete_lesson settings path_04 "lesson_mult_3_1"
                       0.5%float clock))))
     = set String.eqb "lesson_mult_3_1" 0.9%float (progress path_04).
Proof.
  assert (HIn : In "lesson_mult_3_1" (lessons path_04)) by (now left).
  split; [exact HIn|].
  apply (complete_lesson_overwrites_progress settings path_04
           "lesson_mult_3_1" 0.5%float 0.9%float clock HIn).
Defined.

(** A path that [create_path] returns has no progress yet. *)
Lemma create_path_no_progress (cur : Curriculum.t) (student_id : string)
    (grade_level : Z) (assessment_results : dict string float)
    (learning_style : string) (goals : option (list string))
    (clk clk' : tape datetime) (path : LearningPath) :
  create_path cur student_id grade_level assessment_results learning_style
    goals clk = Ok (path, clk') ->
  progress path = [] /\ adaptive_adjustments path = [].
Proof.
  unfold create_path.
  destruct (_get_or_create_student student_id grade_level learning_style);
    [|discriminate].
  cbn [bind]. destruct (_analyze_assessment assessment_results).
  destruct (GradeLevel_of (str_int grade_level)); [|discriminate].
  cbn [bind]. unfold utcnow, _estimate_completion_date, next.
  intro H. injection H as <- _. split; reflexivity.
Qed.

(** X24.  Along any sequence of the four operations, starting from a path
    whose progress names only lessons of the path, each once, the progress
    of the path keeps naming only lessons of the path, each once. *)
Theorem progress_names_lessons_of_the_path :
  forall (cur : Curriculum.t) (st : Settings) (ops : list operation)
         (path : LearningPath) (clk : tape datetime),
    (forall id, In id (keys (progress path)) -> In id (lessons path)) ->
    NoDup (keys (progress path)) ->
    Forall
      (fun p =>
         (forall id, In id (keys (progress p)) -> In id (lessons p))
         /\ NoDup (keys (progress p)))
      (run cur st ops path clk).
Proof.
  intros cur st ops. induction ops as [|op rest IH]; intros path clk Q ND.
  - constructor.
  - cbn [run]. destruct (apply cur st op path clk) as [[p c]|e] eqn:A;
      [|constructor].
    assert (Q' : (forall id, In id (keys (progress p)) -> In id (lessons p))
                 /\ NoDup (keys (progress p))).
    { destruct op as [sid g a ls goals | pd | | lid perf]; cbn [apply] in A.
      - apply create_path_no_progress in A as [-> _].
        split; [intros id [] | constructor].
      - injection A as A.
        destruct (update_path_effect cur st path pd clk)
          as (_ & _ & M & S & _).
        rewrite A in M, S. cbn [fst] in M, S. rewrite S.
        split; [intros id H; apply M, Q, H | exact ND].
      - destruct (get_next_lesson path); [|discriminate].
        cbn [bind] in A. injection A as <- _. now split.
      - injection A as A. apply (f_equal fst) in A. cbn [fst] in A. subst p.
        unfold complete_lesson.
        destruct (mem lid (lessons path)) eqn:M; [|now split].
        apply mem_In in M.
        destruct (min_accuracy_for_advancement st <=? perf)%float;
          unfold utcnow, next; cbn; (split; [|now apply nodup_set]);
          intros id H; apply keys_set in H as [->|H]; auto. }
    destruct Q' as [Q1 Q2].
    constructor; [now split | now apply IH].
Qed.

Lemma progress_names_lessons_of_the_path_witness :
  (forall id, In id (keys (progress path_04)) -> In id (lessons path_04))
  /\ NoDup (keys (progress path_04))
  /\ Forall
       (fun p =>
          (forall id, In id (keys (progress p)) -> In id (lessons p))
          /\ NoDup (keys (progress p)))
       (run Curriculum.sample settings completes_twice path_04 clock).
Proof.
  assert (Q : forall id, In id (keys (progress path_04))
                         -> In id (lessons path_04)) by (intros id []).
  assert (ND : NoDup (keys (progress path_04))) by constructor.
  split; [exact Q|]. split; [exact ND|].
  exact (progress_names_lessons_of_the_path Curriculum.sample settings
           completes_twice path_04 clock Q ND).
Defined.

End LearningPathMore.
